(** * SecChat (VanishChat): room lifecycle and realtime relay

    A shallow embedding of the server side of the repository, and of the
    encryption helpers and the countdown of its client:

    - [models/Room.js], [models/Message.js] and [schema.sql] as a store of
      two tables with the constraints the schema declares;
    - [controllers/roomController.js] ([generateUniqueCode], [createRoom],
      [joinRoom]) as functions from a request to a response and a new store;
    - the Socket.IO handlers of [server.js] ([chat:join], [chat:message],
      [disconnect]) as steps on a server state;
    - [services/cleanupService.js] as one sweep tick on that state;
    - [public/js/crypto.js] ([VanishCrypto] and its base64 helpers) over
      the Web Crypto operations of the browser, [btoa] and [atob] being
      those of the HTML standard;
    - [sendMessage] and the [tick] of [startTimer] of [public/js/app.js].

    Conventions.

    - An instant of the Node clock ([new Date()]) is the number of
      milliseconds since the epoch, in [Z].  A DATETIME column holds whole
      seconds of a zone-less wall clock, in [Z]; [config/db.js] declares
      the server's zone as UTC ([timezone: 'Z']), and [NOW()] is read on
      that clock, at the same instant as the Node clock.
    - Every handler is one atomic step: the places where the source awaits
      the store are round trips whose interleavings are not modelled.
      [createRoom] alone is given two instants, that of its clock reading
      and that of its INSERT, which stamps [created_at].  An event whose
      payload is [null] is no step: it ends the process.
    - The store answers every query.  An INSERT that breaks a constraint of
      the schema is refused (strict SQL mode) and the awaited call throws;
      the sweep, besides, takes the set of room ids whose DELETE the store
      refuses as a parameter.
    - Four things the source leaves to its environment are parameters: the
      [xss] filter; the order [ORDER BY sent_at ASC] gives to rows of the
      same second; [String.prototype.toUpperCase], the case mapping of
      Unicode; and the time zone of the Node process, which
      [Date.prototype.toString] spells out.
    - Strings are sequences of code units from U+0000 to U+00FF; [utf8mb4]
      stores a unit below 128 in one byte and the others in two. *)

From Stdlib Require Import ZArith Lia Bool List Ascii String DecimalString
  Sorting.Sorted Sorting.Permutation.
From stdpp Require Import gmap strings list sorting.

Local Open Scope string_scope.
Local Open Scope Z_scope.

(** ** JavaScript values and string helpers *)

(** What a handler can tell about a payload field: [undefined], a string,
    or some other value (a number, an object, ...), which is truthy or not. *)
Inductive jsval :=
| JUndefined
| JString (s : string)
| JOther (truthy : bool).

(** [!x || typeof x !== "string"] is false exactly for a non-empty string. *)
Definition as_nonempty_string (v : jsval) : option string :=
  match v with
  | JString s => if String.eqb s "" then None else Some s
  | _ => None
  end.

Definition is_space (c : ascii) : bool :=
  let n := nat_of_ascii c in
  (Nat.leb 9 n && Nat.leb n 13) || Nat.eqb n 32 || Nat.eqb n 160.

Fixpoint trimStart (s : string) : string :=
  match s with
  | EmptyString => EmptyString
  | String c s' => if is_space c then trimStart s' else s
  end.

Fixpoint trimEnd (s : string) : string :=
  match s with
  | EmptyString => EmptyString
  | String c s' =>
      match trimEnd s' with
      | EmptyString => if is_space c then EmptyString else String c EmptyString
      | t => String c t
      end
  end.

Definition trim (s : string) : string := trimEnd (trimStart s).

(** [String.prototype.toUpperCase] is a parameter of the handlers that call
    it: the case mapping of Unicode, which can lengthen a string (["ß"]
    becomes ["SS"]).  On ASCII text it is the mapping below, which the
    closed examples use on such text only. *)
Definition upper_char (c : ascii) : ascii :=
  let n := nat_of_ascii c in
  if Nat.leb 97 n && Nat.leb n 122 then ascii_of_nat (n - 32) else c.

Fixpoint toUpperCase_ascii (s : string) : string :=
  match s with
  | EmptyString => EmptyString
  | String c s' => String (upper_char c) (toUpperCase_ascii s')
  end.

(** [s.slice(0, n)] *)
Definition slice0 (n : nat) (s : string) : string := substring 0 n s.

Definition is_code_char (c : ascii) : bool :=
  let n := nat_of_ascii c in
  (Nat.leb 65 n && Nat.leb n 90) || (Nat.leb 48 n && Nat.leb n 57).

Fixpoint all_chars (p : ascii -> bool) (s : string) : bool :=
  match s with
  | EmptyString => true
  | String c s' => p c && all_chars p s'
  end.

(** [/^[A-Z0-9]{6}$/.test(s)] *)
Definition is_code (s : string) : bool :=
  Nat.eqb (String.length s) 6 && all_chars is_code_char s.

(** ** The store: [schema.sql], [models/Room.js], [models/Message.js] *)

Inductive RoomType := single | group.

Definition RoomType_eqb (a b : RoomType) : bool :=
  match a, b with
  | single, single | group, group => true
  | _, _ => false
  end.

(** A row of [rooms].  Field names carry a prefix where the column name is
    taken in Rocq ([id], [type]). *)
Record Room := mkRoom {
  room_id : Z;
  room_code : string;
  room_type : RoomType;
  created_at : Z;
  expires_at : Z;
  is_active : bool
}.

#[global] Instance RoomType_eq_dec : EqDecision RoomType.
Proof. solve_decision. Defined.

#[global] Instance Room_eq_dec : EqDecision Room.
Proof. solve_decision. Defined.

(** A row of [messages]. *)
Record Message := mkMessage {
  msg_id : Z;
  msg_room_id : Z;
  msg_nickname : string;
  msg_content : string;
  msg_iv : string;
  sent_at : Z
}.

(** Both tables in insertion order, with their AUTO_INCREMENT counters. *)
Record Store := mkStore {
  rooms : list Room;
  messages : list Message;
  next_room_id : Z;
  next_msg_id : Z
}.

(** SQL [NOW()] at the Node instant [now], on a server whose clock reads
    [offset] seconds east of UTC: a DATETIME, whole seconds. *)
Definition NOW_at (offset : Z) (now : Z) : Z := now / 1000 + offset.

(** [timezone: 'Z'] of [config/db.js]: the database server keeps UTC. *)
Definition db_timezone_offset : Z := 0.

Definition NOW (now : Z) : Z := NOW_at db_timezone_offset now.

(** The [Date] the driver makes of a DATETIME column ([timezone: 'Z'] and
    no [dateStrings] in [config/db.js]): the instant whose UTC wall clock
    the column holds. *)
Definition Date_of_datetime (datetime : Z) : Z := datetime * 1000.

(** [new Date(d + "Z").getTime()] for a [Date] [d].  The [+] appends to
    [d.toString()], which spells the wall clock of the zone of the Node
    process, to the second, followed by the offset and the name of the
    zone; the parser lets the final ["Z"] replace the offset, so that it
    reads this wall clock as one of UTC.  [LocalTZA t] is the offset of the
    zone of the process from UTC at the instant [t], in milliseconds,
    positive east of Greenwich. *)
Definition Date_plus_Z (LocalTZA : Z -> Z) (d : Z) : Z :=
  (d + LocalTZA d) / 1000 * 1000.

(** [new Date(ms).toISOString().slice(0, 19).replace("T", " ")]: the UTC
    wall clock of the instant, cut to whole seconds. *)
Definition toDatetime (ms : Z) : Z := ms / 1000.

(** [Room.create], [now] being the instant of the INSERT, which stamps
    [created_at] ([DEFAULT CURRENT_TIMESTAMP]): the INSERT is refused when
    the code is already in the table ([uq_room_code]); otherwise it returns
    the row it describes. *)
Definition Room_create (now : Z) (roomCode : string) (type : RoomType)
    (expiresAt : Z) (s : Store) : option (Room * Store) :=
  if existsb (fun r => String.eqb (room_code r) roomCode) (rooms s) then None
  else
    let r := mkRoom (next_room_id s) roomCode type (NOW now) expiresAt true in
    Some (r, mkStore (rooms s ++ [r]) (messages s) (next_room_id s + 1) (next_msg_id s)).

(** [Room.findByCode]: [WHERE room_code = ? AND is_active = 1 LIMIT 1]. *)
Definition Room_findByCode (roomCode : string) (s : Store) : option Room :=
  find (fun r => String.eqb (room_code r) roomCode && is_active r) (rooms s).

(** The row filter of [Room.findExpired]:
    [WHERE expires_at <= NOW() AND is_active = 1]. *)
Definition expired_row (now : Z) (r : Room) : bool :=
  (expires_at r <=? NOW now) && is_active r.

Definition Room_findExpired (now : Z) (s : Store) : list Room :=
  filter (fun r => expired_row now r = true) (rooms s).

(** [Room.deleteById], with [fk_messages_room ... ON DELETE CASCADE]. *)
Definition Room_deleteById (roomId : Z) (s : Store) : Store :=
  mkStore (filter (fun r => room_id r ≠ roomId) (rooms s))
          (filter (fun m => msg_room_id m ≠ roomId) (messages s))
          (next_room_id s) (next_msg_id s).

(** The bytes a string takes in a column of [utf8mb4]. *)
Fixpoint utf8_length (s : string) : Z :=
  match s with
  | EmptyString => 0
  | String c s' => (if Z.of_N (N_of_ascii c) <? 128 then 1 else 2) + utf8_length s'
  end.

(** [Message.create].  The INSERT is refused when [room_id] references no
    room ([fk_messages_room]) or a value does not fit its column (strict
    SQL mode): [VARCHAR(32)] and [VARCHAR(64)] hold that many characters,
    [TEXT] holds 65535 bytes. *)
Definition Message_create (now : Z) (roomId : Z) (nickname content iv : string)
    (s : Store) : option (Z * Store) :=
  if existsb (fun r => room_id r =? roomId) (rooms s)
     && (Z.of_nat (String.length nickname) <=? 32)
     && (utf8_length content <=? 65535)
     && (Z.of_nat (String.length iv) <=? 64)
  then
    let m := mkMessage (next_msg_id s) roomId nickname content iv (NOW now) in
    Some (next_msg_id s,
          mkStore (rooms s) (messages s ++ [m]) (next_room_id s) (next_msg_id s + 1))
  else None.

(** The rows [WHERE room_id = ?] selects, in primary-key order. *)
Definition rows_of_room (roomId : Z) (s : Store) : list Message :=
  filter (fun m => msg_room_id m = roomId) (messages s).

(** What [ORDER BY sent_at ASC] promises about its result: the same rows,
    in non-decreasing [sent_at]; rows with equal [sent_at] in any order. *)
Definition order_by_contract (f : list Message -> list Message) : Prop :=
  forall rows, Permutation rows (f rows)
               /\ Sorted (fun a b => sent_at a <= sent_at b) (f rows).

(** ** Server state: sessions, the participant map, Socket.IO channels *)

(** The events the server emits ([socket.emit], [io.to(..).emit]). *)
Inductive Event :=
| ErrorRoom (message : string)
| RoomExpired (message : string)
| ChatHistory (rows : list Message)
| ChatSystem (text : string) (ts : Z)
| ChatJoined (roomCode : string) (type : RoomType) (expiresAt : Z) (nickname : string)
| ChatMessage (id : Z) (nickname content iv : string) (ts : Z).

(** One event handed to one socket; [via] is the Socket.IO room it was
    addressed to, [None] for [socket.emit]. *)
Record Delivery := mkDelivery {
  rcpt : string;
  via : option string;
  ev : Event
}.

(** The fields [server.js] keeps on a socket object. *)
Record Session := mkSession {
  currentRoom : option string;
  nickname : option string;
  roomId : option Z
}.

Record Server := mkServer {
  db : Store;
  roomParticipants : gmap string (gset string);   (* Map<roomCode, Set<socketId>> *)
  channels : gmap string (gset string);           (* Socket.IO rooms *)
  sockets : gmap string Session;                  (* connected sockets, by id *)
  outbox : list Delivery                          (* everything emitted so far *)
}.

(** [m.get(code) || new Set()] *)
Definition members (m : gmap string (gset string)) (code : string) : gset string :=
  default ∅ (m !! code).

(** A JS string used as a condition: [null], [undefined] and [""] are falsy. *)
Definition truthy (o : option string) : option string :=
  match o with
  | Some s => if String.eqb s "" then None else Some s
  | None => None
  end.

Definition emit (sid : string) (e : Event) (st : Server) : Server :=
  mkServer (db st) (roomParticipants st) (channels st) (sockets st)
           (outbox st ++ [mkDelivery sid None e]).

(** [io.to(code).emit(e)], the recipients being [to]. *)
Definition broadcast (code : string) (to : gset string) (e : Event) : list Delivery :=
  map (fun s => mkDelivery s (Some code) e) (elements to).

(** [io.on("connection")]: a fresh socket with [currentRoom = nickname = null]. *)
Definition connection (sid : string) (st : Server) : Server :=
  mkServer (db st) (roomParticipants st) (channels st)
           (<[sid := mkSession None None None]> (sockets st)) (outbox st).

(** A payload object; a field that is not there reads as [undefined]. *)
Definition field (payload : gmap string jsval) (name : string) : jsval :=
  default JUndefined (payload !! name).

(** What a client sends along with an event, as the parameter list of a
    listener, [({ roomCode, nickname } = {})], meets it: [null], of which no
    field can be read, or a value whose fields are read.  [undefined], for
    which the default [{}] stands, and a primitive value have no field of
    these names. *)
Inductive Payload :=
| PNull
| PFields (fields : gmap string jsval).

(** How a listener ends: the server goes on in a state, or the process
    ends. *)
Inductive Outcome :=
| Continues (st : Server)
| ProcessExits.

(** The expiry test of [chat:join] (server.js):
    [new Date() >= new Date(room.expires_at + "Z")], [room.expires_at]
    being a [Date]. *)
Definition chat_join_expired (LocalTZA : Z -> Z) (now : Z) (room : Room) : bool :=
  now >=? Date_plus_Z LocalTZA (Date_of_datetime (expires_at room)).

Section Handlers.

(** The [xss] package's filter, a third-party function on strings. *)
Variable xss : string -> string.

(** How the database orders the rows of [ORDER BY sent_at ASC]; see
    [order_by_contract]. *)
Variable order_by_sent_at : list Message -> list Message.

(** [String.prototype.toUpperCase]. *)
Variable toUpperCase : string -> string.

(** The offset of the zone of the Node process; see [Date_plus_Z]. *)
Variable LocalTZA : Z -> Z.

(** [Message.findByRoomId] *)
Definition Message_findByRoomId (roomId : Z) (s : Store) : list Message :=
  order_by_sent_at (rows_of_room roomId s).

(** The single-room test of [chat:join]:
    [participants.size >= 2 && !participants.has(socket.id)]. *)
Definition room_full (room : Room) (participants : gset string) (sid : string) : bool :=
  RoomType_eqb (room_type room) single
  && bool_decide (2 ≤ size participants)%nat
  && bool_decide (sid ∉ participants).

(** The tail of [chat:join] once the room is found, live and not full. *)
Definition join_accepted (now : Z) (sid code cleanNick : string) (room : Room)
    (st : Server) : Server :=
  let chans := <[code := members (channels st) code ∪ {[sid]}]> (channels st) in
  let socks := <[sid := mkSession (Some code) (Some cleanNick) (Some (room_id room))]>
                 (sockets st) in
  let parts := <[code := members (roomParticipants st) code ∪ {[sid]}]>
                 (roomParticipants st) in
  let history := Message_findByRoomId (room_id room) (db st) in
  mkServer (db st) parts chans socks
    (outbox st
     ++ [mkDelivery sid None (ChatHistory history)]
     ++ broadcast code (members chans code ∖ {[sid]})
          (ChatSystem (cleanNick ++ " joined the room.") now)
     ++ [mkDelivery sid None
           (ChatJoined code (room_type room) (expires_at room) cleanNick)]).

(** The body of the listener of [chat:join], [payload] holding the fields
    that its parameter list has read. *)
Definition chat_join (now : Z) (sid : string) (payload : gmap string jsval)
    (st : Server) : Server :=
  match sockets st !! sid with
  | None => st
  | Some _ =>
    match as_nonempty_string (field payload "roomCode"),
          as_nonempty_string (field payload "nickname") with
    | Some roomCode, Some nick =>
      let code := xss (slice0 6 (toUpperCase (trim roomCode))) in
      let cleanNick := xss (slice0 32 (trim nick)) in
      if negb (is_code code) then st
      else if String.eqb cleanNick "" then st
      else
        match Room_findByCode code (db st) with
        | None => emit sid (ErrorRoom "Room not found or expired.") st
        | Some room =>
          if chat_join_expired LocalTZA now room then
            emit sid (RoomExpired "Room has expired.")
              (mkServer (Room_deleteById (room_id room) (db st))
                        (roomParticipants st) (channels st) (sockets st) (outbox st))
          else if room_full room (members (roomParticipants st) code) sid then
            emit sid (ErrorRoom "This private room is full (max 2 users).") st
          else join_accepted now sid code cleanNick room st
        end
    | _, _ => st
    end
  end.

(** [socket.on("chat:join", ...)], the listener as Socket.IO calls it.  Its
    parameter list is evaluated before the [try]: on [null] it throws a
    TypeError, the promise of the [async] listener is rejected and, nothing
    in [server.js] handling the rejection, Node ends the process. *)
Definition on_chat_join (now : Z) (sid : string) (payload : Payload) (st : Server)
    : Outcome :=
  match payload with
  | PNull => ProcessExits
  | PFields fields => Continues (chat_join now sid fields st)
  end.

(** The body of the listener of [chat:message], [payload] holding the
    fields that its parameter list has read.  A refused INSERT throws; the
    handler catches, logs and emits nothing. *)
Definition chat_message (now : Z) (sid : string) (payload : gmap string jsval)
    (st : Server) : Server :=
  match sockets st !! sid with
  | None => st
  | Some sess =>
    match truthy (currentRoom sess), truthy (nickname sess) with
    | Some code, Some nick =>
      match as_nonempty_string (field payload "content"),
            as_nonempty_string (field payload "iv") with
      | Some content, Some iv =>
        if 65536 <? Z.of_nat (String.length content) then st
        else
          let cleanContent := xss (trim content) in
          let cleanIv := xss (trim iv) in
          match Room_findByCode code (db st) with
          | None => emit sid (RoomExpired "Room no longer exists.") st
          | Some _ =>
            match roomId sess with
            | None => st
            | Some rid =>
              match Message_create now rid nick cleanContent cleanIv (db st) with
              | None => st
              | Some (msgId, db') =>
                mkServer db' (roomParticipants st) (channels st) (sockets st)
                  (outbox st
                   ++ broadcast code (members (channels st) code)
                        (ChatMessage msgId nick cleanContent cleanIv now))
              end
            end
          end
      | _, _ => st
      end
    | _, _ => st
    end
  end.

(** [socket.on("chat:message", ...)], the listener as Socket.IO calls it;
    [null] ends the process as it does for [chat:join]. *)
Definition on_chat_message (now : Z) (sid : string) (payload : Payload) (st : Server)
    : Outcome :=
  match payload with
  | PNull => ProcessExits
  | PFields fields => Continues (chat_message now sid fields st)
  end.

(** The participant map after [socket.on("disconnect")] for [sid]. *)
Definition leave (code sid : string) (parts : gmap string (gset string))
    : gmap string (gset string) :=
  match parts !! code with
  | Some participants =>
      let rest := participants ∖ {[sid]} in
      if bool_decide (size rest = 0%nat) then delete code parts
      else <[code := rest]> parts
  | None => parts
  end.

(** [socket.on("disconnect", ...)].  Socket.IO has taken the socket out of
    every room before the event fires. *)
Definition disconnect (now : Z) (sid : string) (st : Server) : Server :=
  match sockets st !! sid with
  | None => st
  | Some sess =>
    let chans := (fun s : gset string => s ∖ {[sid]}) <$> channels st in
    match truthy (currentRoom sess) with
    | Some code =>
      mkServer (db st) (leave code sid (roomParticipants st)) chans
        (delete sid (sockets st))
        (outbox st
         ++ match truthy (nickname sess) with
            | Some nick =>
                broadcast code (members chans code ∖ {[sid]})
                  (ChatSystem (nick ++ " left the room.") now)
            | None => []
            end)
    | None =>
      mkServer (db st) (roomParticipants st) chans (delete sid (sockets st)) (outbox st)
    end
  end.

End Handlers.

(** ** [controllers/roomController.js] *)

Inductive Body :=
| BError (error : string)
| BRoom (roomCode : string) (type : RoomType) (expiresAt : Z).

Record Response := mkResponse {
  status : Z;
  body : Body
}.

(** [crypto.randomBytes]: a tape of bytes and how far it has been read. *)
Record Rng := mkRng {
  tape : nat -> Z;
  cursor : nat
}.

Definition randomBytes (n : nat) (g : Rng) : list Z * Rng :=
  (map (fun i => tape g (cursor g + i)%nat mod 256) (seq 0 n),
   mkRng (tape g) (cursor g + n)%nat).

Definition CHARS : string := "ABCDEFGHIJKLMNOPQRSTUVWXYZ0123456789".
Definition LENGTH : nat := 6.

(** [CHARS[b % CHARS.length]] *)
Definition char_of_byte (b : Z) : string :=
  match String.get (Z.to_nat (b mod Z.of_nat (String.length CHARS))) CHARS with
  | Some c => String c EmptyString
  | None => "undefined"
  end.

(** The inner loop of [generateUniqueCode]: [code += CHARS[...]]. *)
Definition code_of_bytes (bytes : list Z) : string :=
  fold_left (fun code b => code ++ char_of_byte b) bytes "".

(** The outer loop, [attempts] iterations still to go.  [None] is the
    [throw] after the loop. *)
Fixpoint generate_attempts (attempts : nat) (s : Store) (g : Rng) : option string * Rng :=
  match attempts with
  | O => (None, g)
  | S rest =>
      let '(bytes, g') := randomBytes LENGTH g in
      let code := code_of_bytes bytes in
      match Room_findByCode code s with
      | None => (Some code, g')
      | Some _ => generate_attempts rest s g'
      end
  end.

Definition generateUniqueCode (s : Store) (g : Rng) : option string * Rng :=
  generate_attempts 5 s g.

(** The code that the [k]-th attempt (from 0) of a call starting at [g] draws. *)
Definition drawn_code (g : Rng) (k : nat) : string :=
  code_of_bytes (fst (randomBytes LENGTH (mkRng (tape g) (cursor g + k * LENGTH)%nat))).

(** What [createRoom] sees of [customExpiry]: a falsy value, or a value whose
    [new Date(customExpiry)] is invalid (time value NaN), or one that
    denotes the instant [ms]. *)
Inductive DateInput :=
| NoDate
| InvalidDate
| DateAt (ms : Z).

Definition getTime (c : DateInput) : option Z :=
  match c with
  | DateAt ms => Some ms
  | _ => None
  end.

(** [d.toISOString().slice(0, 19).replace("T", " ")]; [toISOString] throws a
    RangeError ([None]) on an invalid date. *)
Definition toISOString_datetime (c : DateInput) : option Z :=
  match getTime c with
  | Some ms => Some (toDatetime ms)
  | None => None
  end.

(** The fields of [req.body] that [createRoom] reads. *)
Record CreateBody := mkCreateBody {
  cb_type : jsval;
  cb_expiryType : jsval;
  cb_customExpiry : DateInput
}.

(** [["single", "group"].includes(type)] *)
Definition room_type_of (v : jsval) : option RoomType :=
  match v with
  | JString s =>
      if String.eqb s "single" then Some single
      else if String.eqb s "group" then Some group
      else None
  | _ => None
  end.

(** How the [switch (expiryType)] ends: with [expiresAt] set, with a 400
    and its reason, or with an exception that reaches the [catch]. *)
Inductive Expiry :=
| ExpiresAt (datetime : Z)
| Reject (error : string)
| Throw.

Definition custom_expiry (now : Z) (c : DateInput) : Expiry :=
  match c with
  | NoDate => Reject "customExpiry datetime required when expiryType is custom."
  | _ =>
    match toISOString_datetime c with
    | None => Throw
    | Some expiresAt =>
      match getTime c with
      | None => Reject "Invalid customExpiry datetime format."
      | Some t =>
        if t <=? now then Reject "customExpiry must be in the future."
        else if t >? now + 30 * 24 * 60 * 60 * 1000 then
          Reject "customExpiry cannot be more than 30 days in the future."
        else ExpiresAt expiresAt
      end
    end
  end.

Definition compute_expiry (now : Z) (b : CreateBody) : Expiry :=
  match cb_expiryType b with
  | JString e =>
      if String.eqb e "10m" then ExpiresAt (toDatetime (now + 10 * 60 * 1000))
      else if String.eqb e "1h" then ExpiresAt (toDatetime (now + 60 * 60 * 1000))
      else if String.eqb e "24h" then ExpiresAt (toDatetime (now + 24 * 60 * 60 * 1000))
      else if String.eqb e "custom" then custom_expiry now (cb_customExpiry b)
      else Reject "Invalid expiryType."
  | _ => Reject "Invalid expiryType."
  end.

Definition server_error_creating : Response :=
  mkResponse 500 (BError "Server error creating room.").

(** [createRoom].  [now] is what [new Date()] reads when the expiry is
    computed, [stored] the instant of the INSERT, which comes after the
    awaited lookups of [generateUniqueCode]. *)
Definition createRoom (now stored : Z) (b : CreateBody) (g : Rng) (s : Store)
    : Response * Store * Rng :=
  match room_type_of (cb_type b) with
  | None =>
      (mkResponse 400 (BError "Invalid room type. Must be single or group."), s, g)
  | Some type =>
    match compute_expiry now b with
    | Reject e => (mkResponse 400 (BError e), s, g)
    | Throw => (server_error_creating, s, g)
    | ExpiresAt expiresAt =>
      match generateUniqueCode s g with
      | (None, g') => (server_error_creating, s, g')
      | (Some roomCode, g') =>
        match Room_create stored roomCode type expiresAt s with
        | None => (server_error_creating, s, g')
        | Some (room, s') =>
            (mkResponse 201 (BRoom (room_code room) (room_type room) (expires_at room)),
             s', g')
        end
      end
    end
  end.

(** The expiry test of [joinRoom]:
    [new Date() >= new Date(room.expires_at + "Z")], [room.expires_at]
    being a [Date]. *)
Definition joinRoom_expired (LocalTZA : Z -> Z) (now : Z) (room : Room) : bool :=
  now >=? Date_plus_Z LocalTZA (Date_of_datetime (expires_at room)).

(** [joinRoom]; [roomCode] is the one field of [req.body] it reads. *)
Definition joinRoom (toUpperCase : string -> string) (LocalTZA : Z -> Z) (now : Z)
    (roomCode : jsval) (s : Store) : Response * Store :=
  match as_nonempty_string roomCode with
  | None => (mkResponse 400 (BError "roomCode is required."), s)
  | Some rc =>
    let code := slice0 6 (toUpperCase (trim rc)) in
    if negb (is_code code) then
      (mkResponse 400 (BError "Room code must be 6 uppercase alphanumeric characters."), s)
    else
      match Room_findByCode code s with
      | None =>
          (mkResponse 404 (BError "Room not found. It may have expired or never existed."), s)
      | Some room =>
          if joinRoom_expired LocalTZA now room then
            (mkResponse 410
               (BError "This session has expired and all messages have been permanently deleted."),
             Room_deleteById (room_id room) s)
          else
            (mkResponse 200 (BRoom (room_code room) (room_type room) (expires_at room)), s)
      end
  end.

(** ** [services/cleanupService.js] *)

Definition expiry_notice : Event :=
  RoomExpired "This session has expired. All messages have been permanently deleted.".

(** The three steps of the sweep for one room.  [rejects] tells for which
    room ids the store refuses the DELETE (the awaited call then throws);
    the flag says whether the body ran to its end. *)
Definition sweep_room (rejects : Z -> bool) (room : Room) (st : Server) : Server * bool :=
  let code := room_code room in
  let out := (outbox st ++ broadcast code (members (channels st) code) expiry_notice)%list in
  let chans := delete code (channels st) in
  if rejects (room_id room) then
    (mkServer (db st) (roomParticipants st) chans (sockets st) out, false)
  else
    (mkServer (Room_deleteById (room_id room) (db st)) (roomParticipants st) chans
              (sockets st) out, true).

(** [for (const room of expiredRooms)] inside the [try]: an exception leaves
    the loop, the [catch] logs it. *)
Fixpoint sweep_loop (rejects : Z -> bool) (expiredRooms : list Room) (st : Server) : Server :=
  match expiredRooms with
  | [] => st
  | room :: rest =>
      let '(st', completed) := sweep_room rejects room st in
      if completed then sweep_loop rejects rest st' else st'
  end.

(** One firing of the interval that [startCleanup] installs. *)
Definition cleanup_tick (rejects : Z -> bool) (now : Z) (st : Server) : Server :=
  sweep_loop rejects (Room_findExpired now (db st)) st.

(** The steps of the server: socket events and sweeper ticks, in any
    order and at any instant.  An event with a [null] payload is no step:
    it ends the process. *)
Inductive step (xss : string -> string) (order_by_sent_at : list Message -> list Message)
    (toUpperCase : string -> string) (LocalTZA : Z -> Z)
    (st : Server) : Server -> Prop :=
| step_connection sid :
    step xss order_by_sent_at toUpperCase LocalTZA st (connection sid st)
| step_chat_join now sid payload :
    step xss order_by_sent_at toUpperCase LocalTZA st
      (chat_join xss order_by_sent_at toUpperCase LocalTZA now sid payload st)
| step_chat_message now sid payload :
    step xss order_by_sent_at toUpperCase LocalTZA st (chat_message xss now sid payload st)
| step_disconnect now sid :
    step xss order_by_sent_at toUpperCase LocalTZA st (disconnect now sid st)
| step_cleanup_tick rejects now :
    step xss order_by_sent_at toUpperCase LocalTZA st (cleanup_tick rejects now st).

(** How many [room:expired] events the deliveries [ds] hand to socket [sid]
    through the room [code]. *)
Definition is_notice_for (code sid : string) (d : Delivery) : bool :=
  String.eqb (rcpt d) sid
  && match via d with Some c => String.eqb c code | None => false end
  && match ev d with RoomExpired _ => true | _ => false end.

Definition notices_to (code sid : string) (ds : list Delivery) : nat :=
  length (List.filter (is_notice_for code sid) ds).

(** What a sweep over [expiredRooms] that runs to its end emits, the
    Socket.IO rooms being [chans] when it starts. *)
Fixpoint sweep_deliveries (expiredRooms : list Room) (chans : gmap string (gset string))
    : list Delivery :=
  match expiredRooms with
  | [] => []
  | room :: rest =>
      broadcast (room_code room) (members chans (room_code room)) expiry_notice
      ++ sweep_deliveries rest (delete (room_code room) chans)
  end.

(** The ids of the [chat:message] events that the deliveries [ds] hand to
    socket [sid], in the order of delivery. *)
Definition delivered_id (sid : string) (d : Delivery) : option Z :=
  if String.eqb (rcpt d) sid then
    match ev d with
    | ChatMessage id _ _ _ _ => Some id
    | _ => None
    end
  else None.

Definition delivered_ids (sid : string) (ds : list Delivery) : list Z :=
  omap (delivered_id sid) ds.

(** A run of [chat:message] events, each given by its instant, its socket
    and its payload, handled one after the other. *)
Definition chat_messages (xss : string -> string)
    (events : list (Z * string * gmap string jsval)) (st : Server) : Server :=
  fold_left (fun st e => chat_message xss e.1.1 e.1.2 e.2 st) events st.

(** ** The liveness predicate of the specification *)

(** [isAlive(expiresAt, now)] is false iff [now >= expiresAt], both being
    UTC instants in milliseconds. *)
Definition isAlive (expiresAt now : Z) : bool := negb (expiresAt <=? now).

(** The instant a room's [expires_at] denotes. *)
Definition expiry_instant (room : Room) : Z := Date_of_datetime (expires_at room).

(** ** Invariants *)

(** The codes of the table are pairwise different ([uq_room_code]). *)
Definition codes_unique (s : Store) : Prop := NoDup (room_code <$> rooms s).

(** The ids of the table are pairwise different (primary key). *)
Definition ids_unique (s : Store) : Prop := NoDup (room_id <$> rooms s).

(** What the schema keeps true of the [rooms] table: unique codes, unique
    ids, every id below the AUTO_INCREMENT counter. *)
Definition store_ok (s : Store) : Prop :=
  codes_unique s /\ ids_unique s
  /\ Forall (fun r => room_id r < next_room_id s) (rooms s).

(** No single room has more than two registered participants. *)
Definition capacity_ok (st : Server) : Prop :=
  forall r, r ∈ rooms (db st) -> is_active r = true -> room_type r = single ->
            (size (members (roomParticipants st) (room_code r)) <= 2)%nat.

(** ** Sample environment and data for the closed examples *)

(** The filter on text without markup, which it leaves as it is; the
    examples below use only such text. *)
Definition xss_text (s : string) : string := s.

(** A Node process on UTC, one in New York in winter (five hours west) and
    one in Kolkata (five and a half hours east). *)
Definition utc (_ : Z) : Z := 0.
Definition new_york (_ : Z) : Z := -18000000.
Definition kolkata (_ : Z) : Z := 19800000.

Fixpoint insert_by_sent_at (m : Message) (l : list Message) : list Message :=
  match l with
  | [] => [m]
  | x :: l' =>
      if sent_at m <=? sent_at x then m :: l else x :: insert_by_sent_at m l'
  end.

(** A database that breaks ties by primary key (a stable sort). *)
Definition stable_order (rows : list Message) : list Message :=
  fold_right insert_by_sent_at [] rows.

(** A database that returns rows of the same second newest first. *)
Definition ties_reversed (rows : list Message) : list Message :=
  stable_order (rev rows).

(** 2026-01-01 00:00:00 UTC as a DATETIME, and as an instant. *)
Definition t0_s : Z := 1767225600.
Definition t0 : Z := t0_s * 1000.

Definition empty_store : Store := mkStore [] [] 1 1.

Definition empty_server (s : Store) : Server := mkServer s ∅ ∅ ∅ [].

(** A group room and a single room, both expiring ten minutes after [t0]. *)
Definition room_g : Room := mkRoom 1 "ABC123" group t0_s (t0_s + 600) true.
Definition room_s : Room := mkRoom 2 "XYZ789" single t0_s (t0_s + 600) true.
Definition two_rooms : Store := mkStore [room_g; room_s] [] 3 1.

Definition obj (l : list (string * jsval)) : gmap string jsval := list_to_map l.

Definition join_payload (code nick : string) : gmap string jsval :=
  obj [("roomCode", JString code); ("nickname", JString nick)].

Definition message_payload (content iv : string) : gmap string jsval :=
  obj [("content", JString content); ("iv", JString iv)].

(** "s1" connected and joined to the group room as "alice". *)
Definition joined_server : Server :=
  chat_join xss_text stable_order toUpperCase_ascii utc t0 "s1" (join_payload "abc123" " alice ")
    (connection "s1" (empty_server two_rooms)).

(** "s1" and "s2" joined to the single room, "s3" connected. *)
Definition full_single : Server :=
  connection "s3"
    (chat_join xss_text stable_order toUpperCase_ascii utc (t0 + 2) "s2"
        (join_payload "xyz789" "bob")
       (connection "s2"
          (chat_join xss_text stable_order toUpperCase_ascii utc (t0 + 1) "s1"
              (join_payload "xyz789" "alice")
             (connection "s1" (empty_server two_rooms))))).

(** The DELETE of room 1 is refused; that of room 2 is. *)
Definition rejects_room_1 (roomId : Z) : bool := roomId =? 1.
Definition rejects_room_2 (roomId : Z) : bool := roomId =? 2.

(** "s1" sends three messages within one second. *)
Definition three_in_a_second : Server :=
  chat_messages xss_text
    [(t0 + 100, "s1", message_payload "TTE=" "aXYx");
     (t0 + 200, "s1", message_payload "TTI=" "aXYy");
     (t0 + 300, "s1", message_payload "TTM=" "aXYz")]
    joined_server.

(** "s1" sends three messages one second apart. *)
Definition three_seconds : Server :=
  chat_messages xss_text
    [(t0 + 1000, "s1", message_payload "TTE=" "aXYx");
     (t0 + 2000, "s1", message_payload "TTI=" "aXYy");
     (t0 + 3000, "s1", message_payload "TTM=" "aXYz")]
    joined_server.

(** No DELETE is refused. *)
Definition no_rejects (_ : Z) : bool := false.

(** A tape of zero bytes: every draw is "AAAAAA". *)
Definition zero_rng : Rng := mkRng (fun _ => 0) 0.

(** ** The remaining operations of [models/Room.js] and [models/Message.js] *)

(** [Room.deleteManyByIds]: nothing is sent for an empty list; otherwise
    [DELETE FROM rooms WHERE id IN (...)], with the cascade. *)
Definition Room_deleteManyByIds (ids : list Z) (s : Store) : Store :=
  match ids with
  | [] => s
  | _ =>
      mkStore (filter (fun r => room_id r ∉ ids) (rooms s))
              (filter (fun m => msg_room_id m ∉ ids) (messages s))
              (next_room_id s) (next_msg_id s)
  end.

(** [Message.deleteByRoomId]: [DELETE FROM messages WHERE room_id = ?]. *)
Definition Message_deleteByRoomId (roomId : Z) (s : Store) : Store :=
  mkStore (rooms s) (filter (fun m => msg_room_id m ≠ roomId) (messages s))
          (next_room_id s) (next_msg_id s).

(** [fk_messages_room]: every message row references a room row. *)
Definition messages_reference_rooms (s : Store) : Prop :=
  forall m, m ∈ messages s -> exists r, r ∈ rooms s /\ room_id r = msg_room_id m.

(** ** Counting deliveries, and the shape of the participant map *)

(** How many [chat:system] events the deliveries [ds] hand to socket [sid]. *)
Definition is_system_for (sid : string) (d : Delivery) : bool :=
  String.eqb (rcpt d) sid
  && match ev d with ChatSystem _ _ => true | _ => false end.

Definition system_notices_to (sid : string) (ds : list Delivery) : nat :=
  length (List.filter (is_system_for sid) ds).

(** No code of the participant map is bound to the empty set. *)
Definition no_empty_entries (parts : gmap string (gset string)) : Prop :=
  forall code P, parts !! code = Some P -> P ≠ ∅.

(** ** [public/js/crypto.js]: the base64 helpers *)

(** [c.charCodeAt(0)] and [String.fromCharCode(n)] on 8-bit code units. *)
Definition char_code (c : ascii) : Z := Z.of_N (N_of_ascii c).
Definition char_of_code (n : Z) : ascii := ascii_of_N (Z.to_N n).

Definition B64 : string :=
  "ABCDEFGHIJKLMNOPQRSTUVWXYZabcdefghijklmnopqrstuvwxyz0123456789+/".

Definition pad_char : ascii := "="%char.

(** The character of a six-bit value, and back. *)
Definition sextet_char (n : Z) : ascii :=
  match String.get (Z.to_nat n) B64 with
  | Some c => c
  | None => pad_char
  end.

Fixpoint index_in (c : ascii) (s : string) : option Z :=
  match s with
  | EmptyString => None
  | String x s' =>
      if Ascii.eqb x c then Some 0
      else match index_in c s' with
           | Some i => Some (i + 1)
           | None => None
           end
  end.

Definition sextet_of (c : ascii) : option Z := index_in c B64.

(** [btoa] on a binary string: three bytes to four characters, the last
    group padded with ["="]. *)
Fixpoint btoa (s : string) : string :=
  match s with
  | EmptyString => EmptyString
  | String a EmptyString =>
      let x := char_code a in
      String (sextet_char (x / 4))
        (String (sextet_char (x mod 4 * 16)) (String pad_char (String pad_char "")))
  | String a (String b EmptyString) =>
      let x := char_code a in
      let y := char_code b in
      String (sextet_char (x / 4))
        (String (sextet_char (x mod 4 * 16 + y / 16))
           (String (sextet_char (y mod 16 * 4)) (String pad_char "")))
  | String a (String b (String c rest)) =>
      let x := char_code a in
      let y := char_code b in
      let z := char_code c in
      String (sextet_char (x / 4))
        (String (sextet_char (x mod 4 * 16 + y / 16))
           (String (sextet_char (y mod 16 * 4 + z / 64))
              (String (sextet_char (z mod 64)) (btoa rest))))
  end.

(** [atob], the forgiving base64 decoding of the HTML standard: ASCII
    whitespace is removed; one or two trailing ["="] are removed when the
    length is a multiple of four; a length of 1 modulo 4 or a character
    outside the alphabet is an error ([None]); the bits left over at the
    end are dropped. *)
Definition is_ascii_whitespace (c : ascii) : bool :=
  let n := char_code c in
  (n =? 9) || (n =? 10) || (n =? 12) || (n =? 13) || (n =? 32).

Definition strip_padding (data : list ascii) : list ascii :=
  if Z.of_nat (length data) mod 4 =? 0 then
    match rev data with
    | p :: q :: r =>
        if Ascii.eqb p pad_char then
          if Ascii.eqb q pad_char then rev r else rev (q :: r)
        else data
    | [p] => if Ascii.eqb p pad_char then [] else data
    | [] => data
    end
  else data.

Fixpoint sextets_of (data : list ascii) : option (list Z) :=
  match data with
  | [] => Some []
  | c :: data' =>
      match sextet_of c, sextets_of data' with
      | Some n, Some l => Some (n :: l)
      | _, _ => None
      end
  end.

Fixpoint decode_sextets (l : list Z) : string :=
  match l with
  | p :: q :: r :: s :: rest =>
      String (char_of_code (p * 4 + q / 16))
        (String (char_of_code (q mod 16 * 16 + r / 4))
           (String (char_of_code (r mod 4 * 64 + s)) (decode_sextets rest)))
  | [p; q; r] =>
      String (char_of_code (p * 4 + q / 16))
        (String (char_of_code (q mod 16 * 16 + r / 4)) "")
  | [p; q] => String (char_of_code (p * 4 + q / 16)) ""
  | _ => EmptyString
  end.

Definition atob (s : string) : option string :=
  let data :=
    strip_padding
      (List.filter (fun c => negb (is_ascii_whitespace c)) (list_ascii_of_string s)) in
  if Z.of_nat (length data) mod 4 =? 1 then None
  else
    match sextets_of data with
    | Some l => Some (decode_sextets l)
    | None => None
    end.

(** [bufferToBase64]: [btoa(String.fromCharCode(...new Uint8Array(buffer)))]. *)
Definition bufferToBase64 (buffer : list Byte.byte) : string :=
  btoa (string_of_list_byte buffer).

(** [base64ToBuffer]; [None] when [atob] throws. *)
Definition base64ToBuffer (b64 : string) : option (list Byte.byte) :=
  match atob b64 with
  | Some bin => Some (list_byte_of_string bin)
  | None => None
  end.

(** [s.replace(/x/g, "y")] for single characters, and [s.replace(/x/g, "")]. *)
Fixpoint replace_char (x y : ascii) (s : string) : string :=
  match s with
  | EmptyString => EmptyString
  | String c s' => String (if Ascii.eqb c x then y else c) (replace_char x y s')
  end.

Fixpoint remove_char (x : ascii) (s : string) : string :=
  match s with
  | EmptyString => EmptyString
  | String c s' => if Ascii.eqb c x then remove_char x s' else String c (remove_char x s')
  end.

(** ["=".repeat(n)] *)
Fixpoint repeat_pad (n : nat) : string :=
  match n with
  | O => EmptyString
  | S n' => String pad_char (repeat_pad n')
  end.

Definition bufferToBase64url (buffer : list Byte.byte) : string :=
  remove_char "=" (replace_char "/" "_" (replace_char "+" "-" (bufferToBase64 buffer))).

Definition base64urlToBuffer (b64url : string) : option (list Byte.byte) :=
  let b64 := replace_char "_" "/" (replace_char "-" "+" b64url) in
  let padLength := (4 - Z.of_nat (String.length b64) mod 4) mod 4 in
  base64ToBuffer (b64 ++ repeat_pad (Z.to_nat padLength)).


(** The six-bit values [btoa] makes of a binary string, and the number
    of ["="] it appends. *)
Fixpoint sextets (s : string) : list Z :=
  match s with
  | EmptyString => []
  | String a EmptyString =>
      let x := char_code a in [x / 4; x mod 4 * 16]
  | String a (String b EmptyString) =>
      let x := char_code a in
      let y := char_code b in
      [x / 4; x mod 4 * 16 + y / 16; y mod 16 * 4]
  | String a (String b (String c rest)) =>
      let x := char_code a in
      let y := char_code b in
      let z := char_code c in
      x / 4 :: x mod 4 * 16 + y / 16 :: y mod 16 * 4 + z / 64 :: z mod 64 :: sextets rest
  end.

Fixpoint padding (s : string) : nat :=
  match s with
  | EmptyString => 0
  | String _ EmptyString => 2
  | String _ (String _ EmptyString) => 1
  | String _ (String _ (String _ rest)) => padding rest
  end.

(** A character of the alphabet: a letter, a digit, ["+"] or ["/"]. *)
Definition is_b64_char (c : ascii) : bool :=
  match sextet_of c with Some _ => true | None => false end.

(** A character of the URL-safe alphabet: a letter, a digit, ["-"] or ["_"]. *)
Definition is_b64url_char (c : ascii) : bool :=
  let n := char_code c in
  ((65 <=? n) && (n <=? 90)) || ((97 <=? n) && (n <=? 122))
  || ((48 <=? n) && (n <=? 57)) || (n =? 45) || (n =? 95).

(** ** [public/js/crypto.js]: [VanishCrypto] *)

(** What the module takes from the browser: the Web Crypto operations on
    AES-GCM keys and the UTF-8 codec.  [subtle.importKey] and
    [subtle.decrypt] may reject ([None]). *)
Class Platform := {
  CryptoKey : Type;
  subtle_importKey : list Byte.byte -> option CryptoKey;
  subtle_exportKey : CryptoKey -> list Byte.byte;
  subtle_encrypt : CryptoKey -> list Byte.byte -> list Byte.byte -> list Byte.byte;
  subtle_decrypt : CryptoKey -> list Byte.byte -> list Byte.byte
                   -> option (list Byte.byte);
  TextEncoder_encode : string -> list Byte.byte;
  TextDecoder_decode : list Byte.byte -> string
}.

(** [importKey]; [None] when [atob] or [subtle.importKey] throws. *)
Definition importKey `{Platform} (b64Key : string) : option CryptoKey :=
  match base64urlToBuffer b64Key with
  | Some raw => subtle_importKey raw
  | None => None
  end.

(** [generateKey], [cryptoKey] being the key [subtle.generateKey] draws. *)
Definition generateKey `{Platform} (cryptoKey : CryptoKey) : CryptoKey * string :=
  let raw := subtle_exportKey cryptoKey in
  (cryptoKey, bufferToBase64url raw).

(** [encrypt], [iv] being the twelve bytes [getRandomValues] draws; the
    result is the pair of [ciphertext] and [iv]. *)
Definition encrypt `{Platform} (iv : list Byte.byte) (cryptoKey : CryptoKey)
    (plaintext : string) : string * string :=
  let encoded := TextEncoder_encode plaintext in
  let cipherBuf := subtle_encrypt cryptoKey iv encoded in
  (bufferToBase64 cipherBuf, bufferToBase64 iv).

(** [decrypt]; [None] when [atob] or [subtle.decrypt] throws. *)
Definition decrypt `{Platform} (cryptoKey : CryptoKey) (b64Cipher b64Iv : string)
    : option string :=
  match base64ToBuffer b64Cipher with
  | None => None
  | Some cipherBuf =>
    match base64ToBuffer b64Iv with
    | None => None
    | Some iv =>
      match subtle_decrypt cryptoKey iv cipherBuf with
      | None => None
      | Some plainBuf => Some (TextDecoder_decode plainBuf)
      end
    end
  end.

(** ** [public/js/app.js]: sending a message, the countdown *)

(** [sendMessage]: the payload of the [chat:message] it emits, if any;
    [input] is the value of the message box, [iv] the draw of [encrypt]. *)
Definition sendMessage `{Platform} (socket : bool) (cryptoKey : option CryptoKey)
    (iv : list Byte.byte) (input : string) : option (gmap string jsval) :=
  let text := trim input in
  if String.eqb text "" || negb socket then None
  else
    match cryptoKey with
    | None => None
    | Some key =>
        let '(ciphertext, iv') := encrypt iv key text in
        Some (obj [("content", JString ciphertext); ("iv", JString iv')])
    end.

(** [String(n)] for a non-negative integer, and [s.padStart(2, "0")]. *)
Definition String_of (n : Z) : string :=
  NilEmpty.string_of_uint (N.to_uint (Z.to_N n)).

Fixpoint zeros (n : nat) : string :=
  match n with
  | O => EmptyString
  | S n' => String "0" (zeros n')
  end.

Definition padStart2 (s : string) : string := zeros (2 - String.length s) ++ s.

(** The header of the chat: the text of the timer and whether it carries
    the class [timer-warning]. *)
Record TimerDisplay := mkTimerDisplay {
  textContent : string;
  timer_warning : bool
}.

(** [tick] of [startTimer], [expiresAt] being the instant
    [new Date(expiresAt)] denotes and [now] the browser's [Date.now()]:
    the display afterwards, and whether [clearInterval] was called. *)
Definition tick (expiresAt now : Z) (d : TimerDisplay) : TimerDisplay * bool :=
  let remaining := Z.max 0 (expiresAt - now) in
  let h := remaining / 3600000 in
  let m := (remaining mod 3600000) / 60000 in
  let s := (remaining mod 60000) / 1000 in
  let hh := padStart2 (String_of h) in
  let mm := padStart2 (String_of m) in
  let ss := padStart2 (String_of s) in
  let text := "Expires in " ++ hh ++ ":" ++ mm ++ ":" ++ ss in
  let warning := if remaining <=? 60000 then true else timer_warning d in
  if remaining <=? 0 then (mkTimerDisplay "Session expired" warning, true)
  else (mkTimerDisplay text warning, false).

(** ** The bytes behind a character of a room code *)

(** The values of a byte, and those of them [generateUniqueCode] turns
    into the character [c]. *)
Definition byte_values : list Z := Z.of_nat <$> seq 0 256.

Definition bytes_giving (c : string) : list Z :=
  List.filter (fun b => String.eqb (char_of_byte b) c) byte_values.

(** ** A platform for the closed examples *)

(** Keys are raw bytes, thirty-two of them; a ciphertext is the plaintext
    behind a tag of sixteen bytes; text is ASCII. *)
Definition sample_tag : list Byte.byte := repeat Byte.x00 16.

#[local] Instance sample_platform : Platform := {|
  CryptoKey := list Byte.byte;
  subtle_importKey raw := if (length raw =? 32)%nat then Some raw else None;
  subtle_exportKey key := key;
  subtle_encrypt key iv data := (sample_tag ++ data)%list;
  subtle_decrypt key iv data :=
    if (length data <? 16)%nat then None else Some (skipn 16 data);
  TextEncoder_encode := list_byte_of_string;
  TextDecoder_decode := string_of_list_byte
|}.

Definition sample_key : list Byte.byte := repeat Byte.xff 32.
Definition sample_iv : list Byte.byte := repeat Byte.x01 12.

(** * Properties *)

(** ** Store lemmas *)

Lemma Room_findByCode_Some (code : string) (s : Store) (room : Room) :
  Room_findByCode code s = Some room ->
  room ∈ rooms s /\ room_code room = code /\ is_active room = true.
Proof.
  unfold Room_findByCode. intros H.
  apply find_some in H. destruct H as [Hin Hb].
  apply andb_true_iff in Hb. destruct Hb as [Hc Ha].
  apply String.eqb_eq in Hc.
  split; [by apply list_elem_of_In | done].
Qed.

Lemma Room_deleteById_rooms (roomId : Z) (s : Store) (r : Room) :
  r ∈ rooms (Room_deleteById roomId s) <-> r ∈ rooms s /\ room_id r ≠ roomId.
Proof.
  unfold Room_deleteById. simpl. rewrite list_elem_of_filter. tauto.
Qed.

Lemma Room_deleteById_messages (roomId : Z) (s : Store) (m : Message) :
  m ∈ messages (Room_deleteById roomId s) <-> m ∈ messages s /\ msg_room_id m ≠ roomId.
Proof.
  unfold Room_deleteById. simpl. rewrite list_elem_of_filter. tauto.
Qed.

Lemma NoDup_fmap_filter {A B : Type} (f : A -> B) (P : A -> Prop)
    `{forall x, Decision (P x)} (l : list A) :
  NoDup (f <$> l) -> NoDup (f <$> filter P l).
Proof.
  induction l as [|x l IH]; [done |].
  rewrite fmap_cons. intros Hnd. apply NoDup_cons in Hnd as [Hx Hnd].
  rewrite filter_cons. case_decide; [| by apply IH].
  rewrite fmap_cons. apply NoDup_cons. split; [| by apply IH].
  intros Hin. apply Hx.
  apply list_elem_of_fmap in Hin as (y & -> & Hy).
  apply list_elem_of_filter in Hy as [_ Hy].
  apply list_elem_of_fmap. by exists y.
Qed.

Lemma store_ok_empty : store_ok empty_store.
Proof. repeat split; constructor. Qed.

Lemma Room_create_ok (now : Z) (code : string) (type : RoomType) (expiresAt : Z)
    (s s' : Store) (r : Room) :
  store_ok s -> Room_create now code type expiresAt s = Some (r, s') -> store_ok s'.
Proof.
  intros (Hc & Hi & Hlt). unfold Room_create.
  destruct (existsb _ _) eqn:Hex; [discriminate |]. intros [= <- <-].
  unfold store_ok, codes_unique, ids_unique in *. cbn [rooms next_room_id].
  rewrite !fmap_app. cbn [fmap list_fmap room_code room_id].
  rewrite Forall_forall in Hlt.
  split; [| split].
  - apply NoDup_app. split; [done |]. split; [| apply NoDup_singleton].
    intros c Hin Hc'. apply list_elem_of_singleton in Hc'. subst c.
    apply list_elem_of_fmap in Hin as (x & Hx & Hin).
    assert (existsb (fun r => String.eqb (room_code r) code) (rooms s) = true);
      [| congruence].
    apply existsb_exists. exists x. split; [by apply list_elem_of_In |].
    apply String.eqb_eq. done.
  - apply NoDup_app. split; [done |]. split; [| apply NoDup_singleton].
    intros i Hin Hi'. apply list_elem_of_singleton in Hi'. subst i.
    apply list_elem_of_fmap in Hin as (x & Hx & Hin).
    specialize (Hlt x Hin). lia.
  - apply Forall_app. split.
    + apply Forall_forall. intros x Hx. specialize (Hlt x Hx). lia.
    + constructor; [simpl; lia | constructor].
Qed.

Lemma Room_deleteById_ok (roomId : Z) (s : Store) :
  store_ok s -> store_ok (Room_deleteById roomId s).
Proof.
  intros (Hc & Hi & Hlt). unfold store_ok, codes_unique, ids_unique, Room_deleteById.
  cbn [rooms next_room_id].
  split; [by apply NoDup_fmap_filter |]. split; [by apply NoDup_fmap_filter |].
  rewrite Forall_forall in Hlt. apply Forall_forall. intros x Hx.
  apply list_elem_of_filter in Hx as [_ Hx]. by apply Hlt.
Qed.

Lemma Message_create_ok (now roomId : Z) (nick content iv : string) (s s' : Store)
    (id : Z) :
  store_ok s -> Message_create now roomId nick content iv s = Some (id, s') ->
  store_ok s'.
Proof.
  intros Hok. unfold Message_create.
  destruct (_ && _); [| discriminate]. by intros [= _ <-].
Qed.

(** A DATETIME is at or before [NOW()] exactly when the instant it denotes
    on the server's clock is at or before the Node instant. *)
Lemma NOW_at_le (offset now datetime : Z) :
  datetime <= NOW_at offset now <-> Date_of_datetime (datetime - offset) <= now.
Proof.
  unfold NOW_at, Date_of_datetime.
  pose proof (Z.div_mod now 1000 ltac:(lia)) as Hdm.
  pose proof (Z.mod_pos_bound now 1000 ltac:(lia)) as Hb.
  lia.
Qed.

Lemma NOW_le (now datetime : Z) :
  datetime <= NOW now <-> Date_of_datetime datetime <= now.
Proof.
  unfold NOW, db_timezone_offset. rewrite NOW_at_le. by rewrite Z.sub_0_r.
Qed.

(** ** C1: the three liveness checks *)

(** The instant the two join paths compare the clock with: the expiry,
    moved by the offset of the zone of the process, to whole seconds. *)
Lemma Date_plus_Z_expiry (LocalTZA : Z -> Z) (room : Room) :
  Date_plus_Z LocalTZA (Date_of_datetime (expires_at room))
  = expiry_instant room + LocalTZA (expiry_instant room) / 1000 * 1000.
Proof.
  unfold Date_plus_Z, expiry_instant, Date_of_datetime.
  rewrite Z.div_add_l by lia. lia.
Qed.

Lemma geb_expiry (LocalTZA : Z -> Z) (now : Z) (room : Room) :
  (now >=? Date_plus_Z LocalTZA (Date_of_datetime (expires_at room)))
  = negb (isAlive (expiry_instant room + LocalTZA (expiry_instant room) / 1000 * 1000)
            now).
Proof.
  rewrite Date_plus_Z_expiry. unfold isAlive. rewrite negb_involutive. apply Z.geb_leb.
Qed.

(** On a process whose zone is UTC at the expiry, the join paths compare
    the clock with the expiry itself. *)
Lemma geb_expiry_utc (LocalTZA : Z -> Z) (now : Z) (room : Room) :
  LocalTZA (expiry_instant room) = 0 ->
  (now >=? Date_plus_Z LocalTZA (Date_of_datetime (expires_at room)))
  = negb (isAlive (expiry_instant room) now).
Proof.
  intros Hz. rewrite geb_expiry, Hz. by rewrite Z.add_0_r.
Qed.

Lemma expired_row_isAlive (now : Z) (room : Room) :
  expired_row now room = negb (isAlive (expiry_instant room) now) && is_active room.
Proof.
  unfold expired_row, isAlive, expiry_instant. rewrite negb_involutive.
  f_equal. apply eq_true_iff_eq. rewrite !Z.leb_le. apply NOW_le.
Qed.

Lemma Room_findExpired_elem (now : Z) (s : Store) (room : Room) :
  room ∈ Room_findExpired now s <->
  room ∈ rooms s /\ is_active room = true /\ isAlive (expiry_instant room) now = false.
Proof.
  unfold Room_findExpired. rewrite list_elem_of_filter, expired_row_isAlive.
  rewrite andb_true_iff, negb_true_iff. tauto.
Qed.

(** What the three checks compute, for every room, instant and zone: the
    two join paths give the verdict of the reference predicate on the
    expiry moved by the offset of the zone, the sweeper's filter gives it
    on the expiry itself. *)
Lemma liveness_checks_time_bases (LocalTZA : Z -> Z) (now : Z) (room : Room) :
  joinRoom_expired LocalTZA now room
  = negb (isAlive (expiry_instant room + LocalTZA (expiry_instant room) / 1000 * 1000)
            now)
  /\ chat_join_expired LocalTZA now room = joinRoom_expired LocalTZA now room
  /\ (is_active room = true ->
      expired_row now room = negb (isAlive (expiry_instant room) now)).
Proof.
  split; [apply geb_expiry |]. split; [reflexivity |].
  intros Ha. by rewrite expired_row_isAlive, Ha, andb_true_r.
Qed.

(** C1.  The three checks do not share one time base.  [room.expires_at]
    reaches the two join paths as a [Date], and [+ "Z"] makes them read the
    wall clock of the zone of the process as UTC, where the sweeper's
    query compares the stored value with [NOW()].  Take the group room,
    which expires ten minutes after [t0].  On a process in New York, at
    [t0], the room is alive by the reference predicate and the sweeper's
    query does not return it, yet both join tests call it expired: the
    join pre-check answers 410 and [chat:join] answers [room:expired],
    each deleting the row.  On a process in Kolkata, an hour after the
    expiry, the room is expired by the reference predicate and the
    sweeper's query returns it, yet both join tests call it alive: the
    join pre-check answers 200 and [chat:join] registers the socket. *)
Theorem liveness_checks_disagree :
  (isAlive (expiry_instant room_g) t0 = true
   /\ expired_row t0 room_g = false
   /\ Room_findExpired t0 two_rooms = []
   /\ joinRoom_expired new_york t0 room_g = true
   /\ chat_join_expired new_york t0 room_g = true
   /\ joinRoom toUpperCase_ascii new_york t0 (JString "ABC123") two_rooms
      = (mkResponse 410
           (BError "This session has expired and all messages have been permanently deleted."),
         mkStore [room_s] [] 3 1)
   /\ chat_join xss_text stable_order toUpperCase_ascii new_york t0 "s1"
        (join_payload "ABC123" "alice") (connection "s1" (empty_server two_rooms))
      = mkServer (mkStore [room_s] [] 3 1) ∅ ∅ {["s1" := mkSession None None None]}
          [mkDelivery "s1" None (RoomExpired "Room has expired.")])
  /\ (isAlive (expiry_instant room_g) (t0 + 4200000) = false
      /\ expired_row (t0 + 4200000) room_g = true
      /\ Room_findExpired (t0 + 4200000) two_rooms = [room_g; room_s]
      /\ joinRoom_expired kolkata (t0 + 4200000) room_g = false
      /\ chat_join_expired kolkata (t0 + 4200000) room_g = false
      /\ joinRoom toUpperCase_ascii kolkata (t0 + 4200000) (JString "ABC123") two_rooms
         = (mkResponse 200 (BRoom "ABC123" group (t0_s + 600)), two_rooms)
      /\ sockets (chat_join xss_text stable_order toUpperCase_ascii kolkata (t0 + 4200000)
                    "s1" (join_payload "ABC123" "alice")
                    (connection "s1" (empty_server two_rooms))) !! "s1"
         = Some (mkSession (Some "ABC123") (Some "alice") (Some 1))).
Proof.
  split; repeat split; reflexivity.
Qed.

(** ** C4: the HTTP join pre-check *)

(** What the join pre-check answers to a [roomCode] that normalises to a
    well-formed code: 404 when no active room has the code; otherwise 410,
    with the room row and its messages deleted, when the clock has
    reached the expiry moved by the offset of the zone of the process, and
    200 with the room's code, type and [expires_at] before that. *)
Lemma joinRoom_cases (toUpperCase : string -> string) (LocalTZA : Z -> Z) (now : Z)
    (raw : string) (s : Store) :
  raw <> "" ->
  is_code (slice0 6 (toUpperCase (trim raw))) = true ->
  match Room_findByCode (slice0 6 (toUpperCase (trim raw))) s with
  | None =>
      joinRoom toUpperCase LocalTZA now (JString raw) s
      = (mkResponse 404 (BError "Room not found. It may have expired or never existed."), s)
  | Some room =>
      if isAlive (expiry_instant room + LocalTZA (expiry_instant room) / 1000 * 1000) now
      then
        joinRoom toUpperCase LocalTZA now (JString raw) s
        = (mkResponse 200
             (BRoom (slice0 6 (toUpperCase (trim raw))) (room_type room) (expires_at room)),
           s)
      else
        joinRoom toUpperCase LocalTZA now (JString raw) s
        = (mkResponse 410
             (BError "This session has expired and all messages have been permanently deleted."),
           Room_deleteById (room_id room) s)
  end.
Proof.
  intros Hne Hcode.
  assert (Hraw : as_nonempty_string (JString raw) = Some raw).
  { cbn [as_nonempty_string]. by destruct raw. }
  unfold joinRoom. rewrite Hraw, Hcode. cbn [negb].
  destruct (Room_findByCode _ s) as [room|] eqn:Hfind; [| done].
  destruct (Room_findByCode_Some _ _ _ Hfind) as (_ & Hc & _).
  unfold joinRoom_expired. rewrite geb_expiry.
  destruct (isAlive _ now); cbn [negb]; [by rewrite Hc | done].
Qed.

(** C4.  The join pre-check does not judge the expiry on the UTC time base
    (the defect of C1).  On a process in Kolkata, a request for the group
    room an hour after its expiry is answered with 200 and the room's
    data, and the room stays in the store, where the claim has 410 and the
    room deleted; on a process in New York, a request at [t0], ten minutes
    before the expiry, is answered with 410 and deletes the room, where
    the claim has the success response.  On a UTC process the same two
    requests are answered as the claim says, and a code that no active
    room carries is answered with 404 on any of them. *)
Theorem joinRoom_misjudges_expiry :
  (isAlive (expiry_instant room_g) (t0 + 4200000) = false
   /\ joinRoom toUpperCase_ascii kolkata (t0 + 4200000) (JString " abc123 ") two_rooms
      = (mkResponse 200 (BRoom "ABC123" group (t0_s + 600)), two_rooms)
   /\ joinRoom toUpperCase_ascii utc (t0 + 4200000) (JString " abc123 ") two_rooms
      = (mkResponse 410
           (BError "This session has expired and all messages have been permanently deleted."),
         mkStore [room_s] [] 3 1))
  /\ (isAlive (expiry_instant room_g) t0 = true
      /\ joinRoom toUpperCase_ascii new_york t0 (JString " abc123 ") two_rooms
         = (mkResponse 410
              (BError "This session has expired and all messages have been permanently deleted."),
            mkStore [room_s] [] 3 1)
      /\ joinRoom toUpperCase_ascii utc t0 (JString " abc123 ") two_rooms
         = (mkResponse 200 (BRoom "ABC123" group (t0_s + 600)), two_rooms))
  /\ (forall LocalTZA,
        joinRoom toUpperCase_ascii LocalTZA t0 (JString "QQQ111") two_rooms
        = (mkResponse 404 (BError "Room not found. It may have expired or never existed."),
           two_rooms)).
Proof.
  split; [| split]; repeat split; reflexivity.
Qed.

(** ** C8: room code generation *)

Lemma char_of_byte_code_char (b : Z) :
  exists c, char_of_byte b = String c EmptyString /\ is_code_char c = true.
Proof.
  unfold char_of_byte.
  assert (Hlt : (Z.to_nat (b mod Z.of_nat (String.length CHARS)) < 36)%nat).
  { pose proof (Z.mod_pos_bound b 36 ltac:(lia)) as Hb.
    change (Z.of_nat (String.length CHARS)) with 36. lia. }
  revert Hlt. generalize (Z.to_nat (b mod Z.of_nat (String.length CHARS))).
  intros n Hlt.
  do 36 (destruct n as [|n]; [vm_compute; eauto |]).
  lia.
Qed.

Lemma is_code_six (c1 c2 c3 c4 c5 c6 : ascii) :
  is_code_char c1 = true -> is_code_char c2 = true -> is_code_char c3 = true ->
  is_code_char c4 = true -> is_code_char c5 = true -> is_code_char c6 = true ->
  is_code (String c1 (String c2 (String c3 (String c4 (String c5 (String c6 "")))))) = true.
Proof.
  intros H1 H2 H3 H4 H5 H6. unfold is_code. simpl.
  by rewrite H1, H2, H3, H4, H5, H6.
Qed.

(** Every draw is a code of six characters of the alphabet. *)
Lemma drawn_code_is_code (g : Rng) (k : nat) : is_code (drawn_code g k) = true.
Proof.
  unfold drawn_code, randomBytes, LENGTH, code_of_bytes. simpl.
  repeat match goal with
         | |- context [char_of_byte ?b] =>
             let c := fresh "c" in let E := fresh "E" in let H := fresh "H" in
             destruct (char_of_byte_code_char b) as (c & E & H); rewrite E; clear E
         end.
  cbv [String.append]. by apply is_code_six.
Qed.

Lemma generate_attempts_step (n : nat) (s : Store) (g : Rng) :
  generate_attempts (S n) s g =
  match Room_findByCode (drawn_code g 0) s with
  | None => (Some (drawn_code g 0), mkRng (tape g) (cursor g + LENGTH)%nat)
  | Some _ => generate_attempts n s (mkRng (tape g) (cursor g + LENGTH)%nat)
  end.
Proof.
  destruct g as [tp cur]. unfold drawn_code.
  cbn [generate_attempts tape cursor]. rewrite Nat.mul_0_l, Nat.add_0_r.
  unfold randomBytes. cbn [tape cursor fst]. reflexivity.
Qed.

Lemma drawn_code_shift (g : Rng) (k : nat) :
  drawn_code (mkRng (tape g) (cursor g + LENGTH)%nat) k = drawn_code g (S k).
Proof.
  unfold drawn_code. simpl tape. simpl cursor.
  replace (cursor g + LENGTH + k * LENGTH)%nat with (cursor g + S k * LENGTH)%nat by lia.
  done.
Qed.


(** Whatever the store, a call makes between one and five draws; a code it
    returns is well-formed and was found free. *)
Lemma generate_attempts_result (n : nat) (s : Store) (g : Rng) :
  match generate_attempts n s g with
  | (Some code, g') =>
      is_code code = true /\ Room_findByCode code s = None
      /\ exists k, (k < n)%nat /\ code = drawn_code g k
                   /\ cursor g' = (cursor g + S k * LENGTH)%nat
  | (None, g') => cursor g' = (cursor g + n * LENGTH)%nat
  end.
Proof.
  revert g. induction n as [|n IH]; intros g.
  - simpl. lia.
  - rewrite generate_attempts_step.
    destruct (Room_findByCode (drawn_code g 0) s) eqn:H0.
    + specialize (IH (mkRng (tape g) (cursor g + LENGTH)%nat)).
      destruct (generate_attempts n s _) as [[code|] g'].
      * destruct IH as (Hc & Hf & k & Hk & Hd & Hcur).
        split; [done |]. split; [done |].
        exists (S k). rewrite drawn_code_shift in Hd. cbn [cursor] in Hcur.
        unfold LENGTH in *. split; [lia |]. split; [done | lia].
      * cbn [cursor] in IH. unfold LENGTH in *. lia.
    + split; [apply drawn_code_is_code |]. split; [done |].
      exists 0%nat. cbn [cursor]. unfold LENGTH. split; [lia |]. split; [done | lia].
Qed.



(** ** C9: explicit expiry instants in [createRoom] *)

(** An instant that is not strictly in the future, or more than thirty days
    ahead, is refused with a 400 and its reason; nothing is drawn or stored. *)
Lemma createRoom_custom_out_of_range (now stored ms : Z) (ty : jsval) (type : RoomType)
    (g : Rng) (s : Store) :
  room_type_of ty = Some type ->
  ms <= now \/ now + 30 * 24 * 60 * 60 * 1000 < ms ->
  exists reason,
    createRoom now stored (mkCreateBody ty (JString "custom") (DateAt ms)) g s
    = (mkResponse 400 (BError reason), s, g).
Proof.
  intros Hty Hrange. unfold createRoom, compute_expiry, custom_expiry.
  cbn [cb_type cb_expiryType cb_customExpiry]. rewrite Hty. simpl.
  destruct (ms <=? now) eqn:Hle; [eexists; reflexivity |].
  apply Z.leb_gt in Hle.
  destruct (ms >? _) eqn:Hgt; [eexists; reflexivity |].
  rewrite Z.gtb_ltb in Hgt. apply Z.ltb_ge in Hgt. lia.
Qed.

(** An instant within the window is stored cut to whole seconds, and the
    201 response carries the fresh code, the type and that [expires_at]. *)
Lemma createRoom_custom_created (now stored ms : Z) (ty : jsval) (type : RoomType)
    (g g' : Rng) (s : Store) (code : string) :
  room_type_of ty = Some type ->
  now < ms <= now + 30 * 24 * 60 * 60 * 1000 ->
  generateUniqueCode s g = (Some code, g') ->
  existsb (fun r => String.eqb (room_code r) code) (rooms s) = false ->
  createRoom now stored (mkCreateBody ty (JString "custom") (DateAt ms)) g s
  = (mkResponse 201 (BRoom code type (toDatetime ms)),
     mkStore (rooms s ++ [mkRoom (next_room_id s) code type (NOW stored) (toDatetime ms) true])
             (messages s) (next_room_id s + 1) (next_msg_id s),
     g').
Proof.
  intros Hty [Hlo Hhi] Hgen Hfree. unfold createRoom, compute_expiry, custom_expiry.
  cbn [cb_type cb_expiryType cb_customExpiry]. rewrite Hty. simpl.
  destruct (ms <=? now) eqn:Hle; [apply Z.leb_le in Hle; lia |].
  destruct (ms >? _) eqn:Hgt.
  { rewrite Z.gtb_ltb in Hgt. apply Z.ltb_lt in Hgt. lia. }
  rewrite Hgen. unfold Room_create. by rewrite Hfree.
Qed.

(** C9, at a malformed instant.  For a creation request of either room type
    whose [customExpiry] does not parse, [toISOString()] throws before the
    [isNaN] test is reached: the response is the 500 server error, not the
    400 with its reason, whatever the clock, the store and the random
    source; the store and the random source are as before. *)
Theorem createRoom_malformed_custom_expiry (now stored : Z) (g : Rng) (s : Store) :
  createRoom now stored (mkCreateBody (JString "single") (JString "custom") InvalidDate) g s
  = (mkResponse 500 (BError "Server error creating room."), s, g)
  /\ createRoom now stored (mkCreateBody (JString "group") (JString "custom") InvalidDate) g s
     = (mkResponse 500 (BError "Server error creating room."), s, g).
Proof. split; reflexivity. Qed.

(** ** C10: the nickname attached to a message *)

Section Nickname.

Variable xss : string -> string.
Variable order_by_sent_at : list Message -> list Message.
Variable toUpperCase : string -> string.
Variable LocalTZA : Z -> Z.


(** What one [chat:message] event does, in full. *)
Lemma chat_message_cases (now : Z) (sid : string) (payload : gmap string jsval)
    (st : Server) :
  chat_message xss now sid payload st = st
  \/ chat_message xss now sid payload st
     = emit sid (RoomExpired "Room no longer exists.") st
  \/ exists sess code nick rid content iv,
       sockets st !! sid = Some sess
       /\ truthy (currentRoom sess) = Some code
       /\ truthy (nickname sess) = Some nick
       /\ roomId sess = Some rid
       /\ is_Some (Room_findByCode code (db st))
       /\ Message_create now rid nick content iv (db st)
          = Some (next_msg_id (db st),
                  mkStore (rooms (db st))
                    (messages (db st)
                     ++ [mkMessage (next_msg_id (db st)) rid nick content iv (NOW now)])
                    (next_room_id (db st)) (next_msg_id (db st) + 1))
       /\ chat_message xss now sid payload st
          = mkServer
              (mkStore (rooms (db st))
                 (messages (db st)
                  ++ [mkMessage (next_msg_id (db st)) rid nick content iv (NOW now)])
                 (next_room_id (db st)) (next_msg_id (db st) + 1))
              (roomParticipants st) (channels st) (sockets st)
              (outbox st
               ++ broadcast code (members (channels st) code)
                    (ChatMessage (next_msg_id (db st)) nick content iv now)).
Proof.
  unfold chat_message.
  destruct (sockets st !! sid) as [sess|] eqn:Hs; [| by left].
  destruct (truthy (currentRoom sess)) as [code|] eqn:Hc; [| by left].
  destruct (truthy (nickname sess)) as [nick|] eqn:Hn; [| by left].
  destruct (as_nonempty_string (field payload "content")) as [content|]; [| by left].
  destruct (as_nonempty_string (field payload "iv")) as [iv|]; [| by left].
  destruct (65536 <? _); [by left |].
  destruct (Room_findByCode code (db st)) as [room|] eqn:Hf; [| right; by left].
  destruct (roomId sess) as [rid|] eqn:Hr; [| by left].
  destruct (Message_create _ _ _ _ _ _) as [[msgId db']|] eqn:Hm; [| by left].
  right. right.
  exists sess, code, nick, rid, (xss (trim content)), (xss (trim iv)).
  unfold Message_create in *.
  destruct (_ && _); [| discriminate]. injection Hm as <- <-.
  repeat split; done.
Qed.


Lemma broadcast_ev (code : string) (to : gset string) (e : Event) :
  Forall (fun d => ev d = e /\ via d = Some code /\ rcpt d ∈ to) (broadcast code to e).
Proof.
  apply Forall_forall. intros d Hd. apply list_elem_of_In, in_map_iff in Hd.
  destruct Hd as (x & <- & Hx). simpl. repeat split.
  by apply elem_of_elements, list_elem_of_In.
Qed.


End Nickname.


(** ** C3: the liveness re-check of [chat:message] *)

(** C3 as stated fails.  The room of "s1" is one millisecond past its
    expiry and has not been swept yet: the handler finds the row, stores
    the message and broadcasts it; nothing tells the sender that the room
    has expired. *)
Lemma chat_message_past_expiry_relays :
  (exists room, Room_findByCode "ABC123" (db joined_server) = Some room
                /\ isAlive (expiry_instant room) (t0 + 600001) = false)
  /\ messages (db (chat_message xss_text (t0 + 600001) "s1"
                     (message_payload "Y2lwaGVy" "aXY=") joined_server))
     = [mkMessage 1 1 "alice" "Y2lwaGVy" "aXY=" (t0_s + 600)]
  /\ outbox (chat_message xss_text (t0 + 600001) "s1"
               (message_payload "Y2lwaGVy" "aXY=") joined_server)
     = (outbox joined_server
        ++ [mkDelivery "s1" (Some "ABC123")
              (ChatMessage 1 "alice" "Y2lwaGVy" "aXY=" (t0 + 600001))])%list.
Proof.
  split; [exists room_g; split; reflexivity |].
  split; reflexivity.
Qed.

Section Relay.

Variable xss : string -> string.

(** C3, amended.  For a [chat:message] event with a valid payload from a
    socket that has a room and a nickname: the handler looks the room up
    again by its code, and when no active row has that code it emits
    [room:expired] to the sender and does nothing else: no row is stored,
    nothing is broadcast, and the socket keeps its room and nickname. *)
Theorem chat_message_room_gone (now : Z) (sid : string) (payload : gmap string jsval)
    (st : Server) (sess : Session) (code nick content iv : string) :
  sockets st !! sid = Some sess ->
  truthy (currentRoom sess) = Some code ->
  truthy (nickname sess) = Some nick ->
  as_nonempty_string (field payload "content") = Some content ->
  as_nonempty_string (field payload "iv") = Some iv ->
  Z.of_nat (String.length content) <= 65536 ->
  Room_findByCode code (db st) = None ->
  chat_message xss now sid payload st
  = emit sid (RoomExpired "Room no longer exists.") st
  /\ db (chat_message xss now sid payload st) = db st
  /\ sockets (chat_message xss now sid payload st) = sockets st
  /\ outbox (chat_message xss now sid payload st)
     = (outbox st ++ [mkDelivery sid None (RoomExpired "Room no longer exists.")])%list.
Proof.
  intros Hs Hc Hn Hcontent Hiv Hlen Hgone.
  assert (E : chat_message xss now sid payload st
              = emit sid (RoomExpired "Room no longer exists.") st).
  { unfold chat_message. rewrite Hs, Hc, Hn, Hcontent, Hiv, Hgone.
    destruct (65536 <? _) eqn:Hlt; [apply Z.ltb_lt in Hlt; lia | done]. }
  rewrite E. done.
Qed.

End Relay.

(** After the sweep has deleted the room, "s1" sends once more. *)
Lemma chat_message_room_gone_witness :
  Room_findByCode "ABC123"
    (db (cleanup_tick no_rejects (t0 + 600000) joined_server)) = None
  /\ chat_message xss_text (t0 + 600001) "s1" (message_payload "Y2lwaGVy" "aXY=")
       (cleanup_tick no_rejects (t0 + 600000) joined_server)
     = emit "s1" (RoomExpired "Room no longer exists.")
         (cleanup_tick no_rejects (t0 + 600000) joined_server).
Proof.
  assert (Hgone : Room_findByCode "ABC123"
            (db (cleanup_tick no_rejects (t0 + 600000) joined_server)) = None)
    by reflexivity.
  assert (Hs : sockets (cleanup_tick no_rejects (t0 + 600000) joined_server) !! "s1"
               = Some (mkSession (Some "ABC123") (Some "alice") (Some 1)))
    by reflexivity.
  split; [exact Hgone |].
  refine (proj1 (chat_message_room_gone xss_text (t0 + 600001) "s1"
                   (message_payload "Y2lwaGVy" "aXY=") _ _ "ABC123" "alice"
                   "Y2lwaGVy" "aXY=" Hs eq_refl eq_refl _ _ _ Hgone)).
  - reflexivity.
  - reflexivity.
  - vm_compute. discriminate.
Defined.

(** ** C5: the capacity of a single room *)

Lemma members_insert (m : gmap string (gset string)) (code code' : string)
    (x : gset string) :
  members (<[code := x]> m) code' = if decide (code = code') then x else members m code'.
Proof.
  unfold members. rewrite lookup_insert. by case_decide.
Qed.

Lemma members_leave_subseteq (code sid code' : string) (parts : gmap string (gset string)) :
  members (leave code sid parts) code' ⊆ members parts code'.
Proof.
  unfold leave, members.
  destruct (parts !! code) as [p|] eqn:Hp; [| done].
  case_bool_decide.
  - rewrite lookup_delete. case_decide; [simpl; set_solver | done].
  - rewrite lookup_insert. case_decide; [subst; rewrite Hp; simpl; set_solver | done].
Qed.

Lemma size_add_member (P : gset string) (sid : string) :
  (size (P ∪ {[sid]}) <= S (size P))%nat.
Proof.
  rewrite size_union_alt.
  assert (size (({[sid]} : gset string) ∖ P) <= 1)%nat.
  { rewrite <- (size_singleton (C := gset string) sid).
    apply subseteq_size. set_solver. }
  lia.
Qed.

Lemma Room_findByCode_unique (s : Store) (code : string) (room r : Room) :
  codes_unique s ->
  Room_findByCode code s = Some room ->
  r ∈ rooms s -> room_code r = code -> r = room.
Proof.
  unfold codes_unique. intros Hnd Hf Hr Hc.
  apply Room_findByCode_Some in Hf as (Hin & Hc' & _).
  apply list_elem_of_lookup in Hr as [i Hi].
  apply list_elem_of_lookup in Hin as [j Hj].
  assert (i = j); [| congruence].
  eapply NoDup_lookup; [exact Hnd | |].
  - by rewrite list_lookup_fmap, Hi.
  - rewrite list_lookup_fmap, Hj. simpl. congruence.
Qed.

Section Capacity.

Variable xss : string -> string.
Variable order_by_sent_at : list Message -> list Message.
Variable toUpperCase : string -> string.
Variable LocalTZA : Z -> Z.

(** The participant map and the rooms after a [chat:join], whatever its
    outcome. *)
Lemma chat_join_registry (now : Z) (sid : string) (payload : gmap string jsval)
    (st : Server) :
  let st' := chat_join xss order_by_sent_at toUpperCase LocalTZA now sid payload st in
  (forall r, r ∈ rooms (db st') -> r ∈ rooms (db st))
  /\ (roomParticipants st' = roomParticipants st
      \/ exists code room,
           Room_findByCode code (db st) = Some room
           /\ room_full room (members (roomParticipants st) code) sid = false
           /\ db st' = db st
           /\ roomParticipants st'
              = <[code := members (roomParticipants st) code ∪ {[sid]}]>
                  (roomParticipants st)).
Proof.
  unfold chat_join.
  destruct (sockets st !! sid); [| by split; [| left]].
  destruct (as_nonempty_string (field payload "roomCode")); [| by split; [| left]].
  destruct (as_nonempty_string (field payload "nickname")); [| by split; [| left]].
  destruct (negb _); [by split; [| left] |].
  destruct (String.eqb _ ""); [by split; [| left] |].
  destruct (Room_findByCode _ _) as [room|] eqn:Hf; [| by split; [| left]].
  destruct (chat_join_expired LocalTZA now room).
  { split; [| by left]. simpl. intros r Hr.
    by apply Room_deleteById_rooms in Hr as [? _]. }
  destruct (room_full _ _ _) eqn:Hfull; [by split; [| left] |].
  split; [done |]. right. eexists _, room. done.
Qed.

Lemma chat_join_capacity (now : Z) (sid : string) (payload : gmap string jsval)
    (st : Server) :
  codes_unique (db st) -> capacity_ok st ->
  capacity_ok (chat_join xss order_by_sent_at toUpperCase LocalTZA now sid payload st).
Proof.
  intros Hu Hinv.
  destruct (chat_join_registry now sid payload st) as [Hsub Hreg].
  intros r Hr Ha Hty. specialize (Hsub r Hr).
  destruct Hreg as [-> | (code & room & Hf & Hfull & Hdb & ->)].
  { by apply Hinv. }
  rewrite members_insert. case_decide as Hc; [| by apply Hinv].
  assert (r = room) as -> by (eapply Room_findByCode_unique; eauto).
  specialize (Hinv room Hsub Ha Hty). rewrite <- Hc in Hinv.
  unfold room_full in Hfull. rewrite Hty in Hfull. simpl in Hfull.
  apply andb_false_iff in Hfull as [Hsz | Hmem].
  - apply bool_decide_eq_false in Hsz.
    pose proof (size_add_member (members (roomParticipants st) code) sid). lia.
  - apply bool_decide_eq_false in Hmem.
    assert (sid ∈ members (roomParticipants st) code)
      by (destruct (decide (sid ∈ members (roomParticipants st) code)); tauto).
    replace (members (roomParticipants st) code ∪ {[sid]})
      with (members (roomParticipants st) code) by set_solver.
    done.
Qed.

Lemma disconnect_capacity (now : Z) (sid : string) (st : Server) :
  capacity_ok st -> capacity_ok (disconnect now sid st).
Proof.
  intros Hinv. unfold disconnect.
  destruct (sockets st !! sid) as [sess|]; [| done].
  destruct (truthy (currentRoom sess)) as [code|]; [| done].
  intros r Hr Ha Hty. simpl in *.
  etransitivity; [apply subseteq_size, members_leave_subseteq |].
  by apply Hinv.
Qed.

(** C5.  In a store whose codes are unique, take a single room that passes
    the handler's expiry test and a connected socket sending a valid
    [chat:join] for it.  (a) With two participants registered and the
    socket not among them, the socket is handed the room-full error, one
    [error:room] event added to what has been emitted, and the store, the
    participant map, the Socket.IO rooms and the sessions are as before.
    (b) A socket that is registered already is accepted again: the
    registered set stays the same, the session records the room, and the
    socket is handed [chat:joined].  (c) With fewer than two registered,
    the socket is accepted and added in the same way.  (d) The bound of
    two participants per single room is kept by every [chat:join] and
    every [disconnect], of any socket and with any payload. *)
Theorem single_room_capacity (now : Z) (sid : string) (payload : gmap string jsval)
    (st : Server) (rawCode rawNick : string) (room : Room) :
  let code := xss (slice0 6 (toUpperCase (trim rawCode))) in
  let cleanNick := xss (slice0 32 (trim rawNick)) in
  let P := members (roomParticipants st) code in
  let st' := chat_join xss order_by_sent_at toUpperCase LocalTZA now sid payload st in
  codes_unique (db st) ->
  capacity_ok st ->
  is_Some (sockets st !! sid) ->
  as_nonempty_string (field payload "roomCode") = Some rawCode ->
  as_nonempty_string (field payload "nickname") = Some rawNick ->
  is_code code = true ->
  cleanNick <> "" ->
  Room_findByCode code (db st) = Some room ->
  room_type room = single ->
  chat_join_expired LocalTZA now room = false ->
  ((2 <= size P)%nat -> sid ∉ P ->
     outbox st'
     = (outbox st
        ++ [mkDelivery sid None (ErrorRoom "This private room is full (max 2 users).")])%list
     /\ db st' = db st
     /\ roomParticipants st' = roomParticipants st
     /\ channels st' = channels st
     /\ sockets st' = sockets st)
  /\ (sid ∈ P ->
       st' = join_accepted order_by_sent_at now sid code cleanNick room st
       /\ members (roomParticipants st') code = P
       /\ sockets st' !! sid
          = Some (mkSession (Some code) (Some cleanNick) (Some (room_id room)))
       /\ exists ds : list Delivery,
            outbox st'
            = (outbox st ++ ds
               ++ [mkDelivery sid None
                     (ChatJoined code (room_type room) (expires_at room) cleanNick)])%list)
  /\ ((size P < 2)%nat ->
       st' = join_accepted order_by_sent_at now sid code cleanNick room st
       /\ members (roomParticipants st') code = P ∪ {[sid]}
       /\ sockets st' !! sid
          = Some (mkSession (Some code) (Some cleanNick) (Some (room_id room)))
       /\ exists ds : list Delivery,
            outbox st'
            = (outbox st ++ ds
               ++ [mkDelivery sid None
                     (ChatJoined code (room_type room) (expires_at room) cleanNick)])%list)
  /\ (size (members (roomParticipants st') code) <= 2)%nat
  /\ (forall now2 sid2 payload2,
        capacity_ok (chat_join xss order_by_sent_at toUpperCase LocalTZA now2 sid2 payload2 st)
        /\ capacity_ok (disconnect now2 sid2 st)).
Proof.
  intros code cleanNick P st' Hu Hinv [sess Hs] Hrc Hnk Hcode Hnick Hf Hty Hlive.
  assert (Hstep : st' = if room_full room P sid
                        then emit sid (ErrorRoom "This private room is full (max 2 users).") st
                        else join_accepted order_by_sent_at now sid code cleanNick room st).
  { unfold st', chat_join. rewrite Hs, Hrc, Hnk. fold code cleanNick.
    rewrite Hcode. simpl negb. cbv iota.
    apply String.eqb_neq in Hnick. rewrite Hnick, Hf, Hlive. done. }
  assert (Hfull : room_full room P sid
                  = bool_decide (2 <= size P)%nat && bool_decide (sid ∉ P)).
  { unfold room_full. by rewrite Hty. }
  assert (Hacc : members (roomParticipants
                   (join_accepted order_by_sent_at now sid code cleanNick room st)) code
                 = P ∪ {[sid]}).
  { unfold join_accepted. cbn [roomParticipants]. rewrite members_insert.
    destruct (decide (code = code)); [reflexivity | done]. }
  assert (Hsess : sockets (join_accepted order_by_sent_at now sid code cleanNick room st)
                    !! sid
                  = Some (mkSession (Some code) (Some cleanNick) (Some (room_id room)))).
  { unfold join_accepted. cbn [sockets]. apply lookup_insert_eq. }
  assert (Hout : exists ds : list Delivery,
             outbox (join_accepted order_by_sent_at now sid code cleanNick room st)
             = (outbox st ++ ds
                ++ [mkDelivery sid None
                      (ChatJoined code (room_type room) (expires_at room) cleanNick)])%list).
  { unfold join_accepted. cbn [outbox]. eexists (_ :: _). reflexivity. }
  split; [| split; [| split; [| split]]].
  - intros Hsz Hnot. rewrite Hstep, Hfull.
    by rewrite (bool_decide_eq_true_2 _ Hsz), (bool_decide_eq_true_2 _ Hnot).
  - intros Hin. rewrite Hstep, Hfull.
    assert (bool_decide (sid ∉ P) = false) as -> by (apply bool_decide_eq_false; tauto).
    rewrite andb_false_r. split; [done |]. split; [| done]. rewrite Hacc.
    clear -Hin. clearbody P. set_solver.
  - intros Hsz. rewrite Hstep, Hfull.
    assert (bool_decide (2 <= size P)%nat = false) as ->
      by (apply bool_decide_eq_false; lia).
    done.
  - destruct (Room_findByCode_Some _ _ _ Hf) as (Hin & Hc & Ha).
    pose proof (chat_join_capacity now sid payload st Hu Hinv) as Hinv'.
    fold st' in Hinv'.
    destruct (chat_join_registry now sid payload st) as [_ Hreg]. fold st' in Hreg.
    destruct Hreg as [-> | (code2 & room2 & _ & _ & Hdb & Hparts)].
    + specialize (Hinv room Hin Ha Hty). by rewrite Hc in Hinv.
    + specialize (Hinv' room). rewrite Hdb, Hc in Hinv'. by apply Hinv'.
  - intros now2 sid2 payload2. split.
    + by apply chat_join_capacity.
    + by apply disconnect_capacity.
Qed.

End Capacity.

(** The third socket at a full single room. *)
Lemma single_room_capacity_witness :
  (2 <= size (members (roomParticipants full_single) "XYZ789"))%nat
  /\ ("s3" ∉ members (roomParticipants full_single) "XYZ789")
  /\ outbox (chat_join xss_text stable_order toUpperCase_ascii utc (t0 + 3) "s3"
               (join_payload "xyz789" "carol") full_single)
     = (outbox full_single
        ++ [mkDelivery "s3" None (ErrorRoom "This private room is full (max 2 users).")])%list
  /\ roomParticipants (chat_join xss_text stable_order toUpperCase_ascii utc (t0 + 3) "s3"
                         (join_payload "xyz789" "carol") full_single)
     = roomParticipants full_single.
Proof.
  assert (Hsz : (2 <= size (members (roomParticipants full_single) "XYZ789"))%nat).
  { vm_compute. lia. }
  assert (Hnot : "s3" ∉ members (roomParticipants full_single) "XYZ789").
  { apply (bool_decide_unpack _). vm_compute. exact I. }
  assert (Hu : codes_unique (db full_single)).
  { apply (bool_decide_unpack _). vm_compute. exact I. }
  assert (Hinv : capacity_ok full_single).
  { intros r Hr _ _. change (rooms (db full_single)) with [room_g; room_s] in Hr.
    apply elem_of_cons in Hr as [-> | Hr].
    - vm_compute. lia.
    - apply elem_of_cons in Hr as [-> | Hr].
      + vm_compute. lia.
      + by apply elem_of_nil in Hr. }
  assert (Hs : is_Some (sockets full_single !! "s3")).
  { exists (mkSession None None None). reflexivity. }
  assert (Hne : xss_text (slice0 32 (trim "carol")) <> "") by discriminate.
  split; [exact Hsz |]. split; [exact Hnot |].
  pose proof (proj1 (single_room_capacity xss_text stable_order toUpperCase_ascii utc
                       (t0 + 3) "s3" (join_payload "xyz789" "carol") full_single
                       "xyz789" "carol" room_s
                       Hu Hinv Hs eq_refl eq_refl eq_refl Hne eq_refl eq_refl eq_refl)
                    Hsz Hnot) as (Hout & _ & Hparts & _).
  split; [exact Hout | exact Hparts].
Defined.

(** ** C2 and C6: one sweep *)

Lemma notices_to_app (code sid : string) (ds1 ds2 : list Delivery) :
  notices_to code sid (ds1 ++ ds2) = (notices_to code sid ds1 + notices_to code sid ds2)%nat.
Proof.
  unfold notices_to. by rewrite List.filter_app, length_app.
Qed.

Lemma notices_to_other_room (code code' sid : string) (to : gset string) (e : Event) :
  code' <> code -> notices_to code sid (broadcast code' to e) = 0%nat.
Proof.
  intros Hne. unfold notices_to, broadcast.
  induction (elements to) as [|x l IH]; [done |].
  simpl. unfold is_notice_for at 1. simpl.
  apply String.eqb_neq in Hne. rewrite Hne, andb_false_r. simpl. exact IH.
Qed.

Lemma is_notice_for_notice (code sid x : string) :
  is_notice_for code sid (mkDelivery x (Some code) expiry_notice) = String.eqb x sid.
Proof.
  unfold is_notice_for. simpl. by rewrite String.eqb_refl, !andb_true_r.
Qed.

Lemma notices_to_list (code sid : string) (l : list string) :
  NoDup l ->
  length (List.filter (is_notice_for code sid)
            (map (fun s => mkDelivery s (Some code) expiry_notice) l))
  = if decide (sid ∈ l) then 1%nat else 0%nat.
Proof.
  induction l as [|x l IH]; intros Hnd.
  - cbn [map List.filter length].
    destruct (decide (sid ∈ [])) as [Hin | _]; [by apply elem_of_nil in Hin | done].
  - apply NoDup_cons in Hnd as [Hx Hnd]. specialize (IH Hnd).
    cbn [map List.filter]. rewrite is_notice_for_notice.
    destruct (String.eqb x sid) eqn:E.
    + apply String.eqb_eq in E. subst x. cbn [length]. rewrite IH.
      rewrite decide_False by done. rewrite decide_True by set_solver. done.
    + apply String.eqb_neq in E. rewrite IH.
      destruct (decide (sid ∈ l)).
      * by rewrite decide_True by set_solver.
      * by rewrite decide_False by set_solver.
Qed.

Lemma notices_to_broadcast (code sid : string) (to : gset string) :
  notices_to code sid (broadcast code to expiry_notice)
  = if decide (sid ∈ to) then 1%nat else 0%nat.
Proof.
  unfold notices_to, broadcast. rewrite notices_to_list by apply NoDup_elements.
  destruct (decide (sid ∈ to)).
  - by rewrite decide_True by (by apply elem_of_elements).
  - by rewrite decide_False by (by rewrite elem_of_elements).
Qed.

Lemma members_delete_ne (m : gmap string (gset string)) (code code' : string) :
  code' <> code -> members (delete code' m) code = members m code.
Proof.
  intros Hne. unfold members. by rewrite lookup_delete_ne.
Qed.

(** The deliveries of a sweep, counted per room and socket. *)
Lemma notices_to_sweep (code sid : string) (l : list Room)
    (chans : gmap string (gset string)) :
  NoDup (room_code <$> l) ->
  notices_to code sid (sweep_deliveries l chans)
  = if decide (code ∈ (room_code <$> l))
    then (if decide (sid ∈ members chans code) then 1%nat else 0%nat)
    else 0%nat.
Proof.
  revert chans. induction l as [|r l IH]; intros chans Hnd.
  - cbn [sweep_deliveries]. rewrite fmap_nil.
    destruct (decide (code ∈ [])) as [Hin | _]; [by apply elem_of_nil in Hin | done].
  - rewrite fmap_cons in Hnd. apply NoDup_cons in Hnd as [Hr Hnd].
    cbn [sweep_deliveries]. rewrite notices_to_app, (IH _ Hnd), fmap_cons.
    destruct (decide (room_code r = code)) as [<- | Hne].
    + rewrite notices_to_broadcast.
      rewrite (decide_False (P := room_code r ∈ (room_code <$> l))) by done.
      destruct (decide (room_code r ∈ room_code r :: (room_code <$> l))) as [_ | Hn].
      * lia.
      * exfalso. apply Hn, elem_of_cons. by left.
    + rewrite notices_to_other_room by done.
      rewrite members_delete_ne by done. cbn [Nat.add].
      destruct (decide (code ∈ (room_code <$> l))) as [Hin | Hnin];
        destruct (decide (code ∈ room_code r :: (room_code <$> l))) as [Hin' | Hnin'];
        try done.
      * exfalso. apply Hnin', elem_of_cons. by right.
      * apply elem_of_cons in Hin' as [? | ?]; congruence.
Qed.

(** A sweep in which no DELETE is refused, in closed form. *)
Lemma sweep_loop_completes (rejects : Z -> bool) (l : list Room) (st : Server) :
  (forall r, r ∈ l -> rejects (room_id r) = false) ->
  sweep_loop rejects l st
  = mkServer (fold_left (fun s r => Room_deleteById (room_id r) s) l (db st))
             (roomParticipants st)
             (fold_left (fun c r => delete (room_code r) c) l (channels st))
             (sockets st)
             (outbox st ++ sweep_deliveries l (channels st)).
Proof.
  revert st. induction l as [|r l IH]; intros st Hok.
  - simpl. rewrite app_nil_r. by destruct st.
  - simpl. unfold sweep_room. rewrite (Hok r) by set_solver.
    rewrite IH by (intros; apply Hok; set_solver).
    simpl. by rewrite <- app_assoc.
Qed.

Lemma fold_delete_rooms (l : list Room) (s : Store) (r : Room) :
  r ∈ rooms (fold_left (fun s r => Room_deleteById (room_id r) s) l s)
  <-> r ∈ rooms s /\ room_id r ∉ (room_id <$> l).
Proof.
  revert s. induction l as [|x l IH]; intros s; cbn [fold_left].
  - rewrite fmap_nil. set_solver.
  - rewrite IH, Room_deleteById_rooms, fmap_cons. set_solver.
Qed.

Lemma fold_delete_messages (l : list Room) (s : Store) (m : Message) :
  m ∈ messages (fold_left (fun s r => Room_deleteById (room_id r) s) l s)
  <-> m ∈ messages s /\ msg_room_id m ∉ (room_id <$> l).
Proof.
  revert s. induction l as [|x l IH]; intros s; cbn [fold_left].
  - rewrite fmap_nil. set_solver.
  - rewrite IH, Room_deleteById_messages, fmap_cons. set_solver.
Qed.

Lemma fold_delete_channels (l : list Room) (chans : gmap string (gset string))
    (code : string) :
  fold_left (fun c r => delete (room_code r) c) l chans !! code
  = if decide (code ∈ (room_code <$> l)) then None else chans !! code.
Proof.
  revert chans. induction l as [|x l IH]; intros chans; cbn [fold_left].
  - rewrite fmap_nil.
    destruct (decide (code ∈ [])) as [Hin | _]; [by apply elem_of_nil in Hin | done].
  - rewrite IH, fmap_cons. destruct (decide (code ∈ (room_code <$> l))).
    + by rewrite decide_True by set_solver.
    + destruct (decide (room_code x = code)) as [<- | Hne].
      * rewrite lookup_delete_eq. by rewrite decide_True by set_solver.
      * rewrite lookup_delete_ne by done. by rewrite decide_False by set_solver.
Qed.


Lemma NoDup_fmap_elem_eq {A B : Type} (f : A -> B) (l : list A) (x y : A) :
  NoDup (f <$> l) -> x ∈ l -> y ∈ l -> f x = f y -> x = y.
Proof.
  intros Hnd Hx Hy Hf.
  apply list_elem_of_lookup in Hx as [i Hi].
  apply list_elem_of_lookup in Hy as [j Hj].
  assert (i = j); [| congruence].
  eapply NoDup_lookup; [exact Hnd | |].
  - by rewrite list_lookup_fmap, Hi.
  - rewrite list_lookup_fmap, Hj. simpl. congruence.
Qed.

Lemma Room_findExpired_subset (now : Z) (s : Store) (r : Room) :
  r ∈ Room_findExpired now s -> r ∈ rooms s.
Proof. intros Hr. by apply Room_findExpired_elem in Hr as [? _]. Qed.

(** C2 as stated fails in its part (b).  "s1" is joined to the group room;
    the sweep runs at the very instant the room expires.  The room row is
    gone afterwards, and "s1" is still registered under the room's code in
    [roomParticipants]: the sweep never touches that map. *)
Lemma sweep_keeps_roomParticipants :
  room_g ∈ Room_findExpired (t0 + 600000) (db joined_server)
  /\ Room_findByCode "ABC123"
       (db (cleanup_tick no_rejects (t0 + 600000) joined_server)) = None
  /\ elements (members (roomParticipants
                 (cleanup_tick no_rejects (t0 + 600000) joined_server)) "ABC123")
     = ["s1"].
Proof.
  split; [| split; reflexivity].
  apply (bool_decide_unpack _). vm_compute. exact I.
Qed.

(** C2, amended.  In a store with unique codes and no DELETE refused, for
    every active room whose [expires_at] has passed, one sweep (a) hands
    exactly one [room:expired] event, through the room's channel, to each
    socket that is in that Socket.IO room and none to any other socket,
    (b) leaves no socket in that Socket.IO room, the [roomParticipants] map
    being exactly as before, and (c) leaves no room row with that code and
    no message row of that room in the store. *)
Theorem sweep_evicts_expired_room (rejects : Z -> bool) (now : Z) (st : Server)
    (room : Room) :
  codes_unique (db st) ->
  (forall r, r ∈ rooms (db st) -> rejects (room_id r) = false) ->
  room ∈ rooms (db st) ->
  is_active room = true ->
  expiry_instant room <= now ->
  (exists ds : list Delivery,
      outbox (cleanup_tick rejects now st) = (outbox st ++ ds)%list
      /\ forall sid,
           notices_to (room_code room) sid ds
           = if decide (sid ∈ members (channels st) (room_code room))
             then 1%nat else 0%nat)
  /\ members (channels (cleanup_tick rejects now st)) (room_code room) = ∅
  /\ roomParticipants (cleanup_tick rejects now st) = roomParticipants st
  /\ (forall r, r ∈ rooms (db (cleanup_tick rejects now st)) ->
                room_code r <> room_code room)
  /\ (forall m, m ∈ messages (db (cleanup_tick rejects now st)) ->
                msg_room_id m <> room_id room).
Proof.
  intros Hu Hok Hin Ha Hexp.
  assert (Hroom : room ∈ Room_findExpired now (db st)).
  { apply Room_findExpired_elem. repeat split; try done.
    unfold isAlive. apply negb_false_iff, Z.leb_le. done. }
  assert (Hnd : NoDup (room_code <$> Room_findExpired now (db st))).
  { unfold Room_findExpired. by apply NoDup_fmap_filter. }
  unfold cleanup_tick. rewrite sweep_loop_completes
    by (intros r Hr; apply Hok; by eapply Room_findExpired_subset).
  cbn [outbox channels roomParticipants db].
  assert (Hcode : room_code room ∈ room_code <$> Room_findExpired now (db st)).
  { apply list_elem_of_fmap. by exists room. }
  assert (Hid : room_id room ∈ room_id <$> Room_findExpired now (db st)).
  { apply list_elem_of_fmap. by exists room. }
  split; [| split; [| split; [| split]]].
  - eexists. split; [reflexivity |]. intros sid.
    rewrite notices_to_sweep by done.
    destruct (decide (room_code room ∈ room_code <$> Room_findExpired now (db st)));
      [done | contradiction].
  - unfold members at 1. rewrite fold_delete_channels.
    destruct (decide (room_code room ∈ room_code <$> Room_findExpired now (db st)));
      [done | contradiction].
  - done.
  - intros r Hr Hc. apply fold_delete_rooms in Hr as [Hr Hnid].
    assert (r = room) as ->
      by (apply (NoDup_fmap_elem_eq room_code (rooms (db st))); done).
    contradiction.
  - intros m Hm Hc. apply fold_delete_messages in Hm as [_ Hnid].
    rewrite Hc in Hnid. contradiction.
Qed.

(** The sweep of the state in which "s1" is joined to the group room. *)
Lemma sweep_evicts_expired_room_witness :
  expiry_instant room_g <= t0 + 600000
  /\ members (channels (cleanup_tick no_rejects (t0 + 600000) joined_server)) "ABC123" = ∅
  /\ roomParticipants (cleanup_tick no_rejects (t0 + 600000) joined_server)
     = roomParticipants joined_server.
Proof.
  assert (Hexp : expiry_instant room_g <= t0 + 600000) by (vm_compute; discriminate).
  assert (Hu : codes_unique (db joined_server)).
  { apply (bool_decide_unpack _). vm_compute. exact I. }
  assert (Hin : room_g ∈ rooms (db joined_server)).
  { apply (bool_decide_unpack _). vm_compute. exact I. }
  split; [exact Hexp |].
  pose proof (sweep_evicts_expired_room no_rejects (t0 + 600000) joined_server room_g
                Hu (fun _ _ => eq_refl) Hin eq_refl Hexp) as H.
  split; [exact (proj1 (proj2 H)) | exact (proj1 (proj2 (proj2 H)))].
Defined.

(** ** C6: a refused DELETE during the sweep *)

Lemma sweep_loop_refused (rejects : Z -> bool) (pre post : list Room) (room : Room)
    (st : Server) :
  (forall r, r ∈ pre -> rejects (room_id r) = false) ->
  rejects (room_id room) = true ->
  sweep_loop rejects (pre ++ room :: post) st
  = fst (sweep_room rejects room (sweep_loop rejects pre st)).
Proof.
  revert st. induction pre as [|x pre IH]; intros st Hok Hrej.
  - simpl. unfold sweep_room. by rewrite Hrej.
  - simpl. unfold sweep_room at 1 3. rewrite (Hok x) by (apply elem_of_cons; by left).
    apply IH; [| done]. intros r Hr. apply Hok, elem_of_cons. by right.
Qed.

(** C6 as stated fails.  Both rooms have expired and "s1" and "s2" sit in
    the single room; the DELETE of the group room, first in the result of
    the query, is refused.  The single room, whose DELETE would go through,
    is still in the store after the sweep, its two sockets are still in
    its Socket.IO room and the sweep has emitted nothing. *)
Lemma sweep_aborts_on_refused_delete :
  Room_findExpired (t0 + 600000) (db full_single) = [room_g; room_s]
  /\ rejects_room_1 (room_id room_s) = false
  /\ rooms (db (cleanup_tick rejects_room_1 (t0 + 600000) full_single))
     = [room_g; room_s]
  /\ elements (members (channels (cleanup_tick rejects_room_1 (t0 + 600000) full_single))
                 "XYZ789")
     = elements (members (channels full_single) "XYZ789")
  /\ size (members (channels full_single) "XYZ789") = 2%nat
  /\ outbox (cleanup_tick rejects_room_1 (t0 + 600000) full_single)
     = outbox full_single.
Proof.
  repeat split; vm_compute; reflexivity.
Qed.

Lemma rows_of_room_deleteById (rid roomId : Z) (s : Store) :
  rid ≠ roomId -> rows_of_room rid (Room_deleteById roomId s) = rows_of_room rid s.
Proof.
  intros Hne. unfold rows_of_room, Room_deleteById. cbn [messages].
  rewrite list_filter_filter. apply list_filter_iff. intros m.
  split; [tauto |]. intros E. split; congruence.
Qed.


Lemma filter_none {A : Type} (P : A -> Prop) `{forall x, Decision (P x)} (l : list A) :
  (forall x, x ∈ l -> ~ P x) -> filter P l = [].
Proof.
  induction l as [|x l IH]; intros Hall; [done |].
  rewrite filter_cons, decide_False by (apply Hall, elem_of_cons; by left).
  apply IH. intros y Hy. apply Hall, elem_of_cons. by right.
Qed.

Lemma fold_delete_rows (l : list Room) (s : Store) (rid : Z) :
  rid ∉ room_id <$> l ->
  rows_of_room rid (fold_left (fun s r => Room_deleteById (room_id r) s) l s)
  = rows_of_room rid s.
Proof.
  revert s. induction l as [|x l IH]; intros s Hnin; [done |].
  rewrite fmap_cons in Hnin. apply not_elem_of_cons in Hnin as [Hne Hnin].
  cbn [fold_left]. rewrite IH by done. by apply rows_of_room_deleteById.
Qed.

(** A row the query returns is returned by every later query, as long as
    it is in the table. *)
Lemma expired_row_later (now now' : Z) (r : Room) :
  now <= now' -> expired_row now r = true -> expired_row now' r = true.
Proof.
  unfold expired_row, NOW, NOW_at. intros Hle H.
  apply andb_true_iff in H as [Hexp Ha]. rewrite Ha, andb_true_r.
  apply Z.leb_le in Hexp. apply Z.leb_le.
  pose proof (Z.div_le_mono now now' 1000 ltac:(lia) Hle). lia.
Qed.

(** A sweep over [l], whatever is refused, and a room that is not in [l]. *)
Lemma sweep_loop_untouched (rejects : Z -> bool) (l : list Room) (st : Server)
    (r : Room) :
  room_id r ∉ room_id <$> l ->
  room_code r ∉ room_code <$> l ->
  (r ∈ rooms (db st) -> r ∈ rooms (db (sweep_loop rejects l st)))
  /\ rows_of_room (room_id r) (db (sweep_loop rejects l st))
     = rows_of_room (room_id r) (db st)
  /\ channels (sweep_loop rejects l st) !! room_code r = channels st !! room_code r
  /\ exists ds : list Delivery,
       outbox (sweep_loop rejects l st) = (outbox st ++ ds)%list
       /\ forall sid, notices_to (room_code r) sid ds = 0%nat.
Proof.
  revert st. induction l as [|x l IH]; intros st Hid Hcode.
  - cbn [sweep_loop]. repeat split; [done |]. exists []. by rewrite app_nil_r.
  - rewrite fmap_cons in Hid. rewrite fmap_cons in Hcode.
    apply not_elem_of_cons in Hid as [Hid Hids].
    apply not_elem_of_cons in Hcode as [Hcode Hcodes].
    assert (Hn : forall sid,
              notices_to (room_code r) sid
                (broadcast (room_code x) (members (channels st) (room_code x))
                   expiry_notice) = 0%nat).
    { intros sid. by apply notices_to_other_room. }
    cbn [sweep_loop]. unfold sweep_room. destruct (rejects (room_id x)).
    + cbn [db channels outbox]. split; [done |]. split; [done |].
      split; [by rewrite lookup_delete_ne |].
      eexists. split; [reflexivity |]. done.
    + match goal with |- context [sweep_loop rejects l ?s] => set (st1 := s) end.
      destruct (IH st1 Hids Hcodes) as (Hrooms & Hrows & Hchan & ds & Hout & Hds).
      subst st1. cbn [db channels outbox] in *.
      split; [| split; [| split]].
      * intros Hr. apply Hrooms, Room_deleteById_rooms. done.
      * rewrite Hrows. by apply rows_of_room_deleteById.
      * rewrite Hchan. by rewrite lookup_delete_ne.
      * eexists. split; [rewrite Hout, <- app_assoc; reflexivity |].
        intros sid. by rewrite notices_to_app, Hn, Hds.
Qed.

(** C6, amended.  Let the sweeper's query return [pre ++ room :: post] and
    let the store refuse the DELETE of [room], and of no room of [pre].
    Then the sweep ends at [room].  Each room of [pre] is evicted in full:
    every socket of its Socket.IO room is handed one [room:expired], the
    Socket.IO room is gone, and so are the row and its messages.  [room]
    is notified and detached in the same way, and its row and its
    messages stay.  No room of [post] is notified, detached or deleted.
    The sweeper goes on: every later tick finds [room] and the rooms of
    [post] again, and deletes them when no DELETE is refused then. *)
Theorem sweep_stops_at_refused_delete (rejects : Z -> bool) (now : Z) (st : Server)
    (pre post : list Room) (room : Room) :
  codes_unique (db st) ->
  ids_unique (db st) ->
  Room_findExpired now (db st) = (pre ++ room :: post)%list ->
  (forall r, r ∈ pre -> rejects (room_id r) = false) ->
  rejects (room_id room) = true ->
  exists ds : list Delivery,
    outbox (cleanup_tick rejects now st) = (outbox st ++ ds)%list
    /\ (forall r, r ∈ pre ->
          (forall sid,
              notices_to (room_code r) sid ds
              = if decide (sid ∈ members (channels st) (room_code r))
                then 1%nat else 0%nat)
          /\ channels (cleanup_tick rejects now st) !! room_code r = None
          /\ r ∉ rooms (db (cleanup_tick rejects now st))
          /\ rows_of_room (room_id r) (db (cleanup_tick rejects now st)) = [])
    /\ ((forall sid,
            notices_to (room_code room) sid ds
            = if decide (sid ∈ members (channels st) (room_code room))
              then 1%nat else 0%nat)
        /\ channels (cleanup_tick rejects now st) !! room_code room = None
        /\ room ∈ rooms (db (cleanup_tick rejects now st))
        /\ rows_of_room (room_id room) (db (cleanup_tick rejects now st))
           = rows_of_room (room_id room) (db st))
    /\ (forall r, r ∈ post ->
          (forall sid, notices_to (room_code r) sid ds = 0%nat)
          /\ channels (cleanup_tick rejects now st) !! room_code r
             = channels st !! room_code r
          /\ r ∈ rooms (db (cleanup_tick rejects now st))
          /\ rows_of_room (room_id r) (db (cleanup_tick rejects now st))
             = rows_of_room (room_id r) (db st))
    /\ (forall now' r,
          now <= now' -> r ∈ room :: post ->
          r ∈ Room_findExpired now' (db (cleanup_tick rejects now st))
          /\ forall rejects' : Z -> bool,
               (forall x, x ∈ rooms (db (cleanup_tick rejects now st)) ->
                          rejects' (room_id x) = false) ->
               r ∉ rooms (db (cleanup_tick rejects' now' (cleanup_tick rejects now st)))).
Proof.
  intros Hu Hi Hexp Hok Hrej.
  assert (Hndc : NoDup (room_code <$> (pre ++ room :: post)%list)).
  { rewrite <- Hexp. unfold Room_findExpired. by apply NoDup_fmap_filter. }
  assert (Hndi : NoDup (room_id <$> (pre ++ room :: post)%list)).
  { rewrite <- Hexp. unfold Room_findExpired. by apply NoDup_fmap_filter. }
  assert (Hsub : forall r, r ∈ (pre ++ room :: post)%list -> r ∈ rooms (db st)).
  { intros r Hr. rewrite <- Hexp in Hr. by eapply Room_findExpired_subset. }
  assert (Hwas : forall r, r ∈ (pre ++ room :: post)%list -> expired_row now r = true).
  { intros r Hr. rewrite <- Hexp in Hr. unfold Room_findExpired in Hr.
    by apply list_elem_of_filter in Hr as [? _]. }
  rewrite fmap_app, fmap_cons in Hndc. rewrite fmap_app, fmap_cons in Hndi.
  apply NoDup_app in Hndc as (Hndp & Hc1 & Hc2). apply NoDup_cons in Hc2 as [Hc2 _].
  apply NoDup_app in Hndi as (Hndip & Hi1 & Hi2). apply NoDup_cons in Hi2 as [Hi2 _].
  assert (E : cleanup_tick rejects now st
              = fst (sweep_room rejects room (sweep_loop rejects pre st))).
  { unfold cleanup_tick. rewrite Hexp. by apply sweep_loop_refused. }
  assert (Hroom_c : room_code room ∉ room_code <$> pre).
  { intros Hin. apply (Hc1 _ Hin). apply elem_of_cons. by left. }
  assert (Hroom_i : room_id room ∉ room_id <$> pre).
  { intros Hin. apply (Hi1 _ Hin). apply elem_of_cons. by left. }
  assert (Hpre_c : forall r, r ∈ pre -> room_code r <> room_code room).
  { intros r Hr Heq. apply Hroom_c. rewrite <- Heq. apply list_elem_of_fmap. by exists r. }
  assert (Hpost_c : forall r, r ∈ post ->
            room_code r <> room_code room /\ room_code r ∉ room_code <$> pre).
  { intros r Hr. split.
    - intros Heq. apply Hc2. rewrite <- Heq. apply list_elem_of_fmap. by exists r.
    - intros Hin. apply (Hc1 _ Hin). apply elem_of_cons. right.
      apply list_elem_of_fmap. by exists r. }
  assert (Hpost_i : forall r, r ∈ post -> room_id r ∉ room_id <$> pre).
  { intros r Hr Hin. apply (Hi1 _ Hin). apply elem_of_cons. right.
    apply list_elem_of_fmap. by exists r. }
  assert (Hchan : members (fold_left (fun c r => delete (room_code r) c) pre (channels st))
                    (room_code room)
                  = members (channels st) (room_code room)).
  { unfold members. rewrite fold_delete_channels.
    destruct (decide (room_code room ∈ room_code <$> pre)); [contradiction | done]. }
  assert (Hstay : forall r, r ∈ room :: post ->
            r ∈ rooms (db (cleanup_tick rejects now st))).
  { intros r Hr. rewrite E. unfold sweep_room. rewrite Hrej.
    rewrite sweep_loop_completes by done. cbn [fst db].
    apply fold_delete_rooms. split.
    - apply Hsub, elem_of_app. by right.
    - apply elem_of_cons in Hr as [-> | Hr]; [done | by apply Hpost_i]. }
  exists (sweep_deliveries pre (channels st)
          ++ broadcast (room_code room) (members (channels st) (room_code room))
               expiry_notice)%list.
  split; [| split; [| split; [| split]]].
  - rewrite E. unfold sweep_room. rewrite Hrej. rewrite sweep_loop_completes by done.
    cbn [fst outbox channels]. by rewrite Hchan, <- app_assoc.
  - intros r Hr. rewrite E. unfold sweep_room. rewrite Hrej.
    rewrite sweep_loop_completes by done. cbn [fst channels db].
    assert (Hrc : room_code r ∈ room_code <$> pre)
      by (apply list_elem_of_fmap; by exists r).
    assert (Hri : room_id r ∈ room_id <$> pre)
      by (apply list_elem_of_fmap; by exists r).
    split; [| split; [| split]].
    + intros sid. rewrite notices_to_app, notices_to_sweep by done.
      rewrite notices_to_other_room by (intros Heq; by apply (Hpre_c r Hr)).
      destruct (decide (room_code r ∈ room_code <$> pre)); [lia | contradiction].
    + rewrite lookup_delete_ne by (intros Heq; by apply (Hpre_c r Hr)).
      rewrite fold_delete_channels.
      destruct (decide (room_code r ∈ room_code <$> pre)); [done | contradiction].
    + intros Hin. apply fold_delete_rooms in Hin as [_ Hnin]. contradiction.
    + unfold rows_of_room. apply filter_none.
      intros m Hm Hrid. apply fold_delete_messages in Hm as [_ Hnin].
      rewrite Hrid in Hnin. contradiction.
  - split; [| split; [| split]].
    + intros sid. rewrite notices_to_app, notices_to_sweep by done.
      rewrite notices_to_broadcast.
      destruct (decide (room_code room ∈ room_code <$> pre)); [contradiction | done].
    + rewrite E. unfold sweep_room. rewrite Hrej. cbn [fst channels].
      apply lookup_delete_eq.
    + apply Hstay, elem_of_cons. by left.
    + rewrite E. unfold sweep_room. rewrite Hrej. rewrite sweep_loop_completes by done.
      cbn [fst db]. by apply fold_delete_rows.
  - intros r Hr. destruct (Hpost_c r Hr) as [Hne Hnin].
    split; [| split; [| split]].
    + intros sid. rewrite notices_to_app, notices_to_other_room by done.
      rewrite notices_to_sweep by done.
      destruct (decide (room_code r ∈ room_code <$> pre)); [contradiction | done].
    + rewrite E. unfold sweep_room. rewrite Hrej. rewrite sweep_loop_completes by done.
      cbn [fst channels]. rewrite lookup_delete_ne by done. rewrite fold_delete_channels.
      destruct (decide (room_code r ∈ room_code <$> pre)); [contradiction | done].
    + apply Hstay, elem_of_cons. by right.
    + rewrite E. unfold sweep_room. rewrite Hrej. rewrite sweep_loop_completes by done.
      cbn [fst db]. apply fold_delete_rows. by apply Hpost_i.
  - intros now' r Hle Hr.
    assert (Hagain : r ∈ Room_findExpired now' (db (cleanup_tick rejects now st))).
    { unfold Room_findExpired. apply list_elem_of_filter. split; [| by apply Hstay].
      apply (expired_row_later now now' r Hle), Hwas, elem_of_app. by right. }
    split; [exact Hagain |].
    intros rejects' Hok'. unfold cleanup_tick at 1.
    rewrite sweep_loop_completes
      by (intros x Hx; apply Hok'; by eapply Room_findExpired_subset).
    cbn [db]. intros Hin. apply fold_delete_rooms in Hin as [_ Hnin].
    apply Hnin, list_elem_of_fmap. by exists r.
Qed.

(** Both rooms expired, "s1" and "s2" in the single room, the DELETE of
    the single room, second in the result of the query, refused. *)
Lemma sweep_stops_at_refused_delete_witness :
  Room_findExpired (t0 + 600000) (db full_single) = ([room_g] ++ room_s :: [])%list
  /\ rejects_room_2 (room_id room_s) = true
  /\ elements (members (channels full_single) "XYZ789") = ["s1"; "s2"]
  /\ (exists ds : list Delivery,
        outbox (cleanup_tick rejects_room_2 (t0 + 600000) full_single)
        = (outbox full_single ++ ds)%list
        /\ notices_to "XYZ789" "s1" ds = 1%nat
        /\ notices_to "XYZ789" "s2" ds = 1%nat)
  /\ channels (cleanup_tick rejects_room_2 (t0 + 600000) full_single) !! "XYZ789" = None
  /\ room_s ∈ rooms (db (cleanup_tick rejects_room_2 (t0 + 600000) full_single))
  /\ room_g ∉ rooms (db (cleanup_tick rejects_room_2 (t0 + 600000) full_single))
  /\ room_s ∉ rooms (db (cleanup_tick no_rejects (t0 + 660000)
                           (cleanup_tick rejects_room_2 (t0 + 600000) full_single))).
Proof.
  assert (Hexp : Room_findExpired (t0 + 600000) (db full_single)
                 = ([room_g] ++ room_s :: [])%list) by reflexivity.
  assert (Hu : codes_unique (db full_single)).
  { apply (bool_decide_unpack _). vm_compute. exact I. }
  assert (Hi : ids_unique (db full_single)).
  { apply (bool_decide_unpack _). vm_compute. exact I. }
  assert (Hpre : forall r : Room, r ∈ [room_g] -> rejects_room_2 (room_id r) = false).
  { intros r Hr. apply list_elem_of_singleton in Hr. by subst r. }
  assert (Hg : room_g ∈ [room_g]) by (apply elem_of_cons; by left).
  assert (Hs : room_s ∈ [room_s]) by (apply elem_of_cons; by left).
  split; [exact Hexp |]. split; [reflexivity |]. split; [reflexivity |].
  destruct (sweep_stops_at_refused_delete rejects_room_2 (t0 + 600000) full_single
              [room_g] [] room_s Hu Hi Hexp Hpre eq_refl)
    as (ds & Hout & Hbefore & (Hnote & Hchan & Hrow & _) & _ & Hretry).
  split.
  { exists ds. split; [exact Hout |].
    split; [exact (Hnote "s1") | exact (Hnote "s2")]. }
  split; [exact Hchan |]. split; [exact Hrow |].
  split; [exact (proj1 (proj2 (proj2 (Hbefore room_g Hg)))) |].
  apply (proj2 (Hretry (t0 + 660000) room_s ltac:(lia) Hs) no_rejects).
  intros x _. reflexivity.
Defined.

(** ** C7: message order *)

Lemma insert_by_sent_at_perm (m : Message) (l : list Message) :
  Permutation (m :: l) (insert_by_sent_at m l).
Proof.
  induction l as [|x l IH]; simpl; [done |].
  destruct (sent_at m <=? sent_at x); [done |].
  rewrite <- IH. apply perm_swap.
Qed.

Lemma insert_by_sent_at_sorted (m : Message) (l : list Message) :
  Sorted (fun a b => sent_at a <= sent_at b) l ->
  Sorted (fun a b => sent_at a <= sent_at b) (insert_by_sent_at m l).
Proof.
  induction l as [|x l IH]; intros Hs; simpl.
  - repeat constructor.
  - destruct (sent_at m <=? sent_at x) eqn:E.
    + apply Z.leb_le in E. constructor; [done |]. by constructor.
    + apply Z.leb_gt in E. inversion Hs as [|? ? Hs' Hhd]; subst.
      constructor; [by apply IH |].
      destruct l as [|y l]; simpl.
      * constructor. lia.
      * destruct (sent_at m <=? sent_at y); constructor; [lia |].
        by inversion Hhd.
Qed.

(** Breaking ties by primary key is one way to keep the promise of
    [ORDER BY sent_at ASC]; returning them newest first is another. *)
Lemma stable_order_contract : order_by_contract stable_order.
Proof.
  intros rows. unfold stable_order. induction rows as [|m rows [IHp IHs]]; simpl.
  - split; constructor.
  - split.
    + rewrite <- insert_by_sent_at_perm. by constructor.
    + by apply insert_by_sent_at_sorted.
Qed.

Lemma ties_reversed_contract : order_by_contract ties_reversed.
Proof.
  intros rows. unfold ties_reversed.
  destruct (stable_order_contract (rev rows)) as [Hp Hs].
  split; [| done]. rewrite <- Hp. apply Permutation_rev.
Qed.

(** C7.  The order of a history is left to the database where the send
    order needs it most.  "s1" sends M1, M2, M3 within one second, so the
    three rows carry the same [sent_at]; the table holds them in send
    order, and "s1", joined while sending, was handed the three live
    events in that order.  [Message.findByRoomId] orders by [sent_at]
    alone: a database that keeps the promise of [ORDER BY sent_at ASC] and
    returns rows of the same second newest first hands the late joiner
    "s2" the history M3, M2, M1, where a database that breaks ties by
    primary key hands it M1, M2, M3. *)
Theorem history_of_one_second_reordered :
  order_by_contract ties_reversed
  /\ order_by_contract stable_order
  /\ messages (db three_in_a_second)
     = [mkMessage 1 1 "alice" "TTE=" "aXYx" t0_s;
        mkMessage 2 1 "alice" "TTI=" "aXYy" t0_s;
        mkMessage 3 1 "alice" "TTM=" "aXYz" t0_s]
  /\ delivered_ids "s1" (outbox three_in_a_second) = [1; 2; 3]
  /\ Message_findByRoomId ties_reversed 1 (db three_in_a_second)
     = [mkMessage 3 1 "alice" "TTM=" "aXYz" t0_s;
        mkMessage 2 1 "alice" "TTI=" "aXYy" t0_s;
        mkMessage 1 1 "alice" "TTE=" "aXYx" t0_s]
  /\ mkDelivery "s2" None
       (ChatHistory [mkMessage 3 1 "alice" "TTM=" "aXYz" t0_s;
                     mkMessage 2 1 "alice" "TTI=" "aXYy" t0_s;
                     mkMessage 1 1 "alice" "TTE=" "aXYx" t0_s])
     ∈ outbox (chat_join xss_text ties_reversed toUpperCase_ascii utc (t0 + 400) "s2"
                 (join_payload "abc123" "bob")
                 (connection "s2" three_in_a_second))
  /\ mkDelivery "s2" None
       (ChatHistory [mkMessage 1 1 "alice" "TTE=" "aXYx" t0_s;
                     mkMessage 2 1 "alice" "TTI=" "aXYy" t0_s;
                     mkMessage 3 1 "alice" "TTM=" "aXYz" t0_s])
     ∈ outbox (chat_join xss_text stable_order toUpperCase_ascii utc (t0 + 400) "s2"
                 (join_payload "abc123" "bob")
                 (connection "s2" three_in_a_second)).
Proof.
  split; [apply ties_reversed_contract |].
  split; [apply stable_order_contract |].
  split; [reflexivity |]. split; [reflexivity |]. split; [reflexivity |].
  split; apply list_elem_of_In; vm_compute; tauto.
Qed.

Lemma strictly_sorted_sent_at_inj (l : list Message) (x y : Message) :
  StronglySorted (fun a b => sent_at a < sent_at b) l ->
  x ∈ l -> y ∈ l -> sent_at x = sent_at y -> x = y.
Proof.
  intros Hs. induction Hs as [|a l Hs IH Ha]; intros Hx Hy E.
  - by apply elem_of_nil in Hx.
  - rewrite Forall_forall in Ha.
    apply elem_of_cons in Hx as [-> | Hx]; apply elem_of_cons in Hy as [-> | Hy].
    + done.
    + specialize (Ha y Hy). lia.
    + specialize (Ha x Hx). lia.
    + by apply IH.
Qed.

Lemma strictly_sorted_weaken (l : list Message) :
  StronglySorted (fun a b => sent_at a < sent_at b) l ->
  StronglySorted (fun a b => sent_at a <= sent_at b) l.
Proof.
  induction 1 as [|a l Hs IH Ha]; constructor; [done |].
  eapply Forall_impl; [exact Ha |]. simpl. intros; lia.
Qed.

Lemma delivered_ids_broadcast (sid code : string) (to : gset string)
    (id : Z) (nick content iv : string) (ts : Z) :
  delivered_ids sid (broadcast code to (ChatMessage id nick content iv ts))
  `sublist_of` [id].
Proof.
  unfold delivered_ids, broadcast.
  pose proof (NoDup_elements to) as Hnd.
  induction (elements to) as [|x l IH]; [apply sublist_nil_l |].
  apply NoDup_cons in Hnd as [Hx Hnd].
  cbn [map omap list_omap]. unfold delivered_id at 1. cbn [rcpt ev].
  destruct (String.eqb x sid) eqn:E; [| by apply IH].
  apply String.eqb_eq in E. subst x.
  assert (Hnil : omap (delivered_id sid)
                   (map (fun s => mkDelivery s (Some code)
                                    (ChatMessage id nick content iv ts)) l) = []).
  { clear IH Hnd. induction l as [|y l IHl]; [done |].
    apply not_elem_of_cons in Hx as [Hne Hx].
    cbn [map omap list_omap]. unfold delivered_id at 1. cbn [rcpt ev].
    assert (String.eqb y sid = false) as -> by (apply String.eqb_neq; congruence).
    by apply IHl. }
  rewrite Hnil. done.
Qed.

#[local] Instance sent_at_le_trans :
  Transitive (fun a b : Message => sent_at a <= sent_at b).
Proof. intros x y z. lia. Qed.

Section Ordering.

Variable xss : string -> string.
Variable order_by_sent_at : list Message -> list Message.

(** A run of [chat:message] events only appends: rows to the table, with
    consecutive ids, and deliveries to the outbox; what any one socket is
    handed, read as ids, is a subsequence of the ids of the rows added. *)
Lemma chat_messages_append (events : list (Z * string * gmap string jsval))
    (st : Server) :
  exists (rows : list Message) (ds : list Delivery),
    messages (db (chat_messages xss events st)) = (messages (db st) ++ rows)%list
    /\ outbox (chat_messages xss events st) = (outbox st ++ ds)%list
    /\ next_msg_id (db (chat_messages xss events st))
       = next_msg_id (db st) + Z.of_nat (length rows)
    /\ (forall (i : nat) m, rows !! i = Some m ->
          msg_id m = next_msg_id (db st) + Z.of_nat i)
    /\ (forall sid, delivered_ids sid ds `sublist_of` (msg_id <$> rows)).
Proof.
  revert st. induction events as [|[[now sid] payload] events IH]; intros st.
  - exists [], []. simpl. rewrite !app_nil_r.
    repeat split; [lia | | intros; apply sublist_nil_l].
    intros i m Hi. by rewrite lookup_nil in Hi.
  - unfold chat_messages. cbn [fold_left fst snd].
    fold (chat_messages xss events (chat_message xss now sid payload st)).
    destruct (IH (chat_message xss now sid payload st))
      as (rows & ds & Hm & Ho & Hn & Hid & Hsub).
    rewrite Hm, Ho, Hn.
    destruct (chat_message_cases xss now sid payload st) as [E | [E | H]];
      [rewrite E in * .. |].
    + exists rows, ds. repeat split; done.
    + exists rows, (mkDelivery sid None (RoomExpired "Room no longer exists.") :: ds).
      cbn [emit db outbox] in *. rewrite <- app_assoc. cbn [app].
      repeat split; try done.
      intros sid'. unfold delivered_ids. cbn [omap list_omap].
      unfold delivered_id at 1. cbn [rcpt ev].
      destruct (String.eqb sid sid'); apply Hsub.
    + destruct H as (sess & code & nick & rid & content & iv
                     & _ & _ & _ & _ & _ & _ & E).
      rewrite E in *. cbn [db messages outbox next_msg_id] in *.
      exists (mkMessage (next_msg_id (db st)) rid nick content iv (NOW now) :: rows),
             (broadcast code (members (channels st) code)
                (ChatMessage (next_msg_id (db st)) nick content iv now) ++ ds)%list.
      rewrite <- !app_assoc. cbn [app length].
      repeat split; try done.
      * lia.
      * intros [|i] m Hi.
        -- injection Hi as <-. cbn [msg_id]. lia.
        -- change (rows !! i = Some m) in Hi. pose proof (Hid i m Hi). lia.
      * intros sid'. unfold delivered_ids. rewrite omap_app, fmap_cons.
        apply (sublist_app _ [next_msg_id (db st)] _ (msg_id <$> rows));
          [apply delivered_ids_broadcast | apply Hsub].
Qed.

(** What the code does keep of the send order, whatever order the
    database gives to rows of the same second, as long as it keeps the
    promise of [ORDER BY sent_at ASC]: when the rows of a room carry
    strictly increasing [sent_at] in send order, the history of the room is
    the rows in send order.  A run of [chat:message] events adds its rows
    to the table in the order the events are handled, with consecutive
    ids, and the [chat:message] events any socket is handed are, in order
    of delivery, a subsequence of those rows. *)
Lemma history_in_send_order (events : list (Z * string * gmap string jsval))
    (st : Server) (roomId : Z) :
  order_by_contract order_by_sent_at ->
  StronglySorted (fun a b => sent_at a < sent_at b)
    (rows_of_room roomId (db (chat_messages xss events st))) ->
  Message_findByRoomId order_by_sent_at roomId (db (chat_messages xss events st))
  = rows_of_room roomId (db (chat_messages xss events st))
  /\ exists (rows : list Message) (ds : list Delivery),
       messages (db (chat_messages xss events st)) = (messages (db st) ++ rows)%list
       /\ outbox (chat_messages xss events st) = (outbox st ++ ds)%list
       /\ (forall (i : nat) m, rows !! i = Some m ->
             msg_id m = next_msg_id (db st) + Z.of_nat i)
       /\ (forall sid, delivered_ids sid ds `sublist_of` (msg_id <$> rows)).
Proof.
  intros Hc Hinc. split.
  - unfold Message_findByRoomId.
    destruct (Hc (rows_of_room roomId (db (chat_messages xss events st)))) as [Hp Hs].
    symmetry.
    apply (Sorted_unique_strong (fun a b : Message => sent_at a <= sent_at b)).
    + intros x y Hx Hy Hxy Hyx.
      eapply strictly_sorted_sent_at_inj; [exact Hinc | done | | lia].
      by rewrite Hp.
    + apply StronglySorted_Sorted, strictly_sorted_weaken, Hinc.
    + done.
    + done.
  - destruct (chat_messages_append events st) as (rows & ds & Hm & Ho & _ & Hid & Hsub).
    exists rows, ds. done.
Qed.

End Ordering.

(** ** The store invariant along every step *)

Lemma sweep_loop_store_ok (rejects : Z -> bool) (l : list Room) (st : Server) :
  store_ok (db st) -> store_ok (db (sweep_loop rejects l st)).
Proof.
  revert st. induction l as [|r l IH]; intros st Hok; [done |].
  simpl. unfold sweep_room. destruct (rejects (room_id r)); [done |].
  apply IH. by apply Room_deleteById_ok.
Qed.

Lemma sweep_loop_roomParticipants (rejects : Z -> bool) (l : list Room) (st : Server) :
  roomParticipants (sweep_loop rejects l st) = roomParticipants st.
Proof.
  revert st. induction l as [|r l IH]; intros st; [done |].
  simpl. unfold sweep_room. destruct (rejects (room_id r)); [done |].
  by rewrite IH.
Qed.

Lemma sweep_loop_rooms (rejects : Z -> bool) (l : list Room) (st : Server) (r : Room) :
  r ∈ rooms (db (sweep_loop rejects l st)) -> r ∈ rooms (db st).
Proof.
  revert st. induction l as [|x l IH]; intros st; [done |].
  simpl. unfold sweep_room. destruct (rejects (room_id x)); [done |].
  intros Hr. apply IH in Hr. by apply Room_deleteById_rooms in Hr as [? _].
Qed.

Lemma joinRoom_store_ok (toUpperCase : string -> string) (LocalTZA : Z -> Z) (now : Z)
    (roomCode : jsval) (s : Store) :
  store_ok s -> store_ok (snd (joinRoom toUpperCase LocalTZA now roomCode s)).
Proof.
  intros Hok. unfold joinRoom.
  destruct (as_nonempty_string roomCode); [| done].
  destruct (negb _); [done |].
  destruct (Room_findByCode _ s) as [room|]; [| done].
  destruct (joinRoom_expired LocalTZA now room); [| done].
  by apply Room_deleteById_ok.
Qed.

Lemma createRoom_store_ok (now stored : Z) (b : CreateBody) (g : Rng) (s : Store) :
  store_ok s -> store_ok (snd (fst (createRoom now stored b g s))).
Proof.
  intros Hok. unfold createRoom.
  destruct (room_type_of (cb_type b)); [| done].
  destruct (compute_expiry now b); try done.
  destruct (generateUniqueCode s g) as [[code|] g']; [| done].
  destruct (Room_create _ _ _ _ _) as [[room s']|] eqn:Hc; [| done].
  by eapply Room_create_ok.
Qed.

Section Steps.

Variable xss : string -> string.
Variable order_by_sent_at : list Message -> list Message.
Variable toUpperCase : string -> string.
Variable LocalTZA : Z -> Z.

(** Every step of the server keeps the store within its schema. *)
Lemma step_store_ok (st st' : Server) :
  step xss order_by_sent_at toUpperCase LocalTZA st st' -> store_ok (db st) -> store_ok (db st').
Proof.
  intros Hstep Hok. destruct Hstep as [sid | now sid payload | now sid payload
                                      | now sid | rejects now].
  - done.
  - unfold chat_join.
    destruct (sockets st !! sid); [| done].
    destruct (as_nonempty_string _); [| done].
    destruct (as_nonempty_string _); [| done].
    destruct (negb _); [done |].
    destruct (String.eqb _ ""); [done |].
    destruct (Room_findByCode _ _) as [room|]; [| done].
    destruct (chat_join_expired LocalTZA now room); [by apply Room_deleteById_ok |].
    by destruct (room_full _ _ _).
  - destruct (chat_message_cases xss now sid payload st) as [-> | [-> | H]]; [done.. |].
    destruct H as (? & ? & nick & rid & content & iv & _ & _ & _ & _ & _ & Hc & ->).
    by eapply Message_create_ok.
  - unfold disconnect.
    destruct (sockets st !! sid) as [sess|]; [| done].
    by destruct (truthy (currentRoom sess)).
  - by apply sweep_loop_store_ok.
Qed.

(** So does the bound of two participants per single room. *)
Lemma step_capacity_ok (st st' : Server) :
  step xss order_by_sent_at toUpperCase LocalTZA st st' ->
  codes_unique (db st) -> capacity_ok st -> capacity_ok st'.
Proof.
  intros Hstep Hu Hinv. destruct Hstep as [sid | now sid payload | now sid payload
                                          | now sid | rejects now].
  - done.
  - by apply chat_join_capacity.
  - destruct (chat_message_cases xss now sid payload st) as [-> | [-> | H]]; [done.. |].
    destruct H as (? & ? & ? & ? & ? & ? & _ & _ & _ & _ & _ & _ & ->). done.
  - by apply disconnect_capacity.
  - intros r Hr. unfold cleanup_tick in *. rewrite sweep_loop_roomParticipants.
    apply Hinv. by eapply sweep_loop_rooms.
Qed.

End Steps.

(** * Further properties of the code *)

(** ** The store *)

Lemma filter_all {A : Type} (P : A -> Prop) `{forall x, Decision (P x)} (l : list A) :
  (forall x, x ∈ l -> P x) -> filter P l = l.
Proof.
  induction l as [|x l IH]; intros Hall; [done |].
  rewrite filter_cons, decide_True by (apply Hall, elem_of_cons; by left).
  f_equal. apply IH. intros y Hy. apply Hall, elem_of_cons. by right.
Qed.

Lemma find_snoc {A : Type} (f : A -> bool) (l : list A) (x : A) :
  find f (l ++ [x])
  = match find f l with
    | Some y => Some y
    | None => if f x then Some x else None
    end.
Proof.
  induction l as [|y l IH]; simpl; [done |].
  by destruct (f y).
Qed.

Lemma Room_deleteById_keeps_references (roomId : Z) (s : Store) :
  messages_reference_rooms s -> messages_reference_rooms (Room_deleteById roomId s).
Proof.
  intros Hfk m Hm. apply Room_deleteById_messages in Hm as [Hm Hne].
  destruct (Hfk m Hm) as (r & Hr & Hid). exists r. split; [| done].
  apply Room_deleteById_rooms. split; [done | congruence].
Qed.

Lemma Message_create_keeps_references (now roomId : Z) (nick content iv : string)
    (s s' : Store) (id : Z) :
  messages_reference_rooms s ->
  Message_create now roomId nick content iv s = Some (id, s') ->
  messages_reference_rooms s'.
Proof.
  intros Hfk. unfold Message_create.
  destruct (existsb _ _) eqn:Hex; [| discriminate].
  destruct (_ && _); [| discriminate]. intros [= _ <-] m Hm.
  cbn [messages rooms] in *. apply elem_of_app in Hm as [Hm | Hm]; [by apply Hfk |].
  apply list_elem_of_singleton in Hm. subst m. cbn [msg_room_id].
  apply existsb_exists in Hex as (r & Hr & Hid).
  exists r. split; [by apply list_elem_of_In |]. by apply Z.eqb_eq.
Qed.

Lemma Room_create_keeps_references (now : Z) (code : string) (type : RoomType)
    (expiresAt : Z) (s s' : Store) (r : Room) :
  messages_reference_rooms s ->
  Room_create now code type expiresAt s = Some (r, s') ->
  messages_reference_rooms s'.
Proof.
  intros Hfk. unfold Room_create.
  destruct (existsb _ _); [discriminate |]. intros [= _ <-] m Hm.
  destruct (Hfk m Hm) as (x & Hx & Hid). exists x. split; [| done].
  cbn [rooms]. apply elem_of_app. by left.
Qed.

Lemma sweep_loop_keeps_references (rejects : Z -> bool) (l : list Room) (st : Server) :
  messages_reference_rooms (db st) ->
  messages_reference_rooms (db (sweep_loop rejects l st)).
Proof.
  revert st. induction l as [|r l IH]; intros st Hfk; [done |].
  simpl. unfold sweep_room. destruct (rejects (room_id r)); [done |].
  apply IH. by apply Room_deleteById_keeps_references.
Qed.

(** X1.  No message row is ever left without its room: if every message of
    the store references a room row, then so it is after any step of the
    server (a connection, a [chat:join], a [chat:message], a [disconnect],
    a sweeper tick with any DELETE refused or not), after [joinRoom] and
    after [createRoom]. *)
Theorem no_orphan_messages (xss : string -> string)
    (order_by_sent_at : list Message -> list Message)
    (toUpperCase : string -> string) (LocalTZA : Z -> Z) (st st' : Server)
    (now stored : Z) (roomCode : jsval) (b : CreateBody) (g : Rng) :
  messages_reference_rooms (db st) ->
  step xss order_by_sent_at toUpperCase LocalTZA st st' ->
  messages_reference_rooms (db st')
  /\ messages_reference_rooms (snd (joinRoom toUpperCase LocalTZA now roomCode (db st)))
  /\ messages_reference_rooms (snd (fst (createRoom now stored b g (db st)))).
Proof.
  intros Hfk Hstep. split; [| split].
  - destruct Hstep as [sid | now' sid payload | now' sid payload
                      | now' sid | rejects now'].
    + done.
    + unfold chat_join.
      destruct (sockets st !! sid); [| done].
      destruct (as_nonempty_string _); [| done].
      destruct (as_nonempty_string _); [| done].
      destruct (negb _); [done |].
      destruct (String.eqb _ ""); [done |].
      destruct (Room_findByCode _ _) as [room|]; [| done].
      destruct (chat_join_expired LocalTZA now' room);
        [by apply Room_deleteById_keeps_references |].
      by destruct (room_full _ _ _).
    + destruct (chat_message_cases xss now' sid payload st) as [E | [E | H]];
        [by rewrite E .. |].
      destruct H as (? & ? & nick & rid & content & iv & _ & _ & _ & _ & _ & Hc & E).
      rewrite E. by eapply Message_create_keeps_references.
    + unfold disconnect.
      destruct (sockets st !! sid) as [sess|]; [| done].
      by destruct (truthy (currentRoom sess)).
    + by apply sweep_loop_keeps_references.
  - unfold joinRoom.
    destruct (as_nonempty_string roomCode); [| done].
    destruct (negb _); [done |].
    destruct (Room_findByCode _ _) as [room|]; [| done].
    destruct (joinRoom_expired LocalTZA now room); [| done].
    by apply Room_deleteById_keeps_references.
  - unfold createRoom.
    destruct (room_type_of (cb_type b)); [| done].
    destruct (compute_expiry now b); try done.
    destruct (generateUniqueCode (db st) g) as [[code|] g']; [| done].
    destruct (Room_create _ _ _ _ _) as [[room s']|] eqn:Hc; [| done].
    by eapply Room_create_keeps_references.
Qed.

(** Three stored messages, then the sweep that deletes their room. *)
Lemma no_orphan_messages_witness :
  messages_reference_rooms (db three_seconds)
  /\ messages_reference_rooms
       (db (cleanup_tick no_rejects (t0 + 600000) three_seconds)).
Proof.
  assert (Hfk : messages_reference_rooms (db three_seconds)).
  { intros m Hm. exists room_g. split.
    - apply (bool_decide_unpack _). vm_compute. exact I.
    - change (messages (db three_seconds))
        with [mkMessage 1 1 "alice" "TTE=" "aXYx" (t0_s + 1);
              mkMessage 2 1 "alice" "TTI=" "aXYy" (t0_s + 2);
              mkMessage 3 1 "alice" "TTM=" "aXYz" (t0_s + 3)] in Hm.
      repeat (apply elem_of_cons in Hm as [-> | Hm]; [reflexivity |]).
      by apply elem_of_nil in Hm. }
  split; [exact Hfk |].
  exact (proj1 (no_orphan_messages xss_text stable_order toUpperCase_ascii utc
                  three_seconds _
                  t0 t0 JUndefined (mkCreateBody JUndefined JUndefined NoDate) zero_rng
                  Hfk (step_cleanup_tick xss_text stable_order toUpperCase_ascii utc
                         three_seconds no_rejects (t0 + 600000)))).
Defined.

(** X2.  Deleting a room is idempotent and deletions commute; a deletion
    changes nothing exactly when no room row has the id and no message row
    references it. *)
Theorem Room_deleteById_idempotent (a b : Z) (s : Store) :
  Room_deleteById a (Room_deleteById a s) = Room_deleteById a s
  /\ Room_deleteById a (Room_deleteById b s) = Room_deleteById b (Room_deleteById a s)
  /\ (Room_deleteById a s = s <->
      (forall r, r ∈ rooms s -> room_id r ≠ a)
      /\ (forall m, m ∈ messages s -> msg_room_id m ≠ a)).
Proof.
  split; [| split].
  - unfold Room_deleteById. cbn [rooms messages next_room_id next_msg_id].
    f_equal; apply filter_all; intros x Hx; by apply list_elem_of_filter in Hx as [? _].
  - unfold Room_deleteById. cbn [rooms messages next_room_id next_msg_id].
    f_equal; rewrite !list_filter_filter; apply list_filter_iff; intros; tauto.
  - split.
    + intros E. split.
      * intros r Hr. rewrite <- E in Hr. by apply Room_deleteById_rooms in Hr as [_ ?].
      * intros m Hm. rewrite <- E in Hm. by apply Room_deleteById_messages in Hm as [_ ?].
    + intros [Hr Hm]. destruct s as [rs ms nr nm]. unfold Room_deleteById.
      cbn [rooms messages next_room_id next_msg_id] in *.
      f_equal; by apply filter_all.
Qed.

Lemma Room_deleteManyByIds_cons (id : Z) (ids : list Z) (s : Store) :
  Room_deleteManyByIds (id :: ids) s
  = mkStore (filter (fun r => room_id r ∉ id :: ids) (rooms s))
            (filter (fun m => msg_room_id m ∉ id :: ids) (messages s))
            (next_room_id s) (next_msg_id s).
Proof. done. Qed.

Lemma fold_deleteById (ids : list Z) (s : Store) :
  fold_left (fun s id => Room_deleteById id s) ids s
  = mkStore (filter (fun r => room_id r ∉ ids) (rooms s))
            (filter (fun m => msg_room_id m ∉ ids) (messages s))
            (next_room_id s) (next_msg_id s).
Proof.
  revert s. induction ids as [|id ids IH]; intros s.
  - destruct s as [rs ms nr nm]. cbn [fold_left rooms messages next_room_id next_msg_id].
    f_equal; symmetry; apply filter_all; intros x _ Hx; by apply elem_of_nil in Hx.
  - cbn [fold_left]. rewrite IH. unfold Room_deleteById.
    cbn [rooms messages next_room_id next_msg_id].
    f_equal; rewrite list_filter_filter; apply list_filter_iff; intros x;
      rewrite not_elem_of_cons; tauto.
Qed.

(** X3.  [Room.deleteManyByIds] on a list of ids does what deleting the
    ids one by one with [Room.deleteById] does, in the order of the list
    or in the reverse order; on the empty list it leaves the store as it
    is. *)
Theorem Room_deleteManyByIds_one_by_one (ids : list Z) (s : Store) :
  Room_deleteManyByIds ids s = fold_left (fun s id => Room_deleteById id s) ids s
  /\ Room_deleteManyByIds ids s
     = fold_left (fun s id => Room_deleteById id s) (rev ids) s
  /\ Room_deleteManyByIds [] s = s.
Proof.
  split; [| split; [| done]].
  - destruct ids as [|id ids]; [done |].
    by rewrite Room_deleteManyByIds_cons, fold_deleteById.
  - destruct ids as [|id ids]; [done |].
    rewrite Room_deleteManyByIds_cons, fold_deleteById.
    f_equal; apply list_filter_iff; intros x;
      rewrite !list_elem_of_In, <- in_rev; tauto.
Qed.

(** X4.  [Message.deleteByRoomId] removes exactly the messages of that
    room and no room row; running it before [Room.deleteById] for the same
    room changes nothing in the outcome, the cascade alone does the same. *)
Theorem Message_deleteByRoomId_then_room (roomId rid : Z) (s : Store) :
  rooms (Message_deleteByRoomId roomId s) = rooms s
  /\ rows_of_room rid (Message_deleteByRoomId roomId s)
     = (if decide (rid = roomId) then [] else rows_of_room rid s)
  /\ Room_deleteById roomId (Message_deleteByRoomId roomId s) = Room_deleteById roomId s.
Proof.
  split; [done |]. split.
  - unfold rows_of_room, Message_deleteByRoomId. cbn [messages].
    rewrite list_filter_filter. case_decide as Hd.
    + subst rid. induction (messages s) as [|m l IH]; [done |].
      rewrite filter_cons. by rewrite decide_False by tauto.
    + apply list_filter_iff. intros m. split; [tauto |]. intros E. split; congruence.
  - unfold Room_deleteById, Message_deleteByRoomId.
    cbn [rooms messages next_room_id next_msg_id]. f_equal.
    rewrite list_filter_filter. apply list_filter_iff. intros; tauto.
Qed.

(** X5.  A room that [Room.create] has inserted is the one
    [Room.findByCode] returns for its code: an active row with the given
    code, type and expiry and the id the counter had; lookups of every
    other code, and the messages, are as before. *)
Theorem Room_create_then_findByCode (now : Z) (code : string) (type : RoomType)
    (expiresAt : Z) (s s' : Store) (room : Room) :
  Room_create now code type expiresAt s = Some (room, s') ->
  room = mkRoom (next_room_id s) code type (NOW now) expiresAt true
  /\ Room_findByCode code s' = Some room
  /\ (forall other, other ≠ code -> Room_findByCode other s' = Room_findByCode other s)
  /\ messages s' = messages s.
Proof.
  unfold Room_create. destruct (existsb _ _) eqn:Hex; [discriminate |].
  intros [= <- <-]. split; [done |].
  assert (Hnone : forall f : Room -> bool,
            (forall r, f r = true -> String.eqb (room_code r) code = true) ->
            find f (rooms s) = None).
  { intros f Hf. destruct (find f (rooms s)) as [r|] eqn:Hfind; [| done].
    apply find_some in Hfind as [Hin Hr].
    assert (existsb (fun r => String.eqb (room_code r) code) (rooms s) = true);
      [| congruence].
    apply existsb_exists. exists r. split; [done | by apply Hf]. }
  split; [| split; [| done]].
  - unfold Room_findByCode. cbn [rooms]. rewrite find_snoc, Hnone.
    + cbn [room_code is_active]. by rewrite String.eqb_refl.
    + intros r Hr. by apply andb_true_iff in Hr as [? _].
  - intros other Hne. unfold Room_findByCode. cbn [rooms]. rewrite find_snoc.
    destruct (find _ (rooms s)); [done |].
    cbn [room_code is_active].
    assert (String.eqb code other = false) as -> by (apply String.eqb_neq; congruence).
    done.
Qed.

Lemma Room_create_then_findByCode_witness :
  Room_create t0 "QRS456" single (t0_s + 3600) two_rooms
  = Some (mkRoom 3 "QRS456" single t0_s (t0_s + 3600) true,
          mkStore [room_g; room_s; mkRoom 3 "QRS456" single t0_s (t0_s + 3600) true] [] 4 1)
  /\ Room_findByCode "QRS456"
       (mkStore [room_g; room_s; mkRoom 3 "QRS456" single t0_s (t0_s + 3600) true] [] 4 1)
     = Some (mkRoom 3 "QRS456" single t0_s (t0_s + 3600) true).
Proof.
  assert (Hc : Room_create t0 "QRS456" single (t0_s + 3600) two_rooms
    = Some (mkRoom 3 "QRS456" single t0_s (t0_s + 3600) true,
            mkStore [room_g; room_s; mkRoom 3 "QRS456" single t0_s (t0_s + 3600) true]
                    [] 4 1)) by reflexivity.
  split; [exact Hc |].
  exact (proj1 (proj2 (Room_create_then_findByCode _ _ _ _ _ _ _ Hc))).
Defined.

Section History.

Variable order_by_sent_at : list Message -> list Message.

(** X6.  After [Message.create] has stored a message, the history of its
    room is the rows it had and the new row, with the id the counter had,
    in non-decreasing [sent_at]; the rows of every other room, and the
    rooms table, are as before. *)
Theorem Message_create_then_findByRoomId (now roomId : Z) (nick content iv : string)
    (s s' : Store) (id : Z) :
  order_by_contract order_by_sent_at ->
  Message_create now roomId nick content iv s = Some (id, s') ->
  id = next_msg_id s
  /\ Permutation
       (rows_of_room roomId s ++ [mkMessage id roomId nick content iv (NOW now)])%list
       (Message_findByRoomId order_by_sent_at roomId s')
  /\ Sorted (fun a b => sent_at a <= sent_at b)
       (Message_findByRoomId order_by_sent_at roomId s')
  /\ (forall other, other ≠ roomId -> rows_of_room other s' = rows_of_room other s)
  /\ rooms s' = rooms s.
Proof.
  intros Hc. unfold Message_create.
  destruct (_ && _); [| discriminate]. intros [= <- <-].
  split; [done |].
  assert (Hrows : rows_of_room roomId
            (mkStore (rooms s)
               (messages s ++ [mkMessage (next_msg_id s) roomId nick content iv (NOW now)])
               (next_room_id s) (next_msg_id s + 1))
          = (rows_of_room roomId s
             ++ [mkMessage (next_msg_id s) roomId nick content iv (NOW now)])%list).
  { unfold rows_of_room. cbn [messages]. rewrite filter_app. f_equal.
    rewrite filter_cons, decide_True by done. done. }
  unfold Message_findByRoomId. rewrite Hrows.
  destruct (Hc (rows_of_room roomId s
                ++ [mkMessage (next_msg_id s) roomId nick content iv (NOW now)])%list)
    as [Hp Hs].
  split; [done |]. split; [done |]. split; [| done].
  intros other Hne. unfold rows_of_room. cbn [messages]. rewrite filter_app.
  rewrite filter_cons, decide_False by (cbn; congruence).
  by rewrite filter_nil, app_nil_r.
Qed.

End History.

Lemma Message_create_then_findByRoomId_witness :
  order_by_contract stable_order
  /\ Message_create (t0 + 5000) 1 "alice" "TTQ=" "aXY0" (db three_seconds)
     = Some (4, mkStore (rooms (db three_seconds))
                  (messages (db three_seconds)
                   ++ [mkMessage 4 1 "alice" "TTQ=" "aXY0" (t0_s + 5)]) 3 5)
  /\ Sorted (fun a b => sent_at a <= sent_at b)
       (Message_findByRoomId stable_order 1
          (mkStore (rooms (db three_seconds))
             (messages (db three_seconds)
              ++ [mkMessage 4 1 "alice" "TTQ=" "aXY0" (t0_s + 5)]) 3 5)).
Proof.
  assert (Hm : Message_create (t0 + 5000) 1 "alice" "TTQ=" "aXY0" (db three_seconds)
     = Some (4, mkStore (rooms (db three_seconds))
                  (messages (db three_seconds)
                   ++ [mkMessage 4 1 "alice" "TTQ=" "aXY0" (t0_s + 5)]) 3 5))
    by reflexivity.
  split; [exact stable_order_contract |]. split; [exact Hm |].
  exact (proj1 (proj2 (proj2 (Message_create_then_findByRoomId stable_order _ _ _ _ _ _ _ _
                                stable_order_contract Hm)))).
Defined.

(** ** The controller *)

Lemma is_code_char_plain (c : ascii) :
  is_code_char c = true -> is_space c = false /\ upper_char c = c.
Proof.
  destruct c as [[] [] [] [] [] [] [] []]; vm_compute; intros H;
    first [discriminate H | split; reflexivity].
Qed.

Lemma code_chars_plain (s : string) :
  all_chars is_code_char s = true -> trim s = s /\ toUpperCase_ascii s = s.
Proof.
  unfold trim. induction s as [|c s IH]; [done |].
  cbn [all_chars]. intros H. apply andb_true_iff in H as [Hc Hs].
  apply is_code_char_plain in Hc as [Hsp Hup]. destruct (IH Hs) as [Htrim Hupper].
  cbn [trimStart toUpperCase_ascii]. rewrite Hsp, Hup, Hupper. split; [| done].
  cbn [trimEnd].
  assert (Hend : trimEnd s = s).
  { destruct s as [|c' s']; [done |].
    cbn [all_chars] in Hs. apply andb_true_iff in Hs as [Hc' _].
    apply is_code_char_plain in Hc' as [Hsp' _].
    cbn [trimStart] in Htrim. by rewrite Hsp' in Htrim. }
  rewrite Hend. destruct s; [by rewrite Hsp | done].
Qed.

(** A well-formed code that the case mapping leaves as it is, as that of
    Unicode leaves every text of [A-Z0-9], is its own normal form. *)
Lemma is_code_normal (toUpperCase : string -> string) (code : string) :
  is_code code = true -> toUpperCase code = code ->
  slice0 6 (toUpperCase (trim code)) = code /\ code <> "".
Proof.
  unfold is_code. intros H Hup. apply andb_true_iff in H as [Hlen Hall].
  apply Nat.eqb_eq in Hlen. destruct (code_chars_plain code Hall) as [-> _].
  rewrite Hup.
  destruct code as [|c1 [|c2 [|c3 [|c4 [|c5 [|c6 [|c7 rest]]]]]]]; try discriminate Hlen.
  split; [reflexivity | discriminate].
Qed.

(** The loop returns the first draw that is free, and only when every
    earlier draw was taken; it gives up only when all were taken. *)
Lemma generate_attempts_first_free (n : nat) (s : Store) (g : Rng) :
  match generate_attempts n s g with
  | (Some code, g') =>
      exists k, (k < n)%nat /\ code = drawn_code g k
                /\ Room_findByCode code s = None
                /\ (forall j, (j < k)%nat -> Room_findByCode (drawn_code g j) s <> None)
                /\ g' = mkRng (tape g) (cursor g + S k * LENGTH)%nat
  | (None, g') =>
      (forall j, (j < n)%nat -> Room_findByCode (drawn_code g j) s <> None)
      /\ g' = mkRng (tape g) (cursor g + n * LENGTH)%nat
  end.
Proof.
  revert g. induction n as [|n IH]; intros g.
  - simpl. split; [intros; lia |]. destruct g. simpl. f_equal. lia.
  - rewrite generate_attempts_step.
    destruct (Room_findByCode (drawn_code g 0) s) eqn:H0.
    + specialize (IH (mkRng (tape g) (cursor g + LENGTH)%nat)).
      destruct (generate_attempts n s _) as [[code|] g'].
      * destruct IH as (k & Hk & Hd & Hf & Hbefore & Hg).
        exists (S k). rewrite drawn_code_shift in Hd.
        split; [lia |]. split; [done |]. split; [done |]. split.
        -- intros [|j] Hj; [by rewrite H0 |].
           rewrite <- drawn_code_shift. apply Hbefore. lia.
        -- rewrite Hg. cbn [tape cursor]. f_equal. unfold LENGTH. lia.
      * destruct IH as [Hall Hg]. split.
        -- intros [|j] Hj; [by rewrite H0 |].
           rewrite <- drawn_code_shift. apply Hall. lia.
        -- rewrite Hg. cbn [tape cursor]. f_equal. unfold LENGTH. lia.
    + exists 0%nat. split; [lia |]. split; [done |]. split; [done |].
      split; [intros; lia |]. first [reflexivity | f_equal; unfold LENGTH; lia].
Qed.

(** X7.  [generateUniqueCode] returns the first of its at most five draws
    that no active room carries: a code of six characters of [A-Z0-9],
    every earlier draw being taken, with exactly the bytes of the draws
    made consumed; it throws only when all five draws are taken. *)
Theorem generateUniqueCode_first_free (s : Store) (g : Rng) :
  match generateUniqueCode s g with
  | (Some code, g') =>
      is_code code = true
      /\ Room_findByCode code s = None
      /\ exists k, (k < 5)%nat /\ code = drawn_code g k
           /\ (forall j, (j < k)%nat -> Room_findByCode (drawn_code g j) s <> None)
           /\ g' = mkRng (tape g) (cursor g + S k * LENGTH)%nat
  | (None, g') =>
      (forall j, (j < 5)%nat -> Room_findByCode (drawn_code g j) s <> None)
      /\ g' = mkRng (tape g) (cursor g + 5 * LENGTH)%nat
  end.
Proof.
  unfold generateUniqueCode.
  pose proof (generate_attempts_first_free 5 s g) as H.
  destruct (generate_attempts 5 s g) as [[code|] g']; [| done].
  destruct H as (k & Hk & Hd & Hf & Hbefore & Hg).
  split; [rewrite Hd; apply drawn_code_is_code |]. split; [done |].
  by exists k.
Qed.

(** What [createRoom] answers, case by case. *)
Lemma createRoom_cases (now stored : Z) (b : CreateBody) (g : Rng) (s : Store) :
  (exists code type expiresAt g',
      room_type_of (cb_type b) = Some type
      /\ compute_expiry now b = ExpiresAt expiresAt
      /\ generateUniqueCode s g = (Some code, g')
      /\ existsb (fun r => String.eqb (room_code r) code) (rooms s) = false
      /\ createRoom now stored b g s
         = (mkResponse 201 (BRoom code type expiresAt),
            mkStore (rooms s ++ [mkRoom (next_room_id s) code type (NOW stored) expiresAt true])
                    (messages s) (next_room_id s + 1) (next_msg_id s),
            g'))
  \/ (exists status error g',
        (status = 400 \/ status = 500)
        /\ createRoom now stored b g s = (mkResponse status (BError error), s, g')).
Proof.
  unfold createRoom.
  destruct (room_type_of (cb_type b)) as [type|]; [| right; eexists _, _, _; eauto].
  destruct (compute_expiry now b) as [expiresAt | e |];
    [| right; eexists _, _, _; eauto ..].
  destruct (generateUniqueCode s g) as [[code|] g'];
    [| right; eexists _, _, _; split; [right |]; reflexivity].
  unfold Room_create.
  destruct (existsb _ _) eqn:Hex;
    [right; eexists _, _, _; split; [right |]; reflexivity |].
  left. exists code, type, expiresAt, g'. done.
Qed.

(** X8.  [createRoom] answers 201, 400 or 500 and nothing else.  With 400
    or 500 the store is exactly as before.  With 201 the body carries a
    well-formed code that no active room had, and the store has gained one
    row, active, with that code, the requested type and the expiry of the
    body, created at the [NOW()] of the INSERT; no row is changed or
    removed and the messages are as before. *)
Theorem createRoom_effect (now stored : Z) (b : CreateBody) (g : Rng) (s : Store) :
  (exists code type expiresAt,
      fst (fst (createRoom now stored b g s)) = mkResponse 201 (BRoom code type expiresAt)
      /\ is_code code = true
      /\ Room_findByCode code s = None
      /\ room_type_of (cb_type b) = Some type
      /\ snd (fst (createRoom now stored b g s))
         = mkStore (rooms s ++ [mkRoom (next_room_id s) code type (NOW stored) expiresAt true])
                   (messages s) (next_room_id s + 1) (next_msg_id s))
  \/ (exists status error,
        (status = 400 \/ status = 500)
        /\ fst (fst (createRoom now stored b g s)) = mkResponse status (BError error)
        /\ snd (fst (createRoom now stored b g s)) = s).
Proof.
  destruct (createRoom_cases now stored b g s)
    as [(code & type & e & g' & Hty & _ & Hgen & _ & ->) | (st & err & g' & Hst & ->)].
  - left. exists code, type, e.
    pose proof (generate_attempts_first_free 5 s g) as H.
    unfold generateUniqueCode in Hgen. rewrite Hgen in H.
    destruct H as (k & _ & Hd & Hf & _). cbn [fst snd].
    split; [done |]. split; [rewrite Hd; apply drawn_code_is_code |]. done.
  - right. exists st, err. done.
Qed.

Lemma Room_findByCode_appended (s : Store) (r : Room) (ms : list Message) (nr nm : Z) :
  existsb (fun x => String.eqb (room_code x) (room_code r)) (rooms s) = false ->
  is_active r = true ->
  Room_findByCode (room_code r) (mkStore (rooms s ++ [r]) ms nr nm) = Some r.
Proof.
  intros Hex Ha. unfold Room_findByCode. cbn [rooms]. rewrite find_snoc.
  destruct (find _ (rooms s)) as [x|] eqn:Hfind.
  - apply find_some in Hfind as [Hin Hx]. apply andb_true_iff in Hx as [Hx _].
    assert (existsb (fun x => String.eqb (room_code x) (room_code r)) (rooms s) = true);
      [| congruence].
    apply existsb_exists. by exists x.
  - by rewrite String.eqb_refl, Ha.
Qed.

Lemma joinRoom_found (toUpperCase : string -> string) (LocalTZA : Z -> Z) (now : Z)
    (code : string) (s : Store) (room : Room) :
  is_code code = true ->
  toUpperCase code = code ->
  Room_findByCode code s = Some room ->
  joinRoom toUpperCase LocalTZA now (JString code) s
  = if joinRoom_expired LocalTZA now room
    then (mkResponse 410
            (BError "This session has expired and all messages have been permanently deleted."),
          Room_deleteById (room_id room) s)
    else (mkResponse 200 (BRoom (room_code room) (room_type room) (expires_at room)), s).
Proof.
  intros Hcode Hup Hfind. destruct (is_code_normal toUpperCase code Hcode Hup) as [Hnorm Hne].
  unfold joinRoom. cbn [as_nonempty_string].
  apply String.eqb_neq in Hne. rewrite Hne, Hnorm, Hcode. cbn [negb].
  by rewrite Hfind.
Qed.

Lemma createRoom_code (now stored : Z) (b : CreateBody) (g g' : Rng) (s s' : Store)
    (code : string) (type : RoomType) (expiresAt : Z) :
  createRoom now stored b g s = (mkResponse 201 (BRoom code type expiresAt), s', g') ->
  is_code code = true
  /\ compute_expiry now b = ExpiresAt expiresAt
  /\ s' = mkStore (rooms s ++ [mkRoom (next_room_id s) code type (NOW stored) expiresAt true])
                  (messages s) (next_room_id s + 1) (next_msg_id s)
  /\ Room_findByCode code s'
     = Some (mkRoom (next_room_id s) code type (NOW stored) expiresAt true).
Proof.
  intros Hcreate.
  destruct (createRoom_cases now stored b g s)
    as [(code0 & type0 & e0 & g0 & Hty & Hexp & Hgen & Hfree & E)
       | (st & err & g0 & _ & E)]; rewrite E in Hcreate; [| discriminate].
  injection Hcreate as <- <- <- <- _.
  split.
  { pose proof (generate_attempts_first_free 5 s g) as H.
    unfold generateUniqueCode in Hgen. rewrite Hgen in H.
    destruct H as (k & _ & -> & _). apply drawn_code_is_code. }
  split; [done |]. split; [done |].
  by apply (Room_findByCode_appended s
              (mkRoom (next_room_id s) code0 type0 (NOW stored) e0 true)).
Qed.

(** X9.  A room that [createRoom] has just answered with 201 is found by
    the join pre-check under the code of the response.  As long as the
    clock is before the instant the pre-check compares it with, which is
    the expiry of the response moved by the offset of the zone of the
    process, [joinRoom] answers 200 with the same code, type and expiry
    and leaves the store alone; from that instant on it answers 410 and
    the store is the one from before the creation, but for its counter.
    For the presets "10m", "1h" and "24h" the expiry is the second that
    the handler's clock reads, plus 600, 3600 and 86400. *)
Theorem createRoom_then_joinRoom (toUpperCase : string -> string) (LocalTZA : Z -> Z)
    (now stored now' : Z) (b : CreateBody) (g g' : Rng)
    (s s' : Store) (code : string) (type : RoomType) (expiresAt : Z) :
  createRoom now stored b g s = (mkResponse 201 (BRoom code type expiresAt), s', g') ->
  toUpperCase code = code ->
  Forall (fun r => room_id r < next_room_id s) (rooms s) ->
  Forall (fun m => msg_room_id m < next_room_id s) (messages s) ->
  (now' < Date_plus_Z LocalTZA (Date_of_datetime expiresAt) ->
   joinRoom toUpperCase LocalTZA now' (JString code) s'
   = (mkResponse 200 (BRoom code type expiresAt), s'))
  /\ (Date_plus_Z LocalTZA (Date_of_datetime expiresAt) <= now' ->
      joinRoom toUpperCase LocalTZA now' (JString code) s'
      = (mkResponse 410
           (BError "This session has expired and all messages have been permanently deleted."),
         mkStore (rooms s) (messages s) (next_room_id s + 1) (next_msg_id s)))
  /\ (cb_expiryType b = JString "10m" -> expiresAt = now / 1000 + 600)
  /\ (cb_expiryType b = JString "1h" -> expiresAt = now / 1000 + 3600)
  /\ (cb_expiryType b = JString "24h" -> expiresAt = now / 1000 + 86400).
Proof.
  intros Hcreate Hup Hrooms Hmsgs.
  destruct (createRoom_code _ _ _ _ _ _ _ _ _ _ Hcreate) as (Hcode & Hexp & Hs' & Hfind).
  pose proof (joinRoom_found toUpperCase LocalTZA now' code s' _ Hcode Hup Hfind) as Hjoin.
  unfold joinRoom_expired in Hjoin. cbn [expires_at room_code room_type room_id] in Hjoin.
  split; [| split].
  - intros Hlive. rewrite Hjoin.
    destruct (now' >=? _) eqn:Hge; [| done].
    rewrite Z.geb_leb in Hge. apply Z.leb_le in Hge. lia.
  - intros Hdead. rewrite Hjoin.
    destruct (now' >=? _) eqn:Hge.
    2:{ rewrite Z.geb_leb in Hge. apply Z.leb_gt in Hge. lia. }
    f_equal. rewrite Hs'. unfold Room_deleteById. cbn [rooms messages next_room_id next_msg_id].
    f_equal.
    + rewrite filter_app, filter_cons, decide_False by (cbn [room_id]; tauto).
      rewrite filter_nil, app_nil_r. apply filter_all.
      rewrite Forall_forall in Hrooms. intros r Hr. specialize (Hrooms r Hr). lia.
    + apply filter_all.
      rewrite Forall_forall in Hmsgs. intros m Hm. specialize (Hmsgs m Hm). lia.
  - unfold compute_expiry in Hexp.
    assert (Hdiv : forall k, toDatetime (now + k * 1000) = now / 1000 + k).
    { intros k. unfold toDatetime. rewrite Z.div_add by lia. lia. }
    repeat split; intros Het; rewrite Het in Hexp; cbn in Hexp;
      injection Hexp as <-.
    + change (10 * 60 * 1000) with (600 * 1000). apply Hdiv.
    + change (60 * 60 * 1000) with (3600 * 1000). apply Hdiv.
    + change (24 * 60 * 60 * 1000) with (86400 * 1000). apply Hdiv.
Qed.

(** A room is created at [t0], the INSERT running 40 ms later; on a
    process in Kolkata it is joined an hour after its expiry. *)
Lemma createRoom_then_joinRoom_witness :
  createRoom t0 (t0 + 40) (mkCreateBody (JString "group") (JString "10m") NoDate)
    zero_rng empty_store
  = (mkResponse 201 (BRoom "AAAAAA" group (t0_s + 600)),
     mkStore [mkRoom 1 "AAAAAA" group t0_s (t0_s + 600) true] [] 2 1,
     mkRng (fun _ => 0) 6)
  /\ joinRoom toUpperCase_ascii kolkata (t0 + 4200000) (JString "AAAAAA")
       (mkStore [mkRoom 1 "AAAAAA" group t0_s (t0_s + 600) true] [] 2 1)
     = (mkResponse 200 (BRoom "AAAAAA" group (t0_s + 600)),
        mkStore [mkRoom 1 "AAAAAA" group t0_s (t0_s + 600) true] [] 2 1).
Proof.
  assert (Hc : createRoom t0 (t0 + 40)
                 (mkCreateBody (JString "group") (JString "10m") NoDate)
                 zero_rng empty_store
    = (mkResponse 201 (BRoom "AAAAAA" group (t0_s + 600)),
       mkStore [mkRoom 1 "AAAAAA" group t0_s (t0_s + 600) true] [] 2 1,
       mkRng (fun _ => 0) 6)) by reflexivity.
  assert (Hl : t0 + 4200000 < Date_plus_Z kolkata (Date_of_datetime (t0_s + 600)))
    by reflexivity.
  assert (Hr : Forall (fun r => room_id r < next_room_id empty_store) (rooms empty_store))
    by constructor.
  assert (Hm : Forall (fun m => msg_room_id m < next_room_id empty_store)
                 (messages empty_store)) by constructor.
  split; [exact Hc |].
  exact (proj1 (createRoom_then_joinRoom toUpperCase_ascii kolkata t0 (t0 + 40)
                  (t0 + 4200000) _ _ _ _ _ _ _ _ Hc eq_refl Hr Hm) Hl).
Defined.

(** X10.  A custom expiry that is strictly in the future but falls in the
    second that is running is accepted, and the room it creates is stored
    with the running second as its expiry.  That room is expired for the
    sweeper from the start: every tick from that instant on finds it.
    When the INSERT does not run before the handler has read its clock,
    the room expires no later than it was created. *)
Theorem createRoom_custom_same_second (now stored ms : Z) (ty : jsval) (type : RoomType)
    (g g' : Rng) (s : Store) (code : string) :
  room_type_of ty = Some type ->
  now < ms ->
  ms / 1000 = now / 1000 ->
  generateUniqueCode s g = (Some code, g') ->
  existsb (fun r => String.eqb (room_code r) code) (rooms s) = false ->
  createRoom now stored (mkCreateBody ty (JString "custom") (DateAt ms)) g s
  = (mkResponse 201 (BRoom code type (now / 1000)),
     mkStore (rooms s
              ++ [mkRoom (next_room_id s) code type (NOW stored) (now / 1000) true])
             (messages s) (next_room_id s + 1) (next_msg_id s),
     g')
  /\ (forall now',
        now <= now' ->
        mkRoom (next_room_id s) code type (NOW stored) (now / 1000) true
        ∈ Room_findExpired now'
            (snd (fst (createRoom now stored
                         (mkCreateBody ty (JString "custom") (DateAt ms)) g s))))
  /\ (now <= stored -> now / 1000 <= NOW stored).
Proof.
  intros Hty Hfut Hsec Hgen Hfree.
  assert (He : toDatetime ms = now / 1000).
  { unfold toDatetime. lia. }
  assert (Hrange : now < ms <= now + 30 * 24 * 60 * 60 * 1000).
  { pose proof (Z.div_mod ms 1000 ltac:(lia)).
    pose proof (Z.mod_pos_bound ms 1000 ltac:(lia)).
    pose proof (Z.div_mod now 1000 ltac:(lia)).
    pose proof (Z.mod_pos_bound now 1000 ltac:(lia)). lia. }
  rewrite (createRoom_custom_created now stored ms ty type g g' s code Hty Hrange Hgen Hfree).
  rewrite He. split; [done |]. cbn [fst snd]. split.
  - intros now' Hle. unfold Room_findExpired. cbn [rooms].
    apply list_elem_of_filter. split.
    + unfold expired_row. cbn [expires_at is_active]. rewrite andb_true_r.
      apply Z.leb_le. unfold NOW, NOW_at, db_timezone_offset.
      rewrite Z.add_0_r. by apply Z.div_le_mono.
    + apply elem_of_app. right. by apply list_elem_of_singleton.
  - intros Hle. unfold NOW, NOW_at, db_timezone_offset.
    rewrite Z.add_0_r. by apply Z.div_le_mono.
Qed.

(** Half a second into a second, an expiry 400 ms later. *)
Lemma createRoom_custom_same_second_witness :
  t0 + 500 < t0 + 900
  /\ (t0 + 900) / 1000 = (t0 + 500) / 1000
  /\ createRoom (t0 + 500) (t0 + 540)
       (mkCreateBody (JString "group") (JString "custom") (DateAt (t0 + 900)))
       zero_rng empty_store
     = (mkResponse 201 (BRoom "AAAAAA" group t0_s),
        mkStore [mkRoom 1 "AAAAAA" group t0_s t0_s true] [] 2 1,
        mkRng (fun _ => 0) 6).
Proof.
  assert (H1 : t0 + 500 < t0 + 900) by reflexivity.
  assert (H2 : (t0 + 900) / 1000 = (t0 + 500) / 1000) by reflexivity.
  split; [exact H1 |]. split; [exact H2 |].
  exact (proj1 (createRoom_custom_same_second (t0 + 500) (t0 + 540) (t0 + 900)
                  (JString "group")
                  group zero_rng (mkRng (fun _ => 0) 6) empty_store "AAAAAA"
                  eq_refl H1 H2 eq_refl eq_refl)).
Defined.

(** X11.  The join pre-check answers 400 and does not touch the store in
    two cases: with "roomCode is required." when [roomCode] is missing, not
    a string or empty, whatever the case mapping; and with its message on
    the form of a code when [roomCode] is a non-empty string of which the
    trimmed, upper-cased and cut form is not six characters of [A-Z0-9].
    That form, not the text as sent, decides. *)
Theorem joinRoom_rejects_malformed (toUpperCase : string -> string) (LocalTZA : Z -> Z)
    (now : Z) (roomCode : jsval) (s : Store) :
  (as_nonempty_string roomCode = None ->
   joinRoom toUpperCase LocalTZA now roomCode s
   = (mkResponse 400 (BError "roomCode is required."), s))
  /\ (forall raw,
        as_nonempty_string roomCode = Some raw ->
        is_code (slice0 6 (toUpperCase (trim raw))) = false ->
        joinRoom toUpperCase LocalTZA now roomCode s
        = (mkResponse 400
             (BError "Room code must be 6 uppercase alphanumeric characters."), s))
  /\ (forall raw,
        as_nonempty_string roomCode = Some raw ->
        is_code (slice0 6 (toUpperCase (trim raw))) = true ->
        status (fst (joinRoom toUpperCase LocalTZA now roomCode s)) <> 400).
Proof.
  unfold joinRoom. split; [| split].
  - by intros ->.
  - intros raw -> Hbad. by rewrite Hbad.
  - intros raw -> Hgood. rewrite Hgood. cbn [negb].
    destruct (Room_findByCode _ s) as [room|]; [| cbn; lia].
    destruct (joinRoom_expired LocalTZA now room); cbn; lia.
Qed.

(** "abc-12" keeps its hyphen. *)
Lemma joinRoom_rejects_malformed_witness :
  as_nonempty_string (JString "abc-12") = Some "abc-12"
  /\ is_code (slice0 6 (toUpperCase_ascii (trim "abc-12"))) = false
  /\ joinRoom toUpperCase_ascii utc t0 (JString "abc-12") two_rooms
     = (mkResponse 400 (BError "Room code must be 6 uppercase alphanumeric characters."),
        two_rooms).
Proof.
  split; [reflexivity |]. split; [reflexivity |].
  exact (proj1 (proj2 (joinRoom_rejects_malformed toUpperCase_ascii utc t0
                         (JString "abc-12") two_rooms))
           "abc-12" eq_refl eq_refl).
Defined.

Lemma Room_findByCode_deleted (s : Store) (code : string) (room : Room) :
  codes_unique s ->
  Room_findByCode code s = Some room ->
  Room_findByCode code (Room_deleteById (room_id room) s) = None.
Proof.
  intros Hu Hf.
  destruct (Room_findByCode code (Room_deleteById (room_id room) s)) as [r|] eqn:Hr;
    [| done].
  apply Room_findByCode_Some in Hr as (Hin & Hc & _).
  apply Room_deleteById_rooms in Hin as [Hin Hne].
  assert (r = room) by (by eapply Room_findByCode_unique). congruence.
Qed.

(** X12.  In a store with unique codes, once the join pre-check has
    answered 410 for a code, every later pre-check for that code, at any
    instant, answers 404 and changes nothing. *)
Theorem joinRoom_gone_then_not_found (toUpperCase : string -> string) (LocalTZA : Z -> Z)
    (now now' : Z) (raw : string) (s : Store) :
  codes_unique s ->
  status (fst (joinRoom toUpperCase LocalTZA now (JString raw) s)) = 410 ->
  status (fst (joinRoom toUpperCase LocalTZA now' (JString raw)
                 (snd (joinRoom toUpperCase LocalTZA now (JString raw) s)))) = 404
  /\ snd (joinRoom toUpperCase LocalTZA now' (JString raw)
            (snd (joinRoom toUpperCase LocalTZA now (JString raw) s)))
     = snd (joinRoom toUpperCase LocalTZA now (JString raw) s).
Proof.
  intros Hu. unfold joinRoom.
  destruct (as_nonempty_string (JString raw)) as [rc|]; [| discriminate].
  destruct (negb _) eqn:Hcode; [discriminate |].
  destruct (Room_findByCode _ s) as [room|] eqn:Hf; [| discriminate].
  destruct (joinRoom_expired LocalTZA now room); [| discriminate].
  intros _. cbn [fst snd].
  by rewrite (Room_findByCode_deleted s _ room Hu Hf).
Qed.

Lemma joinRoom_gone_then_not_found_witness :
  codes_unique two_rooms
  /\ status (fst (joinRoom toUpperCase_ascii utc (t0 + 600000) (JString "abc123")
                    two_rooms)) = 410
  /\ status (fst (joinRoom toUpperCase_ascii utc t0 (JString "abc123")
                    (snd (joinRoom toUpperCase_ascii utc (t0 + 600000) (JString "abc123")
                            two_rooms)))) = 404.
Proof.
  assert (Hu : codes_unique two_rooms).
  { apply (bool_decide_unpack _). vm_compute. exact I. }
  assert (H410 : status (fst (joinRoom toUpperCase_ascii utc (t0 + 600000)
                                (JString "abc123") two_rooms)) = 410)
    by reflexivity.
  split; [exact Hu |]. split; [exact H410 |].
  exact (proj1 (joinRoom_gone_then_not_found toUpperCase_ascii utc (t0 + 600000) t0
                  "abc123" two_rooms Hu H410)).
Defined.

(** ** The realtime handlers *)

Section Realtime.

Variable xss : string -> string.
Variable order_by_sent_at : list Message -> list Message.
Variable toUpperCase : string -> string.
Variable LocalTZA : Z -> Z.

(** [chat:join] with a payload that passes the local checks, from a
    connected socket: what is left is the lookup and its three outcomes. *)
Lemma chat_join_valid (now : Z) (sid : string) (payload : gmap string jsval)
    (st : Server) (rawCode rawNick : string) :
  is_Some (sockets st !! sid) ->
  as_nonempty_string (field payload "roomCode") = Some rawCode ->
  as_nonempty_string (field payload "nickname") = Some rawNick ->
  is_code (xss (slice0 6 (toUpperCase (trim rawCode)))) = true ->
  xss (slice0 32 (trim rawNick)) <> "" ->
  chat_join xss order_by_sent_at toUpperCase LocalTZA now sid payload st
  = match Room_findByCode (xss (slice0 6 (toUpperCase (trim rawCode)))) (db st) with
    | None => emit sid (ErrorRoom "Room not found or expired.") st
    | Some room =>
        if chat_join_expired LocalTZA now room then
          emit sid (RoomExpired "Room has expired.")
            (mkServer (Room_deleteById (room_id room) (db st))
                      (roomParticipants st) (channels st) (sockets st) (outbox st))
        else if room_full room
                  (members (roomParticipants st)
                     (xss (slice0 6 (toUpperCase (trim rawCode))))) sid
        then emit sid (ErrorRoom "This private room is full (max 2 users).") st
        else join_accepted order_by_sent_at now sid
               (xss (slice0 6 (toUpperCase (trim rawCode))))
               (xss (slice0 32 (trim rawNick))) room st
    end.
Proof.
  intros [sess Hs] Hrc Hnk Hcode Hnick. unfold chat_join.
  rewrite Hs, Hrc, Hnk, Hcode. cbn [negb].
  apply String.eqb_neq in Hnick. by rewrite Hnick.
Qed.

(** X13.  The listener of [chat:join] on a payload it does not accept.  On
    [null] the parameter list throws, outside the [try]: the process ends.
    Any other payload of which [roomCode] or [nickname] is missing, not a
    string or empty, or of which the code, trimmed, upper-cased, cut and
    filtered, is not six characters of [A-Z0-9], or of which the nickname
    comes out empty, is dropped without a trace: the server goes on in
    the state it was in, outbox included. *)
Theorem chat_join_drops_invalid (now : Z) (sid : string) (st : Server) :
  on_chat_join xss order_by_sent_at toUpperCase LocalTZA now sid PNull st = ProcessExits
  /\ (forall fields,
        (forall rawCode rawNick,
            as_nonempty_string (field fields "roomCode") = Some rawCode ->
            as_nonempty_string (field fields "nickname") = Some rawNick ->
            is_code (xss (slice0 6 (toUpperCase (trim rawCode)))) = false
            \/ xss (slice0 32 (trim rawNick)) = "") ->
        on_chat_join xss order_by_sent_at toUpperCase LocalTZA now sid (PFields fields) st
        = Continues st).
Proof.
  split; [reflexivity |].
  intros fields Hbad. unfold on_chat_join, chat_join. f_equal.
  destruct (sockets st !! sid); [| done].
  destruct (as_nonempty_string (field fields "roomCode")) as [rc|]; [| done].
  destruct (as_nonempty_string (field fields "nickname")) as [nk|]; [| done].
  destruct (Hbad rc nk eq_refl eq_refl) as [-> | ->]; [done |].
  by destruct (negb _).
Qed.

(** X14.  A valid [chat:join] for a code that no active room carries, or
    for a room whose expiry, moved by the offset of the zone of the
    process, the clock has reached, does not join the socket: the
    participant map, the Socket.IO rooms and every session are as before,
    and the sender alone is handed one event, [error:room] when there is
    no room and [room:expired] otherwise; in the second case the room and
    its messages are deleted, in the first the store is as before. *)
Theorem chat_join_refused (now : Z) (sid : string) (payload : gmap string jsval)
    (st : Server) (rawCode rawNick : string) :
  is_Some (sockets st !! sid) ->
  as_nonempty_string (field payload "roomCode") = Some rawCode ->
  as_nonempty_string (field payload "nickname") = Some rawNick ->
  is_code (xss (slice0 6 (toUpperCase (trim rawCode)))) = true ->
  xss (slice0 32 (trim rawNick)) <> "" ->
  (forall room,
      Room_findByCode (xss (slice0 6 (toUpperCase (trim rawCode)))) (db st) = Some room ->
      expiry_instant room + LocalTZA (expiry_instant room) / 1000 * 1000 <= now) ->
  roomParticipants (chat_join xss order_by_sent_at toUpperCase LocalTZA now sid payload st)
  = roomParticipants st
  /\ channels (chat_join xss order_by_sent_at toUpperCase LocalTZA now sid payload st)
     = channels st
  /\ sockets (chat_join xss order_by_sent_at toUpperCase LocalTZA now sid payload st)
     = sockets st
  /\ match Room_findByCode (xss (slice0 6 (toUpperCase (trim rawCode)))) (db st) with
     | None =>
         db (chat_join xss order_by_sent_at toUpperCase LocalTZA now sid payload st) = db st
         /\ outbox (chat_join xss order_by_sent_at toUpperCase LocalTZA now sid payload st)
            = (outbox st
               ++ [mkDelivery sid None (ErrorRoom "Room not found or expired.")])%list
     | Some room =>
         db (chat_join xss order_by_sent_at toUpperCase LocalTZA now sid payload st)
         = Room_deleteById (room_id room) (db st)
         /\ outbox (chat_join xss order_by_sent_at toUpperCase LocalTZA now sid payload st)
            = (outbox st ++ [mkDelivery sid None (RoomExpired "Room has expired.")])%list
     end.
Proof.
  intros Hs Hrc Hnk Hcode Hnick Hdead.
  rewrite (chat_join_valid now sid payload st rawCode rawNick Hs Hrc Hnk Hcode Hnick).
  destruct (Room_findByCode _ (db st)) as [room|]; [| done].
  specialize (Hdead room eq_refl).
  assert (E : chat_join_expired LocalTZA now room = true).
  { unfold chat_join_expired. rewrite geb_expiry. apply negb_true_iff.
    unfold isAlive. apply negb_false_iff. by apply Z.leb_le. }
  by rewrite E.
Qed.

(** X16.  The listener of [chat:message] on an event it does not accept.
    On [null] the parameter list throws, outside the [try]: the process
    ends.  An event from a socket that is not connected, has no room or no
    nickname, or of which [content] or [iv] is missing, not a string or
    empty, or of which [content] is longer than 65536 characters, is
    dropped: the server goes on in the state it was in, nothing is stored
    and nothing is emitted. *)
Theorem chat_message_drops_invalid (now : Z) (sid : string) (st : Server) :
  on_chat_message xss now sid PNull st = ProcessExits
  /\ (forall fields,
        (forall sess code nick content iv,
            sockets st !! sid = Some sess ->
            truthy (currentRoom sess) = Some code ->
            truthy (nickname sess) = Some nick ->
            as_nonempty_string (field fields "content") = Some content ->
            as_nonempty_string (field fields "iv") = Some iv ->
            65536 < Z.of_nat (String.length content)) ->
        on_chat_message xss now sid (PFields fields) st = Continues st).
Proof.
  split; [reflexivity |].
  intros fields Hbad. unfold on_chat_message, chat_message. f_equal.
  destruct (sockets st !! sid) as [sess|]; [| done].
  destruct (truthy (currentRoom sess)) as [code|] eqn:Hc; [| done].
  destruct (truthy (nickname sess)) as [nick|] eqn:Hn; [| done].
  destruct (as_nonempty_string (field fields "content")) as [content|]; [| done].
  destruct (as_nonempty_string (field fields "iv")) as [iv|]; [| done].
  specialize (Hbad sess code nick content iv eq_refl Hc Hn eq_refl eq_refl).
  apply Z.ltb_lt in Hbad. by rewrite Hbad.
Qed.

End Realtime.

(** [null], and a code of five characters. *)
Lemma chat_join_drops_invalid_witness :
  on_chat_join xss_text stable_order toUpperCase_ascii utc t0 "s1" PNull
    (connection "s1" (empty_server two_rooms)) = ProcessExits
  /\ on_chat_join xss_text stable_order toUpperCase_ascii utc t0 "s1"
       (PFields (join_payload "abc12" "alice")) (connection "s1" (empty_server two_rooms))
     = Continues (connection "s1" (empty_server two_rooms)).
Proof.
  assert (H : forall rawCode rawNick,
      as_nonempty_string (field (join_payload "abc12" "alice") "roomCode") = Some rawCode ->
      as_nonempty_string (field (join_payload "abc12" "alice") "nickname") = Some rawNick ->
      is_code (xss_text (slice0 6 (toUpperCase_ascii (trim rawCode)))) = false
      \/ xss_text (slice0 32 (trim rawNick)) = "").
  { intros rc nk Hrc _. left.
    change (as_nonempty_string (field (join_payload "abc12" "alice") "roomCode"))
      with (Some "abc12") in Hrc.
    injection Hrc as <-. reflexivity. }
  pose proof (chat_join_drops_invalid xss_text stable_order toUpperCase_ascii utc t0 "s1"
                (connection "s1" (empty_server two_rooms))) as [Hnull Hdrop].
  split; [exact Hnull | exact (Hdrop _ H)].
Defined.

(** "s2" asks for the group room at the instant it expires, on a process
    on UTC. *)
Lemma chat_join_refused_witness :
  (forall room,
      Room_findByCode (xss_text (slice0 6 (toUpperCase_ascii (trim "abc123"))))
        (db (connection "s2" joined_server)) = Some room ->
      expiry_instant room + utc (expiry_instant room) / 1000 * 1000 <= t0 + 600000)
  /\ roomParticipants (chat_join xss_text stable_order toUpperCase_ascii utc (t0 + 600000)
                         "s2" (join_payload "abc123" "bob")
                         (connection "s2" joined_server))
     = roomParticipants (connection "s2" joined_server).
Proof.
  assert (Hd : forall room,
      Room_findByCode (xss_text (slice0 6 (toUpperCase_ascii (trim "abc123"))))
        (db (connection "s2" joined_server)) = Some room ->
      expiry_instant room + utc (expiry_instant room) / 1000 * 1000 <= t0 + 600000).
  { intros room Hr.
    change (Room_findByCode (xss_text (slice0 6 (toUpperCase_ascii (trim "abc123"))))
              (db (connection "s2" joined_server))) with (Some room_g) in Hr.
    injection Hr as <-. vm_compute. discriminate. }
  assert (Hs : is_Some (sockets (connection "s2" joined_server) !! "s2")).
  { exists (mkSession None None None). reflexivity. }
  assert (Hn : xss_text (slice0 32 (trim "bob")) <> "") by discriminate.
  split; [exact Hd |].
  exact (proj1 (chat_join_refused xss_text stable_order toUpperCase_ascii utc
                  (t0 + 600000) "s2"
                  (join_payload "abc123" "bob") (connection "s2" joined_server)
                  "abc123" "bob" Hs eq_refl eq_refl eq_refl Hn Hd)).
Defined.

(** [null], and a payload without [iv]. *)
Lemma chat_message_drops_invalid_witness :
  on_chat_message xss_text t0 "s1" PNull joined_server = ProcessExits
  /\ on_chat_message xss_text t0 "s1" (PFields (obj [("content", JString "TTE=")]))
       joined_server
     = Continues joined_server.
Proof.
  assert (H : forall sess code nick content iv,
      sockets joined_server !! "s1" = Some sess ->
      truthy (currentRoom sess) = Some code ->
      truthy (nickname sess) = Some nick ->
      as_nonempty_string (field (obj [("content", JString "TTE=")]) "content")
      = Some content ->
      as_nonempty_string (field (obj [("content", JString "TTE=")]) "iv") = Some iv ->
      65536 < Z.of_nat (String.length content)).
  { intros sess code nick content iv _ _ _ _ Hiv.
    change (as_nonempty_string (field (obj [("content", JString "TTE=")]) "iv"))
      with (@None string) in Hiv. discriminate Hiv. }
  pose proof (chat_message_drops_invalid xss_text t0 "s1" joined_server) as [Hnull Hdrop].
  split; [exact Hnull | exact (Hdrop _ H)].
Defined.

Lemma system_notices_list (sid code text : string) (ts : Z) (l : list string) :
  NoDup l ->
  length (List.filter (is_system_for sid)
            (map (fun s => mkDelivery s (Some code) (ChatSystem text ts)) l))
  = if decide (sid ∈ l) then 1%nat else 0%nat.
Proof.
  induction l as [|x l IH]; intros Hnd.
  - cbn [map List.filter length].
    destruct (decide (sid ∈ [])) as [Hin | _]; [by apply elem_of_nil in Hin | done].
  - apply NoDup_cons in Hnd as [Hx Hnd]. specialize (IH Hnd).
    cbn [map List.filter]. unfold is_system_for at 1. cbn [rcpt ev].
    rewrite andb_true_r. destruct (String.eqb x sid) eqn:E.
    + apply String.eqb_eq in E. subst x. cbn [length]. rewrite IH.
      rewrite decide_False by done.
      destruct (decide (sid ∈ sid :: l)) as [_ | Hn]; [done |].
      exfalso. apply Hn, elem_of_cons. by left.
    + apply String.eqb_neq in E. rewrite IH.
      destruct (decide (sid ∈ l)) as [Hin | Hnin];
        destruct (decide (sid ∈ x :: l)) as [Hin' | Hnin']; try done.
      * exfalso. apply Hnin', elem_of_cons. by right.
      * apply elem_of_cons in Hin' as [? | ?]; congruence.
Qed.

Lemma system_notices_broadcast (sid code text : string) (ts : Z) (to : gset string) :
  system_notices_to sid (broadcast code to (ChatSystem text ts))
  = if decide (sid ∈ to) then 1%nat else 0%nat.
Proof.
  unfold system_notices_to, broadcast.
  rewrite system_notices_list by apply NoDup_elements.
  destruct (decide (sid ∈ to)) as [Hin | Hnin];
    destruct (decide (sid ∈ elements to)) as [Hin' | Hnin']; try done.
  - exfalso. by apply Hnin', elem_of_elements.
  - exfalso. by apply Hnin, elem_of_elements.
Qed.

Lemma delivered_ids_list (sid code : string) (id : Z) (nick content iv : string)
    (ts : Z) (l : list string) :
  NoDup l ->
  omap (delivered_id sid)
    (map (fun s => mkDelivery s (Some code) (ChatMessage id nick content iv ts)) l)
  = if decide (sid ∈ l) then [id] else [].
Proof.
  induction l as [|x l IH]; intros Hnd.
  - cbn [map omap list_omap].
    destruct (decide (sid ∈ [])) as [Hin | _]; [by apply elem_of_nil in Hin | done].
  - apply NoDup_cons in Hnd as [Hx Hnd]. specialize (IH Hnd).
    cbn [map omap list_omap]. unfold delivered_id at 1. cbn [rcpt ev].
    destruct (String.eqb x sid) eqn:E.
    + apply String.eqb_eq in E. subst x. rewrite IH.
      rewrite decide_False by done.
      destruct (decide (sid ∈ sid :: l)) as [_ | Hn]; [done |].
      exfalso. apply Hn, elem_of_cons. by left.
    + apply String.eqb_neq in E. rewrite IH.
      destruct (decide (sid ∈ l)) as [Hin | Hnin];
        destruct (decide (sid ∈ x :: l)) as [Hin' | Hnin']; try done.
      * exfalso. apply Hnin', elem_of_cons. by right.
      * apply elem_of_cons in Hin' as [? | ?]; congruence.
Qed.

Lemma delivered_ids_broadcast_exact (sid code : string) (to : gset string)
    (id : Z) (nick content iv : string) (ts : Z) :
  delivered_ids sid (broadcast code to (ChatMessage id nick content iv ts))
  = if decide (sid ∈ to) then [id] else [].
Proof.
  unfold delivered_ids, broadcast.
  rewrite delivered_ids_list by apply NoDup_elements.
  destruct (decide (sid ∈ to)) as [Hin | Hnin];
    destruct (decide (sid ∈ elements to)) as [Hin' | Hnin']; try done.
  - exfalso. by apply Hnin', elem_of_elements.
  - exfalso. by apply Hnin, elem_of_elements.
Qed.

Section Accepted.

Variable xss : string -> string.
Variable order_by_sent_at : list Message -> list Message.
Variable toUpperCase : string -> string.
Variable LocalTZA : Z -> Z.

(** X15.  A valid [chat:join] from a connected socket for a live room that
    is not full joins the socket: it is added to the participants and to
    the Socket.IO room of that code, its session records the code, the
    filtered nickname and the room's id, and the store is untouched.  The
    joiner is handed the history of the room first and [chat:joined]
    last; in between, every other socket of the Socket.IO room is handed
    exactly one [chat:system] notice, and the joiner none. *)
Theorem chat_join_accepted (now : Z) (sid : string) (payload : gmap string jsval)
    (st : Server) (rawCode rawNick : string) (room : Room) :
  is_Some (sockets st !! sid) ->
  as_nonempty_string (field payload "roomCode") = Some rawCode ->
  as_nonempty_string (field payload "nickname") = Some rawNick ->
  is_code (xss (slice0 6 (toUpperCase (trim rawCode)))) = true ->
  xss (slice0 32 (trim rawNick)) <> "" ->
  Room_findByCode (xss (slice0 6 (toUpperCase (trim rawCode)))) (db st) = Some room ->
  chat_join_expired LocalTZA now room = false ->
  room_full room
    (members (roomParticipants st) (xss (slice0 6 (toUpperCase (trim rawCode))))) sid
  = false ->
  db (chat_join xss order_by_sent_at toUpperCase LocalTZA now sid payload st) = db st
  /\ members (roomParticipants (chat_join xss order_by_sent_at toUpperCase LocalTZA
      now sid payload st))
       (xss (slice0 6 (toUpperCase (trim rawCode))))
     = members (roomParticipants st) (xss (slice0 6 (toUpperCase (trim rawCode))))
       ∪ {[sid]}
  /\ members (channels (chat_join xss order_by_sent_at toUpperCase LocalTZA now sid payload st))
       (xss (slice0 6 (toUpperCase (trim rawCode))))
     = members (channels st) (xss (slice0 6 (toUpperCase (trim rawCode)))) ∪ {[sid]}
  /\ sockets (chat_join xss order_by_sent_at toUpperCase LocalTZA now sid payload st) !! sid
     = Some (mkSession (Some (xss (slice0 6 (toUpperCase (trim rawCode)))))
                       (Some (xss (slice0 32 (trim rawNick))))
                       (Some (room_id room)))
  /\ exists ds : list Delivery,
       outbox (chat_join xss order_by_sent_at toUpperCase LocalTZA now sid payload st)
       = (outbox st
          ++ [mkDelivery sid None
                (ChatHistory (Message_findByRoomId order_by_sent_at (room_id room) (db st)))]
          ++ ds
          ++ [mkDelivery sid None
                (ChatJoined (xss (slice0 6 (toUpperCase (trim rawCode))))
                   (room_type room) (expires_at room)
                   (xss (slice0 32 (trim rawNick))))])%list
       /\ forall other,
            system_notices_to other ds
            = if decide (other ∈ members (channels st)
                                   (xss (slice0 6 (toUpperCase (trim rawCode))))
                         ∖ {[sid]})
              then 1%nat else 0%nat.
Proof.
  intros Hs Hrc Hnk Hcode Hnick Hfind Hlive Hroom.
  rewrite (chat_join_valid xss order_by_sent_at toUpperCase LocalTZA
      now sid payload st rawCode rawNick
             Hs Hrc Hnk Hcode Hnick).
  rewrite Hfind, Hlive, Hroom. unfold join_accepted.
  cbn [db roomParticipants channels sockets outbox].
  split; [done |].
  split; [rewrite members_insert; by destruct (decide _) |].
  split; [rewrite members_insert; by destruct (decide _) |].
  split; [by rewrite lookup_insert_eq |].
  eexists. split; [reflexivity |]. intros other.
  rewrite system_notices_broadcast, members_insert.
  destruct (decide (_ = _)) as [_ | Hne]; [| done].
  destruct (decide (other ∈ (members (channels st) _ ∪ {[sid]}) ∖ {[sid]})) as [Hin | Hnin];
    destruct (decide (other ∈ members (channels st) _ ∖ {[sid]})) as [Hin' | Hnin'];
    try done.
  - exfalso. apply Hnin'. clear -Hin. set_solver.
  - exfalso. apply Hnin. clear -Hin'. set_solver.
Qed.

(** X17.  A valid [chat:message] from a socket with a room, a nickname and
    a room id, while an active room has the session's code, a room row has
    the session's room id and the values fit their columns (the nickname
    32 characters, the filtered content 65535 bytes of [utf8mb4], the
    filtered iv 64 characters): one row is
    appended, with the id the counter had, the session's room id and
    nickname, and the trimmed and filtered content and iv; each socket of
    the Socket.IO room of the session's code, the sender included when it
    is among them, is handed that message exactly once, and no other
    socket is handed anything. *)
Theorem chat_message_relayed (now : Z) (sid : string) (payload : gmap string jsval)
    (st : Server) (sess : Session) (code nick content iv : string) (rid : Z)
    (room : Room) :
  sockets st !! sid = Some sess ->
  truthy (currentRoom sess) = Some code ->
  truthy (nickname sess) = Some nick ->
  roomId sess = Some rid ->
  as_nonempty_string (field payload "content") = Some content ->
  as_nonempty_string (field payload "iv") = Some iv ->
  Z.of_nat (String.length content) <= 65536 ->
  Room_findByCode code (db st) = Some room ->
  existsb (fun r => room_id r =? rid) (rooms (db st)) = true ->
  Z.of_nat (String.length nick) <= 32 ->
  utf8_length (xss (trim content)) <= 65535 ->
  Z.of_nat (String.length (xss (trim iv))) <= 64 ->
  messages (db (chat_message xss now sid payload st))
  = (messages (db st)
     ++ [mkMessage (next_msg_id (db st)) rid nick (xss (trim content)) (xss (trim iv))
           (NOW now)])%list
  /\ rooms (db (chat_message xss now sid payload st)) = rooms (db st)
  /\ exists ds : list Delivery,
       outbox (chat_message xss now sid payload st) = (outbox st ++ ds)%list
       /\ Forall (fun d => via d = Some code
                          /\ ev d = ChatMessage (next_msg_id (db st)) nick
                                      (xss (trim content)) (xss (trim iv)) now) ds
       /\ forall other,
            delivered_ids other ds
            = if decide (other ∈ members (channels st) code)
              then [next_msg_id (db st)] else [].
Proof.
  intros Hs Hc Hn Hr Hcontent Hiv Hlen Hfind Hfk Hw1 Hw2 Hw3.
  unfold chat_message. rewrite Hs, Hc, Hn, Hcontent, Hiv, Hfind, Hr.
  destruct (65536 <? _) eqn:Hlt; [apply Z.ltb_lt in Hlt; lia |].
  unfold Message_create. rewrite Hfk.
  apply Z.leb_le in Hw1, Hw2, Hw3. rewrite Hw1, Hw2, Hw3.
  cbn [andb db messages rooms outbox].
  split; [done |]. split; [done |].
  eexists. split; [reflexivity |]. split.
  - eapply Forall_impl; [apply broadcast_ev |]. intros d (? & ? & _). done.
  - intros other. apply delivered_ids_broadcast_exact.
Qed.

End Accepted.

(** "s2" joins the group room in which "s1" sits. *)
Lemma chat_join_accepted_witness :
  Room_findByCode (xss_text (slice0 6 (toUpperCase_ascii (trim "abc123"))))
    (db (connection "s2" joined_server)) = Some room_g
  /\ chat_join_expired utc (t0 + 1) room_g = false
  /\ sockets (chat_join xss_text stable_order toUpperCase_ascii utc (t0 + 1) "s2"
      (join_payload "abc123" "bob")
                (connection "s2" joined_server)) !! "s2"
     = Some (mkSession (Some "ABC123") (Some "bob") (Some 1)).
Proof.
  assert (Hf : Room_findByCode (xss_text (slice0 6 (toUpperCase_ascii (trim "abc123"))))
                 (db (connection "s2" joined_server)) = Some room_g) by reflexivity.
  assert (Hl : chat_join_expired utc (t0 + 1) room_g = false) by reflexivity.
  assert (Hs : is_Some (sockets (connection "s2" joined_server) !! "s2")).
  { exists (mkSession None None None). reflexivity. }
  assert (Hn : xss_text (slice0 32 (trim "bob")) <> "") by discriminate.
  split; [exact Hf |]. split; [exact Hl |].
  exact (proj1 (proj2 (proj2 (proj2
           (chat_join_accepted xss_text stable_order toUpperCase_ascii utc (t0 + 1) "s2"
              (join_payload "abc123" "bob") (connection "s2" joined_server)
              "abc123" "bob" room_g Hs eq_refl eq_refl eq_refl Hn Hf Hl eq_refl))))).
Defined.

(** "s1" sends one message to the group room. *)
Lemma chat_message_relayed_witness :
  sockets joined_server !! "s1" = Some (mkSession (Some "ABC123") (Some "alice") (Some 1))
  /\ Room_findByCode "ABC123" (db joined_server) = Some room_g
  /\ messages (db (chat_message xss_text (t0 + 5) "s1" (message_payload " TTE= " "aXYx")
                     joined_server))
     = (messages (db joined_server)
        ++ [mkMessage 1 1 "alice" "TTE=" "aXYx" t0_s])%list.
Proof.
  assert (Hs : sockets joined_server !! "s1"
               = Some (mkSession (Some "ABC123") (Some "alice") (Some 1)))
    by reflexivity.
  assert (Hf : Room_findByCode "ABC123" (db joined_server) = Some room_g) by reflexivity.
  split; [exact Hs |]. split; [exact Hf |].
  refine (proj1 (chat_message_relayed xss_text (t0 + 5) "s1"
                   (message_payload " TTE= " "aXYx") joined_server _ "ABC123" "alice"
                   " TTE= " "aXYx" 1 room_g Hs eq_refl eq_refl eq_refl eq_refl eq_refl
                   _ Hf eq_refl _ _ _)); vm_compute; discriminate.
Defined.

(** ** The participant map *)

Lemma leave_no_empty (code sid : string) (parts : gmap string (gset string)) :
  no_empty_entries parts -> no_empty_entries (leave code sid parts).
Proof.
  intros Hne c P. unfold leave.
  destruct (parts !! code) as [p|] eqn:Hp; [| apply Hne].
  case_bool_decide as Hsz.
  - rewrite lookup_delete. case_decide; [done | apply Hne].
  - rewrite lookup_insert. case_decide; [| apply Hne].
    intros [= <-] Hempty. apply Hsz. rewrite Hempty. apply size_empty.
Qed.

(** X18.  The participant map never binds a code to an empty set: that is
    kept by every step of the server, [disconnect] removing the entry
    together with its last socket. *)
Theorem roomParticipants_no_empty_entries (xss : string -> string)
    (order_by_sent_at : list Message -> list Message)
    (toUpperCase : string -> string) (LocalTZA : Z -> Z) (st st' : Server) :
  no_empty_entries (roomParticipants st) ->
  step xss order_by_sent_at toUpperCase LocalTZA st st' ->
  no_empty_entries (roomParticipants st').
Proof.
  intros Hne Hstep. destruct Hstep as [sid | now sid payload | now sid payload
                                     | now sid | rejects now].
  - done.
  - destruct (chat_join_registry xss order_by_sent_at toUpperCase LocalTZA
      now sid payload st) as [_ Hreg].
    destruct Hreg as [-> | (code & room & _ & _ & _ & ->)]; [done |].
    intros c P. rewrite lookup_insert. case_decide; [| apply Hne].
    intros [= <-] Hempty.
    assert (sid ∈ (∅ : gset string)); [| set_solver].
    rewrite <- Hempty. set_solver.
  - destruct (chat_message_cases xss now sid payload st) as [E | [E | H]];
      [by rewrite E .. |].
    destruct H as (? & ? & ? & ? & ? & ? & _ & _ & _ & _ & _ & _ & E). by rewrite E.
  - unfold disconnect.
    destruct (sockets st !! sid) as [sess|]; [| done].
    destruct (truthy (currentRoom sess)); [| done].
    by apply leave_no_empty.
  - unfold cleanup_tick. by rewrite sweep_loop_roomParticipants.
Qed.

(** Both sockets of the single room leave, one after the other. *)
Lemma roomParticipants_no_empty_entries_witness :
  no_empty_entries (roomParticipants full_single)
  /\ no_empty_entries (roomParticipants (disconnect (t0 + 9) "s1" full_single)).
Proof.
  assert (H : no_empty_entries (roomParticipants full_single)).
  { intros code P HP Hempty. subst P.
    assert (Hdom : code ∈ dom (roomParticipants full_single)).
    { apply elem_of_dom. by exists ∅. }
    assert (Hd : dom (roomParticipants full_single) = {["XYZ789"]}).
    { apply (bool_decide_unpack _). vm_compute. exact I. }
    rewrite Hd in Hdom. apply elem_of_singleton in Hdom. subst code.
    vm_compute in HP. discriminate HP. }
  split; [exact H |].
  exact (roomParticipants_no_empty_entries xss_text stable_order toUpperCase_ascii utc
           full_single _ H
           (step_disconnect xss_text stable_order toUpperCase_ascii utc full_single
              (t0 + 9) "s1")).
Defined.

Section JoinLeave.

Variable xss : string -> string.
Variable order_by_sent_at : list Message -> list Message.
Variable toUpperCase : string -> string.
Variable LocalTZA : Z -> Z.

(** X19.  Join and leave undo each other on the participant map: when a
    socket that is not yet registered under a code is accepted by
    [chat:join] for that code and then disconnects, the participant map is
    the one from before the join, and the socket has no session left. *)
Theorem chat_join_then_disconnect (now now' : Z) (sid code nick : string)
    (payload : gmap string jsval) (room : Room) (st : Server) :
  no_empty_entries (roomParticipants st) ->
  sid ∉ members (roomParticipants st) code ->
  code <> "" ->
  chat_join xss order_by_sent_at toUpperCase LocalTZA now sid payload st
  = join_accepted order_by_sent_at now sid code nick room st ->
  roomParticipants (disconnect now' sid (chat_join xss order_by_sent_at toUpperCase LocalTZA
      now sid payload st))
  = roomParticipants st
  /\ sockets (disconnect now' sid (chat_join xss order_by_sent_at toUpperCase LocalTZA
      now sid payload st))
     !! sid = None.
Proof.
  intros Hne Hnot Hcode ->. unfold disconnect, join_accepted.
  cbn [sockets roomParticipants currentRoom nickname].
  rewrite lookup_insert_eq. cbn [currentRoom truthy].
  apply String.eqb_neq in Hcode. rewrite Hcode.
  cbn [roomParticipants sockets]. split; [| by rewrite lookup_delete_eq].
  unfold leave. rewrite lookup_insert_eq.
  assert (Hrest : (members (roomParticipants st) code ∪ {[sid]}) ∖ {[sid]}
                  = members (roomParticipants st) code) by set_solver.
  rewrite Hrest. unfold members in *.
  destruct (roomParticipants st !! code) as [P|] eqn:HP; cbn [default] in *.
  - rewrite bool_decide_eq_false_2.
    + by rewrite insert_insert_eq, insert_id.
    + intros Hsz. apply size_empty_iff in Hsz.
      apply (Hne code P HP). by apply leibniz_equiv.
  - rewrite bool_decide_eq_true_2 by apply size_empty.
    rewrite delete_insert_eq. by apply delete_id.
Qed.

(** X20.  [disconnect] takes the socket out of the participants of its
    current room only.  A socket that is registered under one code, is
    accepted by [chat:join] for another code and then disconnects, is
    still registered under the first code afterwards, although it has no
    session any more. *)
Theorem disconnect_keeps_earlier_registration (now now' : Z)
    (sid codeA codeB nick : string) (payload : gmap string jsval) (room : Room)
    (st : Server) :
  sid ∈ members (roomParticipants st) codeA ->
  codeA <> codeB ->
  codeB <> "" ->
  chat_join xss order_by_sent_at toUpperCase LocalTZA now sid payload st
  = join_accepted order_by_sent_at now sid codeB nick room st ->
  sid ∈ members (roomParticipants
                   (disconnect now' sid
                      (chat_join xss order_by_sent_at toUpperCase LocalTZA
                          now sid payload st))) codeA
  /\ sockets (disconnect now' sid (chat_join xss order_by_sent_at toUpperCase LocalTZA
      now sid payload st))
     !! sid = None.
Proof.
  intros Hin Hab Hcode ->. unfold disconnect, join_accepted.
  cbn [sockets roomParticipants currentRoom nickname].
  rewrite lookup_insert_eq. cbn [currentRoom truthy].
  apply String.eqb_neq in Hcode. rewrite Hcode.
  cbn [roomParticipants sockets]. split; [| by rewrite lookup_delete_eq].
  unfold leave. rewrite lookup_insert_eq.
  unfold members in *. case_bool_decide.
  - rewrite lookup_delete_ne by done. by rewrite lookup_insert_ne by done.
  - rewrite lookup_insert_ne by done. by rewrite lookup_insert_ne by done.
Qed.

End JoinLeave.

(** "s2" joins the group room next to "s1" and leaves again. *)
Lemma chat_join_then_disconnect_witness :
  no_empty_entries (roomParticipants (connection "s2" joined_server))
  /\ "s2" ∉ members (roomParticipants (connection "s2" joined_server)) "ABC123"
  /\ roomParticipants
       (disconnect (t0 + 9) "s2"
          (chat_join xss_text stable_order toUpperCase_ascii utc (t0 + 1) "s2"
              (join_payload "abc123" "bob")
             (connection "s2" joined_server)))
     = roomParticipants (connection "s2" joined_server).
Proof.
  assert (Hne : no_empty_entries (roomParticipants (connection "s2" joined_server))).
  { intros code P HP Hempty. subst P.
    assert (Hdom : code ∈ dom (roomParticipants (connection "s2" joined_server))).
    { apply elem_of_dom. by exists ∅. }
    assert (Hd : dom (roomParticipants (connection "s2" joined_server)) = {["ABC123"]}).
    { apply (bool_decide_unpack _). vm_compute. exact I. }
    rewrite Hd in Hdom. apply elem_of_singleton in Hdom. subst code.
    vm_compute in HP. discriminate HP. }
  assert (Hnot : "s2" ∉ members (roomParticipants (connection "s2" joined_server)) "ABC123").
  { apply (bool_decide_unpack _). vm_compute. exact I. }
  assert (Hc : "ABC123" <> "") by discriminate.
  split; [exact Hne |]. split; [exact Hnot |].
  exact (proj1 (chat_join_then_disconnect xss_text stable_order toUpperCase_ascii utc
      (t0 + 1) (t0 + 9) "s2"
                  "ABC123" "bob" (join_payload "abc123" "bob") room_g
                  (connection "s2" joined_server) Hne Hnot Hc eq_refl)).
Defined.

(** "s1", in the group room, joins the single room as well and disconnects. *)
Lemma disconnect_keeps_earlier_registration_witness :
  "s1" ∈ members (roomParticipants joined_server) "ABC123"
  /\ "s1" ∈ members
       (roomParticipants
          (disconnect (t0 + 9) "s1"
             (chat_join xss_text stable_order toUpperCase_ascii utc (t0 + 1) "s1"
                 (join_payload "xyz789" "alice")
                joined_server))) "ABC123"
  /\ sockets (disconnect (t0 + 9) "s1"
                (chat_join xss_text stable_order toUpperCase_ascii utc (t0 + 1) "s1"
                   (join_payload "xyz789" "alice") joined_server)) !! "s1" = None.
Proof.
  assert (Hin : "s1" ∈ members (roomParticipants joined_server) "ABC123").
  { apply (bool_decide_unpack _). vm_compute. exact I. }
  assert (Hab : "ABC123" <> "XYZ789") by discriminate.
  assert (Hc : "XYZ789" <> "") by discriminate.
  split; [exact Hin |].
  exact (disconnect_keeps_earlier_registration xss_text stable_order toUpperCase_ascii utc
           (t0 + 1) (t0 + 9)
           "s1" "ABC123" "XYZ789" "alice" (join_payload "xyz789" "alice") room_s
           joined_server Hin Hab Hc eq_refl).
Defined.

(** ** The sweep and the rooms it does not concern *)

(** X21.  A sweep leaves every room alone that its query does not return:
    for a room of a well-formed store that is not expired at the instant
    of the tick, the row is still there afterwards, so are its messages,
    the sockets of its Socket.IO room are the same, and nobody is handed a
    [room:expired] event through it, whichever DELETEs are refused. *)
Theorem sweep_spares_live_rooms (rejects : Z -> bool) (now : Z) (st : Server)
    (room : Room) :
  ids_unique (db st) ->
  codes_unique (db st) ->
  room ∈ rooms (db st) ->
  expired_row now room = false ->
  room ∈ rooms (db (cleanup_tick rejects now st))
  /\ rows_of_room (room_id room) (db (cleanup_tick rejects now st))
     = rows_of_room (room_id room) (db st)
  /\ channels (cleanup_tick rejects now st) !! room_code room
     = channels st !! room_code room
  /\ exists ds : list Delivery,
       outbox (cleanup_tick rejects now st) = (outbox st ++ ds)%list
       /\ forall sid, notices_to (room_code room) sid ds = 0%nat.
Proof.
  intros Hi Hu Hin Hlive.
  assert (Hnot : forall x, x ∈ Room_findExpired now (db st) -> x ≠ room).
  { intros x Hx ->. unfold Room_findExpired in Hx.
    apply list_elem_of_filter in Hx as [Hx _]. congruence. }
  assert (Hid : room_id room ∉ room_id <$> Room_findExpired now (db st)).
  { intros Hx. apply list_elem_of_fmap in Hx as (x & Hid & Hx).
    apply (Hnot x Hx). apply (NoDup_fmap_elem_eq room_id (rooms (db st))); try done.
    by eapply Room_findExpired_subset. }
  assert (Hcode : room_code room ∉ room_code <$> Room_findExpired now (db st)).
  { intros Hx. apply list_elem_of_fmap in Hx as (x & Hc & Hx).
    apply (Hnot x Hx). apply (NoDup_fmap_elem_eq room_code (rooms (db st))); try done.
    by eapply Room_findExpired_subset. }
  unfold cleanup_tick.
  destruct (sweep_loop_untouched rejects (Room_findExpired now (db st)) st room Hid Hcode)
    as (Hrooms & Hrows & Hchan & Hout).
  split; [by apply Hrooms |]. done.
Qed.

(** The single room holds on while the group room is swept. *)
Lemma sweep_spares_live_rooms_witness :
  expired_row (t0 + 600000) (mkRoom 2 "XYZ789" single t0_s (t0_s + 900) true) = false
  /\ mkRoom 2 "XYZ789" single t0_s (t0_s + 900) true
     ∈ rooms (db (cleanup_tick no_rejects (t0 + 600000)
                    (empty_server
                       (mkStore [room_g; mkRoom 2 "XYZ789" single t0_s (t0_s + 900) true]
                          [] 3 1)))).
Proof.
  assert (Hl : expired_row (t0 + 600000)
                 (mkRoom 2 "XYZ789" single t0_s (t0_s + 900) true) = false)
    by reflexivity.
  assert (Hi : ids_unique
                 (mkStore [room_g; mkRoom 2 "XYZ789" single t0_s (t0_s + 900) true] [] 3 1)).
  { apply (bool_decide_unpack _). vm_compute. exact I. }
  assert (Hu : codes_unique
                 (mkStore [room_g; mkRoom 2 "XYZ789" single t0_s (t0_s + 900) true] [] 3 1)).
  { apply (bool_decide_unpack _). vm_compute. exact I. }
  assert (Hin : mkRoom 2 "XYZ789" single t0_s (t0_s + 900) true
                ∈ [room_g; mkRoom 2 "XYZ789" single t0_s (t0_s + 900) true]).
  { apply elem_of_cons. right. apply elem_of_cons. by left. }
  split; [exact Hl |].
  exact (proj1 (sweep_spares_live_rooms no_rejects (t0 + 600000)
                  (empty_server
                     (mkStore [room_g; mkRoom 2 "XYZ789" single t0_s (t0_s + 900) true]
                        [] 3 1))
                  _ Hi Hu Hin Hl)).
Defined.

(** X22.  After a sweep in which no DELETE is refused, the store holds no
    active room whose expiry has passed at the instant of the tick, a
    second tick at that instant changes nothing, and, the codes being
    unique, no active room carries the code of a room the sweep has
    deleted. *)
Theorem sweep_leaves_nothing_expired (rejects rejects' : Z -> bool) (now : Z)
    (st : Server) :
  codes_unique (db st) ->
  (forall r, r ∈ rooms (db st) -> rejects (room_id r) = false) ->
  Room_findExpired now (db (cleanup_tick rejects now st)) = []
  /\ cleanup_tick rejects' now (cleanup_tick rejects now st) = cleanup_tick rejects now st
  /\ (forall room, room ∈ Room_findExpired now (db st) ->
        Room_findByCode (room_code room) (db (cleanup_tick rejects now st)) = None).
Proof.
  intros Hu Hok.
  assert (Hdb : forall r, r ∈ rooms (db (cleanup_tick rejects now st)) <->
                  r ∈ rooms (db st)
                  /\ room_id r ∉ room_id <$> Room_findExpired now (db st)).
  { intros r. unfold cleanup_tick. rewrite sweep_loop_completes
      by (intros x Hx; apply Hok; by eapply Room_findExpired_subset).
    cbn [db]. apply fold_delete_rooms. }
  assert (Hnone : Room_findExpired now (db (cleanup_tick rejects now st)) = []).
  { apply elem_of_nil_inv. intros r Hr. unfold Room_findExpired in Hr.
    apply list_elem_of_filter in Hr as [Hexp Hr]. apply Hdb in Hr as [Hr Hid].
    apply Hid, list_elem_of_fmap. exists r. split; [done |].
    unfold Room_findExpired. by apply list_elem_of_filter. }
  split; [exact Hnone |]. split.
  - unfold cleanup_tick at 1. by rewrite Hnone.
  - intros room Hroom.
    destruct (Room_findByCode _ _) as [r|] eqn:Hf; [| done].
    apply Room_findByCode_Some in Hf as (Hin & Hc & _).
    apply Hdb in Hin as [Hin Hid].
    assert (r = room).
    { apply (NoDup_fmap_elem_eq room_code (rooms (db st))); try done.
      by eapply Room_findExpired_subset. }
    subst r. exfalso. apply Hid, list_elem_of_fmap. by exists room.
Qed.

Lemma sweep_leaves_nothing_expired_witness :
  codes_unique (db full_single)
  /\ Room_findExpired (t0 + 600000)
       (db (cleanup_tick no_rejects (t0 + 600000) full_single)) = [].
Proof.
  assert (Hu : codes_unique (db full_single)).
  { apply (bool_decide_unpack _). vm_compute. exact I. }
  split; [exact Hu |].
  exact (proj1 (sweep_leaves_nothing_expired no_rejects no_rejects (t0 + 600000)
                  full_single Hu (fun _ _ => eq_refl))).
Defined.

(** * The client: encoding, encryption, countdown *)

(** ** The base64 helpers of the client *)

Lemma string_ind3 (P : string -> Prop) :
  P "" ->
  (forall a, P (String a "")) ->
  (forall a b, P (String a (String b ""))) ->
  (forall a b c rest, P rest -> P (String a (String b (String c rest)))) ->
  forall s, P s.
Proof.
  intros H0 H1 H2 H3. fix IH 1.
  intros [|a [|b [|c rest]]]; [exact H0 | apply H1 | apply H2 | apply H3, IH].
Qed.

Lemma char_code_range (c : ascii) : 0 <= char_code c < 256.
Proof.
  unfold char_code. pose proof (N_ascii_bounded c). lia.
Qed.

Lemma char_of_code_code (c : ascii) : char_of_code (char_code c) = c.
Proof.
  unfold char_of_code, char_code. rewrite N2Z.id. apply ascii_N_embedding.
Qed.


Lemma sextet_char_of (n : Z) :
  0 <= n < 64 -> sextet_of (sextet_char n) = Some n.
Proof.
  intros Hn. replace n with (Z.of_nat (Z.to_nat n)) by lia.
  assert (Hlt : (Z.to_nat n < 64)%nat) by lia.
  revert Hlt. generalize (Z.to_nat n). intros k Hk.
  do 64 (destruct k as [|k]; [reflexivity |]). lia.
Qed.

Lemma b64_char_plain (c : ascii) :
  is_b64_char c = true ->
  is_ascii_whitespace c = false
  /\ Ascii.eqb c pad_char = false
  /\ Ascii.eqb (if Ascii.eqb (if Ascii.eqb c "+" then "-"%char else c) "/"
                then "_"%char else (if Ascii.eqb c "+" then "-"%char else c)) "=" = false
  /\ (let u := if Ascii.eqb (if Ascii.eqb c "+" then "-"%char else c) "/"
               then "_"%char else (if Ascii.eqb c "+" then "-"%char else c) in
      let v := if Ascii.eqb u "-" then "+"%char else u in
      (if Ascii.eqb v "_" then "/"%char else v) = c).
Proof.
  destruct c as [[] [] [] [] [] [] [] []]; vm_compute; intros H;
    first [discriminate H | repeat split].
Qed.

Lemma btoa_chars (s : string) :
  list_ascii_of_string (btoa s)
  = (map sextet_char (sextets s) ++ repeat pad_char (padding s))%list.
Proof.
  induction s as [| a | a b | a b c rest IH] using string_ind3; try reflexivity.
  cbn [btoa sextets padding list_ascii_of_string map app]. by rewrite IH.
Qed.

Lemma sextets_range (s : string) : Forall (fun n => 0 <= n < 64) (sextets s).
Proof.
  induction s as [| a | a b | a b c rest IH] using string_ind3;
    cbn [sextets]; repeat constructor;
    repeat match goal with
           | |- context [char_code ?c] =>
               let H := fresh in pose proof (char_code_range c) as H;
               generalize dependent (char_code c); intros
           end;
    try (Z.div_mod_to_equations; lia).
  exact IH.
Qed.

Lemma sextets_length (s : string) :
  exists k : nat,
    (padding s = 0 /\ length (sextets s) = 4 * k)%nat
    \/ (padding s = 1 /\ length (sextets s) = 4 * k + 3)%nat
    \/ (padding s = 2 /\ length (sextets s) = 4 * k + 2)%nat.
Proof.
  induction s as [| a | a b | a b c rest IH] using string_ind3.
  - exists 0%nat. by left.
  - exists 0%nat. right. by right.
  - exists 0%nat. right. by left.
  - destruct IH as [k IH]. exists (S k). cbn [padding sextets length]. lia.
Qed.

Lemma decode_sextets_sextets (s : string) : decode_sextets (sextets s) = s.
Proof.
  assert (Hc : forall c n, n = char_code c -> char_of_code n = c).
  { intros c n ->. apply char_of_code_code. }
  induction s as [| a | a b | a b c rest IH] using string_ind3;
    cbn [sextets decode_sextets]; [done | ..];
    rewrite ?IH; repeat f_equal; apply Hc;
    repeat match goal with
           | |- context [char_code ?c] =>
               let H := fresh in pose proof (char_code_range c) as H;
               generalize dependent (char_code c); intros
           end;
    Z.div_mod_to_equations; lia.
Qed.

Lemma sextets_of_chars (l : list Z) :
  Forall (fun n => 0 <= n < 64) l -> sextets_of (map sextet_char l) = Some l.
Proof.
  induction 1 as [|n l Hn Hl IH]; [done |].
  cbn [map sextets_of]. by rewrite (sextet_char_of n Hn), IH.
Qed.

Lemma sextet_char_b64 (n : Z) : 0 <= n < 64 -> is_b64_char (sextet_char n) = true.
Proof. intros Hn. unfold is_b64_char. by rewrite sextet_char_of. Qed.

Lemma filter_whitespace_b64 (l : list ascii) :
  Forall (fun c => is_b64_char c = true \/ c = pad_char) l ->
  List.filter (fun c => negb (is_ascii_whitespace c)) l = l.
Proof.
  induction 1 as [|c l Hc Hl IH]; [done |].
  cbn [List.filter].
  assert (is_ascii_whitespace c = false) as ->.
  { destruct Hc as [Hc | ->]; [by apply b64_char_plain in Hc as [? _] | reflexivity]. }
  cbn [negb]. by rewrite IH.
Qed.

Lemma strip_padding_chars (cs : list ascii) (p : nat) :
  Forall (fun c => is_b64_char c = true) cs ->
  (exists k : nat,
      (p = 0 /\ length cs = 4 * k)%nat
      \/ (p = 1 /\ length cs = 4 * k + 3)%nat
      \/ (p = 2 /\ length cs = 4 * k + 2)%nat) ->
  strip_padding (cs ++ repeat pad_char p) = cs.
Proof.
  intros Hcs [k Hlen]. unfold strip_padding.
  assert (Hmod : Z.of_nat (length (cs ++ repeat pad_char p)) mod 4 = 0).
  { rewrite length_app, repeat_length.
    destruct Hlen as [[-> ->] | [[-> ->] | [-> ->]]]; Z.div_mod_to_equations; lia. }
  rewrite Hmod. cbn [Z.eqb]. rewrite rev_app_distr.
  assert (Hrev : Forall (fun c => is_b64_char c = true) (rev cs)).
  { apply Forall_forall. intros c Hc. rewrite Forall_forall in Hcs.
    apply Hcs. by apply list_elem_of_In, in_rev, list_elem_of_In. }
  assert (Hhead : forall x r, rev cs = x :: r -> Ascii.eqb x pad_char = false).
  { intros x r E. rewrite E in Hrev. inversion Hrev as [|? ? Hx _]; subst.
    by apply b64_char_plain in Hx as (_ & ? & _). }
  destruct Hlen as [[-> Hl] | [[-> Hl] | [-> Hl]]]; cbn [repeat rev app].
  - rewrite app_nil_r.
    destruct (rev cs) as [|x [|y r]] eqn:E.
    + done.
    + by rewrite (Hhead x [] eq_refl).
    + by rewrite (Hhead x (y :: r) eq_refl).
  - destruct (rev cs) as [|x r] eqn:E.
    + apply (f_equal (@length ascii)) in E. rewrite length_rev in E. simpl in E. lia.
    + cbn [app]. rewrite (Hhead x r eq_refl). cbn [Ascii.eqb]. unfold pad_char.
      rewrite Ascii.eqb_refl. rewrite <- (rev_involutive cs), E. reflexivity.
  - cbn [app]. unfold pad_char at 1 2. rewrite !Ascii.eqb_refl. apply rev_involutive.
Qed.

Lemma atob_btoa (s : string) : atob (btoa s) = Some s.
Proof.
  unfold atob. rewrite btoa_chars.
  pose proof (sextets_range s) as Hr.
  assert (Hb : Forall (fun c => is_b64_char c = true) (map sextet_char (sextets s))).
  { apply Forall_forall. intros c Hc. apply list_elem_of_In, in_map_iff in Hc.
    destruct Hc as (n & <- & Hn). apply sextet_char_b64.
    rewrite Forall_forall in Hr. by apply Hr, list_elem_of_In. }
  rewrite filter_whitespace_b64.
  2:{ apply Forall_app. split.
      - eapply Forall_impl; [exact Hb |]. intros; by left.
      - apply Forall_forall. intros c Hc. right.
        by apply list_elem_of_In, repeat_spec in Hc. }
  assert (Hlen := sextets_length s).
  rewrite strip_padding_chars.
  2: exact Hb.
  2:{ destruct Hlen as [k Hk]. exists k. by rewrite length_map. }
  rewrite length_map.
  assert (Hne : (Z.of_nat (length (sextets s)) mod 4 =? 1) = false).
  { apply Z.eqb_neq. destruct Hlen as [k [[_ ->] | [[_ ->] | [_ ->]]]];
      Z.div_mod_to_equations; lia. }
  rewrite Hne, (sextets_of_chars _ Hr). by rewrite decode_sextets_sextets.
Qed.

Lemma base64ToBuffer_bufferToBase64 (buffer : list Byte.byte) :
  base64ToBuffer (bufferToBase64 buffer) = Some buffer.
Proof.
  unfold base64ToBuffer, bufferToBase64. rewrite atob_btoa.
  by rewrite list_byte_of_string_of_list_byte.
Qed.


Lemma b64_char_url (c : ascii) :
  is_b64_char c = true ->
  is_b64url_char (if Ascii.eqb (if Ascii.eqb c "+" then "-"%char else c) "/"
                  then "_"%char else (if Ascii.eqb c "+" then "-"%char else c)) = true.
Proof.
  destruct c as [[] [] [] [] [] [] [] []]; vm_compute; intros H;
    first [discriminate H | reflexivity].
Qed.

Lemma replace_char_chars (x y : ascii) (s : string) :
  list_ascii_of_string (replace_char x y s)
  = map (fun c => if Ascii.eqb c x then y else c) (list_ascii_of_string s).
Proof. induction s as [|c s IH]; [done |]. cbn. by rewrite IH. Qed.

Lemma remove_char_chars (x : ascii) (s : string) :
  list_ascii_of_string (remove_char x s)
  = List.filter (fun c => negb (Ascii.eqb c x)) (list_ascii_of_string s).
Proof.
  induction s as [|c s IH]; [done |]. cbn.
  destruct (Ascii.eqb c x); cbn; by rewrite IH.
Qed.

Lemma append_chars (s1 s2 : string) :
  list_ascii_of_string (s1 ++ s2)
  = (list_ascii_of_string s1 ++ list_ascii_of_string s2)%list.
Proof.
  induction s1 as [|c s1 IH]; [done |].
  change (c :: list_ascii_of_string (s1 ++ s2)
          = c :: (list_ascii_of_string s1 ++ list_ascii_of_string s2)%list).
  by rewrite IH.
Qed.

Lemma repeat_pad_chars (n : nat) :
  list_ascii_of_string (repeat_pad n) = repeat pad_char n.
Proof. induction n as [|n IH]; [done |]. cbn. by rewrite IH. Qed.

Lemma length_chars (s : string) : length (list_ascii_of_string s) = String.length s.
Proof. induction s as [|c s IH]; [done |]. cbn. by rewrite IH. Qed.

Lemma chars_inj (s1 s2 : string) :
  list_ascii_of_string s1 = list_ascii_of_string s2 -> s1 = s2.
Proof.
  intros E. rewrite <- (string_of_list_ascii_of_string s1),
              <- (string_of_list_ascii_of_string s2). by rewrite E.
Qed.

(** The characters of the URL-safe form: those of [btoa] with ["+"] and
    ["/"] exchanged for ["-"] and ["_"], the padding gone. *)
Lemma base64url_chars (buffer : list Byte.byte) :
  list_ascii_of_string (bufferToBase64url buffer)
  = map (fun c => if Ascii.eqb (if Ascii.eqb c "+" then "-"%char else c) "/"
                  then "_"%char else (if Ascii.eqb c "+" then "-"%char else c))
        (map sextet_char (sextets (string_of_list_byte buffer))).
Proof.
  unfold bufferToBase64url, bufferToBase64.
  rewrite remove_char_chars, !replace_char_chars, btoa_chars, !map_app, List.filter_app.
  pose proof (sextets_range (string_of_list_byte buffer)) as Hr.
  rewrite map_map.
  match goal with |- (?a ++ ?b)%list = _ => assert (Hb : b = []) end.
  { induction (padding _) as [|n IH]; [done |]. cbn. exact IH. }
  rewrite Hb, app_nil_r, map_map.
  induction Hr as [|n l Hn Hl IH]; [done |].
  cbn [map List.filter].
  destruct (b64_char_plain _ (sextet_char_b64 n Hn)) as (_ & _ & -> & _).
  cbn [negb]. by rewrite IH.
Qed.

Lemma length_sextets (s : string) :
  Z.of_nat (length (sextets s)) = (4 * Z.of_nat (String.length s) + 2) / 3.
Proof.
  induction s as [| a | a b | a b c rest IH] using string_ind3; try reflexivity.
  cbn [sextets length String.length].
  rewrite !Nat2Z.inj_succ, IH. Z.div_mod_to_equations. lia.
Qed.

Lemma length_string_of_list_byte (l : list Byte.byte) :
  String.length (string_of_list_byte l) = length l.
Proof.
  induction l as [|b l IH]; [done |].
  change (S (String.length (string_of_list_byte l)) = S (length l)).
  by rewrite IH.
Qed.

Lemma base64urlToBuffer_bufferToBase64url (buffer : list Byte.byte) :
  base64urlToBuffer (bufferToBase64url buffer) = Some buffer.
Proof.
  pose proof (base64url_chars buffer) as Hurl.
  pose proof (sextets_range (string_of_list_byte buffer)) as Hr.
  unfold base64urlToBuffer.
  assert (Hback : list_ascii_of_string
                    (replace_char "_" "/" (replace_char "-" "+" (bufferToBase64url buffer)))
                  = map sextet_char (sextets (string_of_list_byte buffer))).
  { rewrite !replace_char_chars, Hurl, !map_map. clear Hurl.
    induction Hr as [|n l Hn Hl IH]; [done |].
    cbn [map]. rewrite IH. f_equal.
    by destruct (b64_char_plain _ (sextet_char_b64 n Hn)) as (_ & _ & _ & ?). }
  assert (Hlen : String.length
                   (replace_char "_" "/" (replace_char "-" "+" (bufferToBase64url buffer)))
                 = length (sextets (string_of_list_byte buffer))).
  { by rewrite <- length_chars, Hback, length_map. }
  rewrite Hlen.
  assert (Hpad : Z.to_nat ((4 - Z.of_nat (length (sextets (string_of_list_byte buffer)))
                                mod 4) mod 4)
                 = padding (string_of_list_byte buffer)).
  { destruct (sextets_length (string_of_list_byte buffer))
      as [k [[-> ->] | [[-> ->] | [-> ->]]]];
      apply Nat2Z.inj; rewrite Z2Nat.id by (Z.div_mod_to_equations; lia);
      Z.div_mod_to_equations; lia. }
  rewrite Hpad.
  assert (E : replace_char "_" "/" (replace_char "-" "+" (bufferToBase64url buffer))
              ++ repeat_pad (padding (string_of_list_byte buffer))
              = bufferToBase64 buffer).
  { apply chars_inj. unfold bufferToBase64.
    by rewrite append_chars, Hback, repeat_pad_chars, btoa_chars. }
  rewrite E. apply base64ToBuffer_bufferToBase64.
Qed.

Lemma all_chars_Forall (p : ascii -> bool) (s : string) :
  all_chars p s = true <-> Forall (fun c => p c = true) (list_ascii_of_string s).
Proof.
  induction s as [|c s IH]; cbn [all_chars list_ascii_of_string].
  - split; [constructor | done].
  - rewrite andb_true_iff, IH. split.
    + intros [Hc Hs]. by constructor.
    + intros H. inversion H; subst. done.
Qed.

Lemma base64_chars (buffer : list Byte.byte) :
  all_chars (fun c => is_b64_char c || Ascii.eqb c pad_char) (bufferToBase64 buffer) = true.
Proof.
  apply all_chars_Forall. unfold bufferToBase64. rewrite btoa_chars.
  pose proof (sextets_range (string_of_list_byte buffer)) as Hr.
  apply Forall_app. split.
  - apply Forall_forall. intros c Hc. apply list_elem_of_In, in_map_iff in Hc.
    destruct Hc as (n & <- & Hn). rewrite sextet_char_b64; [done |].
    rewrite Forall_forall in Hr. by apply Hr, list_elem_of_In.
  - apply Forall_forall. intros c Hc. apply list_elem_of_In, repeat_spec in Hc.
    subst c. apply orb_true_r.
Qed.

Lemma length_btoa (s : string) :
  Z.of_nat (String.length (btoa s)) = 4 * ((Z.of_nat (String.length s) + 2) / 3).
Proof.
  induction s as [| a | a b | a b c rest IH] using string_ind3; try reflexivity.
  cbn [btoa String.length]. rewrite !Nat2Z.inj_succ, IH.
  Z.div_mod_to_equations. lia.
Qed.

Lemma length_bufferToBase64 (buffer : list Byte.byte) :
  Z.of_nat (String.length (bufferToBase64 buffer))
  = 4 * ((Z.of_nat (length buffer) + 2) / 3).
Proof.
  unfold bufferToBase64. by rewrite length_btoa, length_string_of_list_byte.
Qed.

(** X23.  The two base64 helpers of the client undo each other: decoding
    what [bufferToBase64] made of a buffer never throws and gives the
    buffer back; the text has four characters for every three bytes
    begun, all from the base64 alphabet or ["="]. *)
Theorem base64_round_trip (buffer : list Byte.byte) :
  base64ToBuffer (bufferToBase64 buffer) = Some buffer
  /\ Z.of_nat (String.length (bufferToBase64 buffer))
     = 4 * ((Z.of_nat (length buffer) + 2) / 3)
  /\ all_chars (fun c => is_b64_char c || Ascii.eqb c pad_char) (bufferToBase64 buffer)
     = true.
Proof.
  split; [apply base64ToBuffer_bufferToBase64 |].
  split; [apply length_bufferToBase64 | apply base64_chars].
Qed.

(** X24.  The URL-safe helpers undo each other as well:
    [base64urlToBuffer] restores the padding [bufferToBase64url] has
    removed and gives the buffer back; the text consists of letters,
    digits, ["-"] and ["_"] only, so none of ["+"], ["/"] and ["="] is
    left in it, and it has one character for every six bits begun. *)
Theorem base64url_round_trip (buffer : list Byte.byte) :
  base64urlToBuffer (bufferToBase64url buffer) = Some buffer
  /\ all_chars is_b64url_char (bufferToBase64url buffer) = true
  /\ Z.of_nat (String.length (bufferToBase64url buffer))
     = (4 * Z.of_nat (length buffer) + 2) / 3.
Proof.
  pose proof (base64url_chars buffer) as Hurl.
  pose proof (sextets_range (string_of_list_byte buffer)) as Hr.
  split; [apply base64urlToBuffer_bufferToBase64url |]. split.
  - apply all_chars_Forall. rewrite Hurl. apply Forall_forall. intros c Hc.
    apply list_elem_of_In, in_map_iff in Hc as (x & <- & Hx).
    apply in_map_iff in Hx as (n & <- & Hn).
    apply b64_char_url, sextet_char_b64.
    rewrite Forall_forall in Hr. by apply Hr, list_elem_of_In.
  - rewrite <- length_chars, Hurl, !length_map, length_sextets.
    by rewrite length_string_of_list_byte.
Qed.

(** ** Ciphertext on its way through the server *)

Lemma trim_no_space (s : string) :
  all_chars (fun c => negb (is_space c)) s = true -> trim s = s.
Proof.
  unfold trim. induction s as [|c s IH]; [done |].
  cbn [all_chars]. intros H. apply andb_true_iff in H as [Hc Hs].
  apply negb_true_iff in Hc. specialize (IH Hs).
  cbn [trimStart]. rewrite Hc. cbn [trimEnd].
  assert (Hend : trimEnd s = s).
  { destruct s as [|c' s']; [done |].
    cbn [all_chars] in Hs. apply andb_true_iff in Hs as [Hc' _].
    apply negb_true_iff in Hc'. cbn [trimStart] in IH. by rewrite Hc' in IH. }
  rewrite Hend. destruct s; [by rewrite Hc | done].
Qed.

Lemma b64_char_no_space (c : ascii) :
  is_b64_char c || Ascii.eqb c pad_char = true -> is_space c = false.
Proof.
  destruct c as [[] [] [] [] [] [] [] []]; vm_compute; intros H;
    first [discriminate H | reflexivity].
Qed.

(** [String.prototype.trim] leaves base64 text as it is. *)
Lemma trim_bufferToBase64 (buffer : list Byte.byte) :
  trim (bufferToBase64 buffer) = bufferToBase64 buffer.
Proof.
  apply trim_no_space, all_chars_Forall.
  pose proof (proj1 (all_chars_Forall _ _) (base64_chars buffer)) as H.
  eapply Forall_impl; [exact H |]. intros c Hc. cbn beta in Hc |- *.
  by rewrite (b64_char_no_space c Hc).
Qed.


Lemma utf8_length_ascii (s : string) :
  all_chars (fun c => Z.of_N (N_of_ascii c) <? 128) s = true ->
  utf8_length s = Z.of_nat (String.length s).
Proof.
  induction s as [|c s IH]; [done |].
  cbn [all_chars String.length utf8_length]. intros H.
  apply andb_true_iff in H as [Hc Hs]. rewrite Hc, (IH Hs). lia.
Qed.

Lemma b64_char_ascii (c : ascii) :
  is_b64_char c || Ascii.eqb c pad_char = true -> (Z.of_N (N_of_ascii c) <? 128) = true.
Proof.
  destruct c as [[] [] [] [] [] [] [] []]; vm_compute; intros H;
    first [discriminate H | reflexivity].
Qed.

(** Base64 text takes one byte per character. *)
Lemma utf8_length_bufferToBase64 (buffer : list Byte.byte) :
  utf8_length (bufferToBase64 buffer) = Z.of_nat (String.length (bufferToBase64 buffer)).
Proof.
  apply utf8_length_ascii, all_chars_Forall.
  pose proof (proj1 (all_chars_Forall _ _) (base64_chars buffer)) as H.
  eapply Forall_impl; [exact H |]. intros c Hc. by apply b64_char_ascii.
Qed.

Lemma bufferToBase64_nonempty (buffer : list Byte.byte) :
  buffer <> [] -> String.eqb (bufferToBase64 buffer) "" = false.
Proof.
  intros Hne. apply String.eqb_neq. intros E.
  pose proof (length_bufferToBase64 buffer) as Hlen. rewrite E in Hlen.
  destruct buffer as [|b l]; [done |]. cbn [length String.length] in Hlen.
  rewrite Nat2Z.inj_succ in Hlen. Z.div_mod_to_equations. lia.
Qed.

Lemma decrypt_bufferToBase64 `{Platform} (key : CryptoKey)
    (cipherBuf iv : list Byte.byte) :
  decrypt key (bufferToBase64 cipherBuf) (bufferToBase64 iv)
  = match subtle_decrypt key iv cipherBuf with
    | Some plainBuf => Some (TextDecoder_decode plainBuf)
    | None => None
    end.
Proof.
  unfold decrypt. by rewrite !base64ToBuffer_bufferToBase64.
Qed.

(** X25.  What [encrypt] returns, [decrypt] reads back: when the
    platform's AES-GCM decrypts what it has encrypted under the key and
    the iv, and its UTF-8 decoder reads back what its encoder wrote, the
    two base64 texts of [encrypt] decrypt to the plaintext, without a
    throw. *)
Theorem decrypt_encrypt `{Platform} (key : CryptoKey) (iv : list Byte.byte)
    (plaintext : string) :
  subtle_decrypt key iv (subtle_encrypt key iv (TextEncoder_encode plaintext))
  = Some (TextEncoder_encode plaintext) ->
  TextDecoder_decode (TextEncoder_encode plaintext) = plaintext ->
  decrypt key (encrypt iv key plaintext).1 (encrypt iv key plaintext).2 = Some plaintext.
Proof.
  intros Hdec Hutf. unfold encrypt. cbn [fst snd].
  by rewrite decrypt_bufferToBase64, Hdec, Hutf.
Qed.

Lemma decrypt_encrypt_witness :
  decrypt sample_key (encrypt sample_iv sample_key "hello").1
    (encrypt sample_iv sample_key "hello").2 = Some "hello".
Proof.
  apply (@decrypt_encrypt sample_platform sample_key sample_iv "hello"); reflexivity.
Defined.

(** X26.  The key travels in the link unharmed: [importKey], given the
    text [generateKey] puts behind the ["#"], hands the platform exactly
    the raw bytes [generateKey] exported.  For a key of 256 bits that text
    has 43 characters, all of them letters, digits, ["-"] or ["_"]. *)
Theorem importKey_generateKey `{Platform} (cryptoKey : CryptoKey) :
  length (subtle_exportKey cryptoKey) = 32%nat ->
  (generateKey cryptoKey).1 = cryptoKey
  /\ importKey (generateKey cryptoKey).2 = subtle_importKey (subtle_exportKey cryptoKey)
  /\ String.length (generateKey cryptoKey).2 = 43%nat
  /\ all_chars is_b64url_char (generateKey cryptoKey).2 = true.
Proof.
  intros Hlen. unfold generateKey, importKey. cbn [fst snd].
  rewrite base64urlToBuffer_bufferToBase64url.
  split; [done |]. split; [done |].
  pose proof (base64url_chars (subtle_exportKey cryptoKey)) as Hurl.
  pose proof (sextets_range (string_of_list_byte (subtle_exportKey cryptoKey))) as Hr.
  split.
  - apply Nat2Z.inj. rewrite <- length_chars, Hurl, !length_map, length_sextets.
    rewrite length_string_of_list_byte, Hlen. reflexivity.
  - apply all_chars_Forall. rewrite Hurl. apply Forall_forall. intros c Hc.
    apply list_elem_of_In, in_map_iff in Hc as (x & <- & Hx).
    apply in_map_iff in Hx as (n & <- & Hn).
    apply b64_char_url, sextet_char_b64.
    rewrite Forall_forall in Hr. by apply Hr, list_elem_of_In.
Qed.

Lemma importKey_generateKey_witness :
  importKey (generateKey sample_key).2 = Some sample_key.
Proof.
  exact (proj1 (proj2 (@importKey_generateKey sample_platform sample_key eq_refl))).
Defined.

(** X27.  A message typed on one client is read on the others.  The text
    of the message box, trimmed and not empty, is encrypted by
    [sendMessage] and handed to [chat:message] by a socket with a room, a
    nickname and a room id of an existing row, while an active room has
    the session's code; the iv has twelve bytes, the ciphertext at most
    49149, and the [xss] filter leaves the two base64 texts as they are.
    Then the server's trimming changes nothing, the row it stores and the
    event it hands to each socket of the Socket.IO room carry a content
    and an iv that [decrypt] turns back into the trimmed text, under the
    assumptions of X25 on the platform. *)
Theorem sent_message_decrypts `{Platform} (xss : string -> string) (now : Z)
    (sid : string) (st : Server) (sess : Session) (code nick : string) (rid : Z)
    (room : Room) (key : CryptoKey) (iv : list Byte.byte) (input : string) :
  sockets st !! sid = Some sess ->
  truthy (currentRoom sess) = Some code ->
  truthy (nickname sess) = Some nick ->
  roomId sess = Some rid ->
  Room_findByCode code (db st) = Some room ->
  existsb (fun r => room_id r =? rid) (rooms (db st)) = true ->
  Z.of_nat (String.length nick) <= 32 ->
  trim input <> "" ->
  length iv = 12%nat ->
  0 < Z.of_nat (length (subtle_encrypt key iv (TextEncoder_encode (trim input))))
    <= 49149 ->
  xss (bufferToBase64 (subtle_encrypt key iv (TextEncoder_encode (trim input))))
  = bufferToBase64 (subtle_encrypt key iv (TextEncoder_encode (trim input))) ->
  xss (bufferToBase64 iv) = bufferToBase64 iv ->
  subtle_decrypt key iv (subtle_encrypt key iv (TextEncoder_encode (trim input)))
  = Some (TextEncoder_encode (trim input)) ->
  TextDecoder_decode (TextEncoder_encode (trim input)) = trim input ->
  exists payload,
    sendMessage true (Some key) iv input = Some payload
    /\ (exists m,
          messages (db (chat_message xss now sid payload st))
          = (messages (db st) ++ [m])%list
          /\ msg_nickname m = nick
          /\ decrypt key (msg_content m) (msg_iv m) = Some (trim input))
    /\ exists ds : list Delivery,
         outbox (chat_message xss now sid payload st) = (outbox st ++ ds)%list
         /\ Forall (fun d => exists content iv',
                              ev d = ChatMessage (next_msg_id (db st)) nick content iv' now
                              /\ decrypt key content iv' = Some (trim input)) ds
         /\ forall other,
              other ∈ members (channels st) code ->
              delivered_ids other ds = [next_msg_id (db st)].
Proof.
  intros Hs Hc Hn Hr Hfind Hfk Hw1 Htext Hiv Hlen Hx1 Hx2 Hdec Hutf.
  set (cipherBuf := subtle_encrypt key iv (TextEncoder_encode (trim input))) in *.
  assert (Hread : decrypt key (bufferToBase64 cipherBuf) (bufferToBase64 iv)
                  = Some (trim input)).
  { by rewrite decrypt_bufferToBase64, Hdec, Hutf. }
  eexists. split.
  { unfold sendMessage. apply String.eqb_neq in Htext. rewrite Htext.
    cbn [orb negb encrypt]. reflexivity. }
  fold cipherBuf.
  assert (Hcontent : as_nonempty_string
                       (field (obj [("content", JString (bufferToBase64 cipherBuf));
                                    ("iv", JString (bufferToBase64 iv))]) "content")
                     = Some (bufferToBase64 cipherBuf)).
  { unfold field, obj. cbn [list_to_map foldr fst snd].
    rewrite lookup_insert_eq. cbn [from_option id as_nonempty_string].
    rewrite bufferToBase64_nonempty; [done |].
    intros E. rewrite E in Hlen. cbn in Hlen. lia. }
  assert (Hivf : as_nonempty_string
                   (field (obj [("content", JString (bufferToBase64 cipherBuf));
                                ("iv", JString (bufferToBase64 iv))]) "iv")
                 = Some (bufferToBase64 iv)).
  { unfold field, obj. cbn [list_to_map foldr fst snd].
    rewrite lookup_insert_ne by done. rewrite lookup_insert_eq.
    cbn [from_option id as_nonempty_string].
    rewrite bufferToBase64_nonempty; [done |].
    intros E. by rewrite E in Hiv. }
  pose proof (length_bufferToBase64 cipherBuf) as Hl1.
  pose proof (length_bufferToBase64 iv) as Hl2.
  unfold chat_message. rewrite Hs, Hc, Hn, Hcontent, Hivf, Hfind, Hr.
  rewrite !trim_bufferToBase64, Hx1, Hx2.
  destruct (65536 <? _) eqn:Hlt.
  { apply Z.ltb_lt in Hlt. rewrite Hl1 in Hlt. Z.div_mod_to_equations. lia. }
  unfold Message_create. rewrite Hfk.
  assert (Hb1 : (Z.of_nat (String.length nick) <=? 32) = true) by by apply Z.leb_le.
  assert (Hb2 : (utf8_length (bufferToBase64 cipherBuf) <=? 65535) = true).
  { apply Z.leb_le. rewrite utf8_length_bufferToBase64, Hl1.
    Z.div_mod_to_equations. lia. }
  assert (Hb3 : (Z.of_nat (String.length (bufferToBase64 iv)) <=? 64) = true).
  { apply Z.leb_le. rewrite Hl2, Hiv. vm_compute. discriminate. }
  rewrite Hb1, Hb2, Hb3. cbn [andb db messages rooms outbox].
  split.
  { eexists. split; [reflexivity |]. cbn [msg_nickname msg_content msg_iv]. done. }
  eexists. split; [reflexivity |]. split.
  - eapply Forall_impl; [apply broadcast_ev |]. intros d (Hev & _).
    exists (bufferToBase64 cipherBuf), (bufferToBase64 iv). done.
  - intros other Hin. rewrite delivered_ids_broadcast_exact.
    by destruct (decide _).
Qed.

(** "alice" types " hi " into the group room. *)
Lemma sent_message_decrypts_witness :
  exists payload,
    sendMessage true (Some sample_key) sample_iv " hi " = Some payload
    /\ exists m,
         messages (db (chat_message xss_text (t0 + 5) "s1" payload joined_server))
         = (messages (db joined_server) ++ [m])%list
         /\ decrypt sample_key (msg_content m) (msg_iv m) = Some "hi".
Proof.
  assert (Hs : sockets joined_server !! "s1"
               = Some (mkSession (Some "ABC123") (Some "alice") (Some 1)))
    by reflexivity.
  assert (Hf : Room_findByCode "ABC123" (db joined_server) = Some room_g) by reflexivity.
  assert (Ht : trim " hi " <> "") by discriminate.
  assert (Hl : 0 < Z.of_nat (length (subtle_encrypt sample_key sample_iv
                                       (TextEncoder_encode (trim " hi ")))) <= 49149).
  { vm_compute. split; [reflexivity | discriminate]. }
  assert (Hn : Z.of_nat (String.length "alice") <= 32) by (vm_compute; discriminate).
  destruct (@sent_message_decrypts sample_platform xss_text (t0 + 5) "s1" joined_server
              _ "ABC123" "alice" 1 room_g sample_key sample_iv " hi "
              Hs eq_refl eq_refl eq_refl Hf eq_refl Hn Ht eq_refl Hl eq_refl eq_refl
              eq_refl eq_refl)
    as (payload & Hp & (m & Hm & _ & Hd) & _).
  exists payload. split; [exact Hp |]. exists m. split; [exact Hm | exact Hd].
Defined.



(** ** The characters of a room code *)

(** X29.  The characters of a code are not equally likely under a uniform
    byte: [bytes[i] % 36] sends eight of the 256 byte values to each of
    the first four characters of [CHARS] and seven to each of the other
    thirty-two. *)
Theorem code_char_bias (i : Z) :
  0 <= i < 36 ->
  length (bytes_giving (char_of_byte i)) = if i <? 4 then 8%nat else 7%nat.
Proof.
  intros Hi.
  assert (Hall : forallb (fun i => Nat.eqb (length (bytes_giving (char_of_byte i)))
                                     (if i <? 4 then 8%nat else 7%nat))
                   (Z.of_nat <$> seq 0 36) = true) by (vm_compute; reflexivity).
  rewrite forallb_forall in Hall. apply Nat.eqb_eq, Hall.
  apply in_map_iff. exists (Z.to_nat i). split; [lia |]. apply in_seq. lia.
Qed.

Lemma code_char_bias_witness :
  length (bytes_giving "A") = 8%nat.
Proof.
  apply (code_char_bias 0). lia.
Defined.

(** ** The countdown of the chat header *)

(** X30.  What [tick] shows.  Once the expiry has come, by the liveness
    predicate, the header reads "Session expired", carries the warning
    and the interval is cleared.  Before, it reads "Expires in" and the
    hours, minutes and seconds left, rounded down to the second and each
    at least two digits wide, the interval goes on, and the warning is
    added as soon as no more than a minute is left; it is never taken
    away.  So the header reads "Session expired" exactly when the room is
    not alive any more. *)
Theorem tick_countdown (expiresAt now : Z) (d : TimerDisplay) :
  (isAlive expiresAt now = false ->
   tick expiresAt now d = (mkTimerDisplay "Session expired" true, true))
  /\ (isAlive expiresAt now = true ->
      exists h m s,
        0 <= h /\ 0 <= m < 60 /\ 0 <= s < 60
        /\ (h * 3600 + m * 60 + s) * 1000 <= expiresAt - now
           < (h * 3600 + m * 60 + s + 1) * 1000
        /\ tick expiresAt now d
           = (mkTimerDisplay
                ("Expires in " ++ padStart2 (String_of h) ++ ":"
                 ++ padStart2 (String_of m) ++ ":" ++ padStart2 (String_of s))
                ((expiresAt - now <=? 60000) || timer_warning d),
              false))
  /\ (textContent (tick expiresAt now d).1 = "Session expired"
      <-> isAlive expiresAt now = false).
Proof.
  unfold isAlive.
  assert (Hdead : (expiresAt <=? now) = true ->
                  tick expiresAt now d = (mkTimerDisplay "Session expired" true, true)).
  { intros H. apply Z.leb_le in H. unfold tick.
    replace (Z.max 0 (expiresAt - now)) with 0 by lia. reflexivity. }
  assert (Hlive : (expiresAt <=? now) = false ->
                  tick expiresAt now d
                  = (mkTimerDisplay
                       ("Expires in "
                        ++ padStart2 (String_of ((expiresAt - now) / 3600000)) ++ ":"
                        ++ padStart2 (String_of ((expiresAt - now) mod 3600000 / 60000))
                        ++ ":"
                        ++ padStart2 (String_of ((expiresAt - now) mod 60000 / 1000)))
                       ((expiresAt - now <=? 60000) || timer_warning d),
                     false)).
  { intros H. apply Z.leb_gt in H. unfold tick.
    replace (Z.max 0 (expiresAt - now)) with (expiresAt - now) by lia.
    destruct (expiresAt - now <=? 0) eqn:E; [apply Z.leb_le in E; lia |].
    by destruct (expiresAt - now <=? 60000). }
  split; [| split].
  - intros H. apply negb_false_iff in H. by apply Hdead.
  - intros H. apply negb_true_iff in H.
    exists ((expiresAt - now) / 3600000), ((expiresAt - now) mod 3600000 / 60000),
           ((expiresAt - now) mod 60000 / 1000).
    apply Z.leb_gt in H as Hlt.
    repeat split; try (Z.div_mod_to_equations; lia).
    by apply Hlive.
  - destruct (expiresAt <=? now) eqn:E.
    + rewrite (Hdead eq_refl). done.
    + rewrite (Hlive eq_refl). cbn [fst textContent negb]. split; [| done].
      intros Habs. discriminate Habs.
Qed.
